(** * Airline market demand analyzer: cleaning, analytics, fallback and limits

    A shallow embedding of the core of the repository:

    - [app/services/data_processing.py]  (DataCleaner, DataProcessor,
                                          process_flight_data)
    - [app/services/data_service.py]     (DataService._init_clients, _with_fallback,
                                          get_airports, the try block of
                                          search_flight_offers)
    - [app/services/base_client.py]      (BaseApiClient._make_request)
    - [app/services/mock_data_provider.py] (MockDataProvider)
    - [app/utils/rate_limiter.py]        (RateLimiter)

    Python dictionaries are finite maps from strings to dynamically typed
    values, exceptions are an explicit error result, and the libraries the
    code calls (dateutil, the HTTP session, the random module) are taken as
    parameters wherever their behaviour is not fixed by the repository.

    The limits of the embedding: strings are sequences of bytes with the
    ASCII reading of [isalpha], [isdigit], [upper] and [strip]; floats are
    the rationals they denote, without NaN, infinities or the rounding of
    binary64; datetimes are naive and counted in microseconds on unbounded
    integers. A statement that depends on one of these says so. *)

From Stdlib Require Import ZArith QArith Qabs Qround String Ascii List Lia Lqa Bool Sorted.
From stdpp Require Import gmap strings list fin_maps.
Import ListNotations.

Local Open Scope string_scope.
Local Open Scope Z_scope.

(** ** Python values and exceptions *)

Module Py.

(** The exception classes that the modelled code raises or catches. *)
Inductive exn : Type :=
| ValueError | TypeError | OverflowError | OSError | KeyError
| AttributeError | IndexError | NameError | ZeroDivisionError | AssertionError.

(** The outcome of a Python call: a value or a raised exception. *)
Inductive result (A : Type) : Type :=
| Ok (a : A)
| Raise (e : exn).
Arguments Ok {A} a.
Arguments Raise {A} e.

(** Sequencing stops at the first exception; [x ← r; k] is stdpp's notation. *)
#[export] Instance result_bind : MBind result := fun A B k r =>
  match r with
  | Ok a => k a
  | Raise e => Raise e
  end.

#[export] Instance result_ret : MRet result := fun A a => Ok a.

#[export] Instance result_fmap : FMap result := fun A B g r =>
  match r with
  | Ok a => Ok (g a)
  | Raise e => Raise e
  end.

Definition is_ok {A} (r : result A) : bool :=
  match r with Ok _ => true | Raise _ => false end.

(** [except (ValueError, TypeError)] *)
Definition value_or_type (e : exn) : bool :=
  match e with ValueError | TypeError => true | _ => false end.

(** A float is represented by the rational it denotes (finite floats only);
    the rounding of binary64 is not modelled, only order, sign and exact
    arithmetic are. *)
#[warnings="-register-all"]
Inductive pyval : Type :=
| VNone
| VBool (b : bool)
| VInt (z : Z)
| VFloat (q : Q)
| VStr (s : string)
| VList (l : list pyval)
| VDict (d : gmap string pyval).

(** Rational comparisons as booleans. *)
Definition Qltb (x y : Q) : bool := (Qnum x * QDen y <? Qnum y * QDen x)%Z.
Definition Qis_zero (x : Q) : bool := (Qnum x =? 0)%Z.

(** Python truthiness ([if v:]). *)
Definition truthy (v : pyval) : bool :=
  match v with
  | VNone => false
  | VBool b => b
  | VInt z => negb (z =? 0)%Z
  | VFloat q => negb (Qis_zero q)
  | VStr s => negb (String.eqb s "")
  | VList l => match l with [] => false | _ => true end
  | VDict d => negb (bool_decide (d = ∅))
  end.

(** *** Characters and strings (ASCII) *)

Definition is_digit (c : ascii) : bool :=
  let n := nat_of_ascii c in (48 <=? n)%nat && (n <=? 57)%nat.

Definition is_upper (c : ascii) : bool :=
  let n := nat_of_ascii c in (65 <=? n)%nat && (n <=? 90)%nat.

Definition is_lower (c : ascii) : bool :=
  let n := nat_of_ascii c in (97 <=? n)%nat && (n <=? 122)%nat.

Definition is_alpha (c : ascii) : bool := is_upper c || is_lower c.

(** Whitespace removed by [str.strip()]: tab, LF, VT, FF, CR, FS..US, space. *)
Definition is_space (c : ascii) : bool :=
  let n := nat_of_ascii c in
  ((9 <=? n)%nat && (n <=? 13)%nat) || ((28 <=? n)%nat && (n <=? 32)%nat).

Definition upper_char (c : ascii) : ascii :=
  if is_lower c then ascii_of_nat (nat_of_ascii c - 32) else c.

Fixpoint drop_while (p : ascii -> bool) (l : list ascii) : list ascii :=
  match l with
  | [] => []
  | c :: r => if p c then drop_while p r else l
  end.

Definition chars (s : string) : list ascii := list_ascii_of_string s.
Definition str (l : list ascii) : string := string_of_list_ascii l.

(** [s.upper()], [s.strip()], [s.isalpha()], [len(s)] *)
Definition upper (s : string) : string := str (map upper_char (chars s)).

Definition strip (s : string) : string :=
  str (rev (drop_while is_space (rev (drop_while is_space (chars s))))).

Definition isalpha (s : string) : bool :=
  match chars s with
  | [] => false
  | l => forallb is_alpha l
  end.

Definition len (s : string) : Z := Z.of_nat (String.length s).

(** [sep.join(parts)] *)
Fixpoint join (sep : string) (parts : list string) : string :=
  match parts with
  | [] => ""
  | [p] => p
  | p :: rest => p ++ sep ++ join sep rest
  end.

Definition lower_char (c : ascii) : ascii :=
  if is_upper c then ascii_of_nat (nat_of_ascii c + 32) else c.

(** [s.lower()] *)
Definition lower (s : string) : string := str (map lower_char (chars s)).

Fixpoint is_prefix (p l : list ascii) : bool :=
  match p, l with
  | [], _ => true
  | a :: p', b :: l' => Ascii.eqb a b && is_prefix p' l'
  | _ :: _, [] => false
  end.

Fixpoint has_infix (p l : list ascii) : bool :=
  is_prefix p l || match l with [] => false | _ :: l' => has_infix p l' end.

(** [sub in s] on strings *)
Definition contains (sub s : string) : bool := has_infix (chars sub) (chars s).

(** *** Numeric conversions *)

Definition digit_val (c : ascii) : Z := Z.of_nat (nat_of_ascii c - 48).

(** The value of a run of decimal digits, most significant first. *)
Definition digits_val (l : list ascii) : Z :=
  fold_left (fun acc c => 10 * acc + digit_val c) l 0.

(** Digits of an integer literal: single underscores may separate digits. *)
Fixpoint literal_digits (l : list ascii) (after_digit : bool) : option (list ascii) :=
  match l with
  | [] => if after_digit then Some [] else None
  | c :: rest =>
      if is_digit c then r ← literal_digits rest true; Some (c :: r)
      else if Ascii.eqb c "_" && after_digit then
        match rest with
        | d :: _ => if is_digit d then literal_digits rest false else None
        | [] => None
        end
      else None
  end.

(** [int(s)]: surrounding whitespace, an optional sign and decimal digits;
    anything else is a ValueError. The ValueError that Python raises for a
    string of more than 4300 digits is not modelled. *)
Definition int_of_string (s : string) : result Z :=
  let unsigned (l : list ascii) :=
    match literal_digits l false with
    | Some ds => Ok (digits_val ds)
    | None => Raise ValueError
    end in
  match chars (strip s) with
  | "-"%char :: l => n ← unsigned l; Ok (- n)
  | "+"%char :: l => unsigned l
  | l => unsigned l
  end.

Fixpoint split_dot (l : list ascii) : list ascii * option (list ascii) :=
  match l with
  | [] => ([], None)
  | "."%char :: r => ([], Some r)
  | c :: r => let '(a, b) := split_dot r in (c :: a, b)
  end.

(** [float(s)] on a string made of digits, ['.'] and ['-'] only: an optional
    minus sign, then digits with at most one point and at least one digit. *)
Definition float_of_string (s : string) : result Q :=
  let unsigned (l : list ascii) : result Q :=
    let '(ip, rest) := split_dot l in
    let fp := match rest with Some r => r | None => [] end in
    if forallb is_digit ip && forallb is_digit fp
       && negb ((length ip + length fp =? 0)%nat)
    then Ok (Qred (Qmake (digits_val (ip ++ fp)) (Z.to_pos (10 ^ Z.of_nat (length fp)))))
    else Raise ValueError in
  match chars s with
  | "-"%char :: l => q ← unsigned l; Ok (Qred (- q))
  | l => unsigned l
  end.

(** The largest magnitude an [int] may have for [float(int)] to succeed. *)
Definition float_max_int : Z := 2 ^ 1024 - 2 ^ 970.

(** [float(v)] for a value that is not a string. *)
Definition float_of_value (v : pyval) : result Q :=
  match v with
  | VBool b => Ok (if b then 1 else 0)%Q
  | VInt z => if (Z.abs z <? float_max_int)%Z then Ok (inject_Z z) else Raise OverflowError
  | VFloat q => Ok q
  | _ => Raise TypeError
  end.

(** Truncation toward zero, as [int(x)] does on a float. *)
Definition Qtrunc (q : Q) : Z := Z.quot (Qnum q) (Zpos (Qden q)).

(** [int(v)] for a value that is not a string. A float is finite here; on
    an infinite one [int] raises an OverflowError and on NaN a ValueError. *)
Definition int_of_value (v : pyval) : result Z :=
  match v with
  | VBool b => Ok (if b then 1 else 0)
  | VInt z => Ok z
  | VFloat q => Ok (Qtrunc q)
  | _ => Raise TypeError
  end.

(** Decimal digits of a non-negative integer, for [str(int)]. *)
Fixpoint nat_digits (fuel : nat) (n : Z) (acc : list ascii) : list ascii :=
  match fuel with
  | O => acc
  | S fuel' =>
      let acc' := ascii_of_nat (48 + Z.to_nat (n mod 10)) :: acc in
      if (n <? 10)%Z then acc' else nat_digits fuel' (n / 10) acc'
  end.

Definition str_of_int (z : Z) : string :=
  let body := str (nat_digits (S (Z.to_nat (Z.log2 (Z.abs z)))) (Z.abs z) []) in
  if (z <? 0)%Z then "-" ++ body else body.

End Py.

(** ** Dates: the datetime values and the date libraries the code calls *)

Module Dates.
Import Py.

(** A [datetime]: wall-clock microseconds since the epoch and, when the value
    is timezone-aware, its UTC offset in microseconds. *)
Record datetime : Type := mk_datetime {
  wall_us : Z;
  utcoffset_us : option Z
}.

(** [(a - b).total_seconds() / 60]: mixing naive and aware values is a
    TypeError, as in the standard library. *)
Definition minutes_between (a b : datetime) : result Q :=
  match utcoffset_us a, utcoffset_us b with
  | None, None => Ok (Qred ((wall_us a - wall_us b) # 60000000))
  | Some oa, Some ob =>
      Ok (Qred (((wall_us a - oa) - (wall_us b - ob)) # 60000000))
  | _, _ => Raise TypeError
  end.

(** What the cleaning code uses from [datetime], [dateutil.parser] and from
    the printing of values it does not build itself. Their behaviour is not
    defined in the repository, so the cleaner is parametric in it. *)
Record DateLib : Type := {
  (** [datetime.fromtimestamp(x).isoformat()] *)
  fromtimestamp_iso : pyval -> result string;
  (** [parser.parse(s).isoformat()] *)
  parse_iso : string -> result string;
  (** [parser.isoparse(v)] *)
  isoparse : pyval -> result datetime;
  (** [str(v)] for floats, lists and dictionaries *)
  repr_other : pyval -> string
}.

(** *** A concrete library for the strict format [YYYY-MM-DDTHH:MM:SS]

    On strings of exactly this shape with a valid calendar date, dateutil
    parses the value to the naive datetime it denotes and [isoformat] prints
    the same string back. Everything else is treated as unparseable here,
    which is only a restriction of dateutil; the concrete library is used to
    evaluate the cleaner on explicit records. *)

Definition two (a b : ascii) : option Z :=
  if is_digit a && is_digit b then Some (10 * digit_val a + digit_val b) else None.

Definition leap (y : Z) : bool :=
  ((y mod 4 =? 0) && negb (y mod 100 =? 0)) || (y mod 400 =? 0).

Definition days_in_month (y m : Z) : Z :=
  if m =? 2 then (if leap y then 29 else 28)
  else if (m =? 4) || (m =? 6) || (m =? 9) || (m =? 11) then 30 else 31.

(** Days from 1970-01-01 to the civil date [y-m-d] (proleptic Gregorian). *)
Definition days_from_civil (y m d : Z) : Z :=
  let y' := if m <=? 2 then y - 1 else y in
  let era := y' / 400 in
  let yoe := y' - era * 400 in
  let mp := (m + 9) mod 12 in
  let doy := (153 * mp + 2) / 5 + d - 1 in
  let doe := yoe * 365 + yoe / 4 - yoe / 100 + doy in
  era * 146097 + doe - 719468.

Definition strict_iso (s : string) : option datetime :=
  match chars s with
  | [y1; y2; y3; y4; "-"%char; m1; m2; "-"%char; d1; d2; "T"%char;
     h1; h2; ":"%char; n1; n2; ":"%char; s1; s2] =>
      yh ← two y1 y2; yl ← two y3 y4; mo ← two m1 m2; dd ← two d1 d2;
      hh ← two h1 h2; mi ← two n1 n2; ss ← two s1 s2;
      let y := 100 * yh + yl in
      if (1 <=? y) && (1 <=? mo) && (mo <=? 12) && (1 <=? dd)
         && (dd <=? days_in_month y mo) && (hh <=? 23) && (mi <=? 59) && (ss <=? 59)
      then Some (mk_datetime
                   ((days_from_civil y mo dd * 86400 + hh * 3600 + mi * 60 + ss) * 1000000)
                   None)
      else None
  | _ => None
  end.

Definition strict_lib : DateLib := {|
  fromtimestamp_iso := fun _ => Raise OSError;
  parse_iso := fun s => match strict_iso s with Some _ => Ok s | None => Raise ValueError end;
  isoparse := fun v =>
    match v with
    | VStr s => match strict_iso s with Some d => Ok d | None => Raise ValueError end
    | _ => Raise TypeError
    end;
  repr_other := fun _ => "?"
|}.

End Dates.

(** ** DataCleaner ([app/services/data_processing.py]) *)

Module DataCleaner.
Import Py Dates.

(** A raw or cleaned flight record: a dictionary with string keys. *)
Abbreviation flight := (gmap string pyval).

(** [f"{field}_raw"] *)
Definition raw_key (field : string) : string := String.append field "_raw".

(** [flight[f"{field}_raw"] = v; del flight[field]] *)
Definition quarantine (field : string) (v : pyval) (f : flight) : flight :=
  delete field (<[raw_key field := v]> f).

(** [try: attempt  except (ValueError, TypeError): handler]; any other
    exception leaves the block. *)
Definition try_value_type {A} (attempt : result A) (handler : result A) : result A :=
  match attempt with
  | Ok a => Ok a
  | Raise e => if value_or_type e then handler else Raise e
  end.

(** [for field in fields: flight = step(flight, field)] with exceptions. *)
Fixpoint for_each {A S} (step : S -> A -> result S) (s : S) (l : list A) : result S :=
  match l with
  | [] => Ok s
  | a :: rest => s' ← step s a; for_each step s' rest
  end.

Definition date_fields : list string :=
  ["departure_time"; "arrival_time"; "booking_date"; "created_at"; "updated_at"].

Definition code_fields : list string :=
  ["origin"; "destination"; "operating_airline"; "marketing_airline"].

Definition numeric_fields : list string :=
  ["price"; "base_fare"; "taxes"; "fees"; "available_seats";
   "total_seats"; "flight_duration"; "distance"; "baggage_allowance"].

Definition airline_fields : list string := ["operating_airline"; "marketing_airline"].

Definition first_class_codes : list string := ["F"; "A"; "P"].
Definition business_class_codes : list string := ["J"; "C"; "D"; "I"; "Z"].
Definition economy_class_codes : list string :=
  ["W"; "E"; "Y"; "B"; "M"; "H"; "Q"; "K"; "L"; "V"; "S"; "N"].

(** [x in list_of_strings] *)
Definition str_in (x : string) (l : list string) : bool := existsb (String.eqb x) l.

(** [x < 0] and [abs(x)] on the numbers the cleaner stores. *)
Definition negative (v : pyval) : bool :=
  match v with
  | VInt z => (z <? 0)%Z
  | VFloat q => Qltb q 0
  | _ => false
  end.

Definition py_abs (v : pyval) : pyval :=
  match v with
  | VInt z => VInt (Z.abs z)
  | VFloat q => VFloat (Qabs q)
  | _ => v
  end.

Section Cleaner.

Variable lib : DateLib.

(** [str(v)] *)
Definition py_str (v : pyval) : string :=
  match v with
  | VStr s => s
  | VInt z => str_of_int z
  | VBool true => "True"
  | VBool false => "False"
  | VNone => "None"
  | _ => repr_other lib v
  end.

(** One iteration of the loop of [_standardize_dates]. *)
Definition standardize_date (f : flight) (field : string) : result flight :=
  match f !! field with
  | Some v =>
      if truthy v then
        try_value_type
          match v with
          | VBool _ | VInt _ | VFloat _ =>
              s ← fromtimestamp_iso lib v; Ok (<[field := VStr s]> f)
          | VStr s =>
              s' ← parse_iso lib s; Ok (<[field := VStr s']> f)
          | _ => Ok f
          end
          (Ok (quarantine field v f))
      else Ok f
  | None => Ok f
  end.

Definition _standardize_dates (f : flight) : result flight :=
  for_each standardize_date f date_fields.

(** One iteration of the loop of [_clean_airport_codes]. *)
Definition clean_code (f : flight) (field : string) : flight :=
  match f !! field with
  | Some v =>
      if truthy v then
        let code := upper (strip (py_str v)) in
        if negb ((2 <=? len code) && (len code <=? 4) && isalpha code)
        then delete field (<[raw_key field := VStr code]> f)
        else <[field := VStr code]> f
      else f
  | None => f
  end.

Definition _clean_airport_codes (f : flight) : flight :=
  fold_left clean_code code_fields f.

(** The conversion inside the [try] of [_clean_numeric_fields]. *)
Definition to_number (v : pyval) : result pyval :=
  match v with
  | VStr s =>
      let value :=
        str (List.filter (fun c => is_digit c || Ascii.eqb c "." || Ascii.eqb c "-") (chars s)) in
      if existsb (Ascii.eqb ".") (chars value)
      then q ← float_of_string value; Ok (VFloat q)
      else n ← int_of_string value; Ok (VInt n)
  | _ => q ← float_of_value v; Ok (VFloat q)
  end.

(** One iteration of the loop of [_clean_numeric_fields]. *)
Definition clean_numeric (f : flight) (field : string) : result flight :=
  match f !! field with
  | Some VNone => Ok f
  | Some v =>
      try_value_type
        (x ← to_number v;
         Ok (<[field := if negative x then py_abs x else x]> f))
        (Ok (quarantine field v f))
  | None => Ok f
  end.

Definition _clean_numeric_fields (f : flight) : result flight :=
  for_each clean_numeric f numeric_fields.

(** The flight-number part of [_clean_airline_info]. *)
Definition clean_flight_number (f : flight) : result flight :=
  match f !! "flight_number" with
  | Some v =>
      if truthy v then
        try_value_type
          (n ← match v with
               | VStr s => int_of_string (str (List.filter is_digit (chars s)))
               | _ => int_of_value v
               end;
           Ok (<["flight_number" := VInt n]> f))
          (Ok (quarantine "flight_number" v f))
      else Ok f
  | None => Ok f
  end.

(** [flight[airline_field] = flight[airline_field].upper()]: only strings
    have the method. *)
Definition upper_airline (f : flight) (field : string) : result flight :=
  match f !! field with
  | Some v =>
      if truthy v then
        match v with
        | VStr s => Ok (<[field := VStr (upper s)]> f)
        | _ => Raise AttributeError
        end
      else Ok f
  | None => Ok f
  end.

Definition _clean_airline_info (f : flight) : result flight :=
  f' ← clean_flight_number f;
  for_each upper_airline f' airline_fields.

(** ['_'.join(part for part in parts if part)]: a part that is kept and is
    not a string is a TypeError. *)
Fixpoint join_parts (parts : list pyval) : result (list string) :=
  match parts with
  | [] => Ok []
  | v :: rest =>
      if truthy v then
        match v with
        | VStr s => l ← join_parts rest; Ok (s :: l)
        | _ => Raise TypeError
        end
      else join_parts rest
  end.

(** [flight.get(key, '')] *)
Definition get_or_empty (f : flight) (key : string) : pyval :=
  default (VStr "") (f !! key).

Definition add_id (f : flight) : result flight :=
  match f !! "id" with
  | Some _ => Ok f
  | None =>
      l ← join_parts [get_or_empty f "operating_airline";
                      VStr (py_str (get_or_empty f "flight_number"));
                      get_or_empty f "origin";
                      get_or_empty f "departure_time"];
      Ok (<["id" := VStr (join "_" l)]> f)
  end.

Definition add_duration (f : flight) : result flight :=
  match f !! "flight_duration", f !! "departure_time", f !! "arrival_time" with
  | None, Some dep, Some arr =>
      try_value_type
        (dep_time ← isoparse lib dep;
         arr_time ← isoparse lib arr;
         m ← minutes_between arr_time dep_time;
         Ok (<["flight_duration" := VFloat m]> f))
        (Ok f)
  | _, _, _ => Ok f
  end.

Definition add_cabin_class (f : flight) : flight :=
  match f !! "booking_class" with
  | Some (VStr s) =>
      let booking_class := upper s in
      if str_in booking_class first_class_codes then <["cabin_class" := VStr "First"]> f
      else if str_in booking_class business_class_codes then <["cabin_class" := VStr "Business"]> f
      else if str_in booking_class economy_class_codes then <["cabin_class" := VStr "Economy"]> f
      else f
  | _ => f
  end.

Definition _add_derived_fields (f : flight) : result flight :=
  f1 ← add_id f;
  f2 ← add_duration f1;
  Ok (add_cabin_class f2).

(** The body of the [try] in the loop of [clean_flight_data]. *)
Definition clean_record (f : flight) : result flight :=
  f1 ← _standardize_dates f;
  f3 ← _clean_numeric_fields (_clean_airport_codes f1);
  f4 ← _clean_airline_info f3;
  _add_derived_fields f4.

(** [clean_flight_data]: a record whose cleaning raises is logged and
    skipped by the [except Exception: ... continue] of the loop. *)
Fixpoint clean_loop (flight_data : list flight) : list flight :=
  match flight_data with
  | [] => []
  | f :: rest =>
      match clean_record f with
      | Ok f' => f' :: clean_loop rest
      | Raise _ => clean_loop rest
      end
  end.

Definition clean_flight_data (flight_data : list flight) : list flight :=
  match flight_data with
  | [] => []
  | _ => clean_loop flight_data
  end.

End Cleaner.

(** The keys that [_clean_airline_info] and [_add_derived_fields] may write. *)
Definition later_keys : list string :=
  ["flight_number"; "flight_number_raw"; "operating_airline"; "marketing_airline";
   "id"; "flight_duration"; "cabin_class"].

(** A number that is not below zero. *)
Definition nonneg_number (v : pyval) : Prop :=
  match v with
  | VInt z => 0 <= z
  | VFloat q => (0 <= q)%Q
  | _ => False
  end.

(** The record of the cleaning scenario of the specification. *)
Definition scenario_record : flight :=
  <["origin" := VStr "  syd  "]>
  (<["price" := VStr "$199.99"]>
  (<["available_seats" := VStr "150"]>
  (<["flight_number" := VStr "QF400"]>
  (<["booking_class" := VStr "Y"]> ∅)))).


(** A record that arrives a day before it departs. *)
Definition late_arrival_record : flight :=
  <["departure_time" := VStr "2024-01-02T00:00:00"]>
  (<["arrival_time" := VStr "2024-01-01T00:00:00"]>
  (<["price" := VInt (-120)]> ∅)).

End DataCleaner.

(** ** DataProcessor.detect_price_anomalies ([app/services/data_processing.py]) *)

Module DataProcessor.
Import Py Dates.
Import DataCleaner (flight).

(** What the detector uses from pandas to build its two columns: the
    conversion of a cell of [departure_time] by [pd.to_datetime] (a missing
    cell is [None], "not a time") and the numeric value of a cell of [price]
    (a missing cell is [None], "not a number"). A cell the column cannot
    hold raises, and the detector then returns its input unchanged. *)
Record FrameLib : Type := {
  to_datetime : option pyval -> result (option Z);
  to_float : option pyval -> result (option Q)
}.

(** A z-score [dev / sqrt var] kept as its two rational parts, or NaN. *)
Inductive zscore : Type :=
| ZNaN
| ZRatio (dev var : Q).

(** A row of the result: the record with its two added columns, or the
    record as it was given when the computation failed. *)
Inductive out_row : Type :=
| Scored (f : flight) (price_zscore : zscore) (is_anomaly : bool)
| Unscored (f : flight).

Definition Qsum (l : list Q) : Q := fold_right Qplus 0%Q l.

(** Rolling mean over the observed values of a window ([min_periods=1]). *)
Definition window_mean (obs : list Q) : option Q :=
  match obs with
  | [] => None
  | _ => Some (Qred (Qsum obs / inject_Z (Z.of_nat (length obs))))
  end.

(** Rolling sample variance (pandas' [std] has [ddof=1]): not a number with
    fewer than two observed values. *)
Definition window_var (obs : list Q) : option Q :=
  match window_mean obs with
  | Some m =>
      if (length obs <? 2)%nat then None
      else Some (Qred (Qsum (map (fun x => (x - m) * (x - m))%Q obs)
                       / inject_Z (Z.of_nat (length obs) - 1)))
  | None => None
  end.

(** The windows of [rolling(window=w)]: for each row, that row and the
    [w - 1] rows before it. *)
Fixpoint windows (w : nat) (seen : list (option Q)) (col : list (option Q))
  : list (list (option Q)) :=
  match col with
  | [] => []
  | x :: rest => let seen' := x :: seen in firstn w seen' :: windows w seen' rest
  end.

(** [(price - roll_mean) / roll_std] *)
Definition zscore_of (price : option Q) (window : list (option Q)) : zscore :=
  let obs := omap id window in
  match price, window_mean obs, window_var obs with
  | Some x, Some m, Some v => ZRatio (Qred (x - m)%Q) v
  | _, _, _ => ZNaN
  end.

(** [abs(z) > threshold]. With [std > 0] this is [dev^2 > threshold^2 * var]
    for a non-negative threshold; a zero [std] gives an infinite score unless
    the deviation is zero too, which gives NaN; NaN compares false. The
    comparison is that of the exact score: a score within the rounding
    error of the threshold may compare the other way in binary64. *)
Definition exceeds (z : zscore) (threshold : Q) : bool :=
  match z with
  | ZNaN => false
  | ZRatio dev var =>
      if Qis_zero var then negb (Qis_zero dev)
      else if Qltb threshold 0 then true
      else Qltb (threshold * threshold * var)%Q (dev * dev)%Q
  end.

(** Rows ordered by time, rows without a time last ([sort_values]); rows
    with the same time keep their order here. The quicksort that pandas
    uses by default may order rows of the same time otherwise; what is
    proved of the sorted rows does not depend on that order, except at a
    fixture whose times are all different. *)
Definition time_le (a b : option Z) : bool :=
  match a, b with
  | Some x, Some y => (x <=? y)%Z
  | Some _, None => true
  | None, Some _ => false
  | None, None => true
  end.

Fixpoint insert_row (r : option Z * flight) (l : list (option Z * flight))
  : list (option Z * flight) :=
  match l with
  | [] => [r]
  | x :: rest =>
      if negb (time_le (fst r) (fst x)) then x :: insert_row r rest else r :: l
  end.

Definition sort_values (l : list (option Z * flight)) : list (option Z * flight) :=
  fold_right insert_row [] l.

(** [mapM]: convert every cell of a column, failing at the first bad cell. *)
Fixpoint column {A B} (conv : A -> result B) (l : list A) : result (list B) :=
  match l with
  | [] => Ok []
  | a :: rest => b ← conv a; bs ← column conv rest; Ok (b :: bs)
  end.

Section Detector.

Variable lib : FrameLib.

(** The body of the [try]: build the frame, sort it by time when the column
    exists, and score each row against its rolling window. *)
Definition score_rows (flights : list flight) (window : Z) (threshold : Q)
  : result (list out_row) :=
  rows ← (if existsb (fun f => bool_decide (is_Some (f !! "departure_time"))) flights
          then times ← column (fun f => to_datetime lib (f !! "departure_time")) flights;
               Ok (map snd (sort_values (combine times flights)))
          else Ok flights);
  if (window <? 1)%Z then Raise ValueError
  else
    prices ← column (fun f => to_float lib (f !! "price")) rows;
    let zs := zip_with zscore_of prices (windows (Z.to_nat window) [] prices) in
    Ok (zip_with (fun f z => Scored f z (exceeds z threshold)) rows zs).

(** [detect_price_anomalies(flights, window, threshold)] *)
Definition detect_price_anomalies (flights : list flight) (window : Z) (threshold : Q)
  : list out_row :=
  match flights with
  | [] => []
  | first :: _ =>
      match first !! "price" with
      | None => []
      | Some _ =>
          match score_rows flights window threshold with
          | Ok rows => rows
          | Raise _ => map Unscored flights
          end
      end
  end.

End Detector.

(** A concrete frame for records whose prices are numbers and whose times
    are strict ISO strings. *)
Definition numeric_frame : FrameLib := {|
  to_datetime := fun c =>
    match c with
    | None | Some VNone => Ok None
    | Some (VStr s) =>
        match strict_iso s with
        | Some d => Ok (Some (wall_us d))
        | None => Raise ValueError
        end
    | Some _ => Raise TypeError
    end;
  to_float := fun c =>
    match c with
    | None | Some VNone => Ok None
    | Some (VInt z) => Ok (Some (inject_Z z))
    | Some (VFloat q) => Ok (Some q)
    | Some _ => Raise TypeError
    end
|}.

(** The fixture of [tests/test_data_processing.py::test_detect_price_anomalies]:
    twenty hourly prices 190..209, then 500 at hour 21 and 50 at hour 22. *)
Definition two_digits (n : Z) : string :=
  str [ascii_of_nat (48 + Z.to_nat (n / 10)); ascii_of_nat (48 + Z.to_nat (n mod 10))].

Definition test_flight (hour price : Z) (flight_number : string) : flight :=
  <["departure_time" := VStr (String.append "2023-12-01T" (String.append (two_digits hour) ":00:00"))]>
  (<["price" := VInt price]>
  (<["origin" := VStr "SYD"]>
  (<["destination" := VStr "MEL"]>
  (<["flight_number" := VStr flight_number]> ∅)))).

Definition test_flights : list flight :=
  map (fun i => test_flight i (190 + i mod 20)
                  (String.append "QF" (str_of_int (400 + i mod 5))))
      (map Z.of_nat (seq 0 20))
  ++ [test_flight 21 500 "QF999"; test_flight 22 50 "QF888"].

(** A record that carries no price. *)
Definition unpriced_flight : flight :=
  <["departure_time" := VStr "2023-12-01T20:00:00"]>
  (<["origin" := VStr "SYD"]> (<["destination" := VStr "MEL"]> ∅)).

(** The price and the flag of each scored row. *)
Definition flags (rows : list out_row) : list (option pyval * bool) :=
  map (fun r => match r with
                | Scored f _ a => (f !! "price", a)
                | Unscored f => (f !! "price", false)
                end) rows.

End DataProcessor.

(** ** RateLimiter ([app/utils/rate_limiter.py]) *)

Module RateLimiter.
Import Py.

Record limiter : Type := {
  key_prefix : string;
  limit : Z;
  window : Z;
  scope : option string;
  by_ip : bool;
  by_user : bool;
  by_endpoint : bool
}.

(** [request.user] as starlette serves it: the property asserts that
    ["user"] is in the scope, which only AuthenticationMiddleware puts there;
    otherwise it is an object, truthy or not, with or without an [id]. *)
Inductive user_state : Type :=
| NoAuthentication
| User (is_truthy : bool) (id : option string).

(** What the limiter reads from a request: [request.client] (absent, or
    present with its [host]), the [x-forwarded-for] header, [request.user]
    and [request.url.path]. *)
Record request : Type := {
  client : option (option string);
  x_forwarded_for : option string;
  user : user_state;
  path : string
}.

(** [s.split(",")[0]] *)
Fixpoint before_comma (l : list ascii) : list ascii :=
  match l with
  | [] => []
  | c :: rest => if Ascii.eqb c "," then [] else c :: before_comma rest
  end.

Definition nonempty (s : string) : bool := negb (String.eqb s "").

(** [_get_redis_key]. With [by_user] the test
    [hasattr(request, "user") and request.user] reads the property:
    [hasattr] swallows an AttributeError only, so the AssertionError of a
    request without authentication leaves the method, and so does the
    AttributeError of a truthy user without an [id]. *)
Definition _get_redis_key (self : limiter) (req : request) : result string :=
  let parts := [key_prefix self] in
  let parts :=
    match scope self with
    | Some s => if nonempty s then (parts ++ [s])%list else parts
    | None => parts
    end in
  let parts :=
    if by_ip self then
      let ip :=
        match client req with
        | None => "unknown"
        | Some host =>
            match x_forwarded_for req with
            | Some h => strip (str (before_comma (chars h)))
            | None =>
                match host with
                | Some h => if nonempty h then h else "unknown"
                | None => "unknown"
                end
            end
        end in
      (parts ++ [String.append "ip:" ip])%list
    else parts in
  parts ←
    (if by_user self then
       match user req with
       | NoAuthentication => Raise AssertionError
       | User true (Some id) => Ok (parts ++ [String.append "user:" id])%list
       | User true None => Raise AttributeError
       | User false _ => Ok parts
       end
     else Ok parts);
  let parts :=
    if by_endpoint self then (parts ++ [String.append "endpoint:" (path req)])%list else parts in
  Ok (join ":" parts).

(** The dictionary both implementations return. *)
Record rate_info : Type := {
  info_limit : Z;
  remaining : Z;
  reset : Z;
  count : Z
}.

(** [_rate_limit_store]: per key, the count and the end of its window. *)
Abbreviation store := (gmap string (Z * Q)).

(** [_in_memory_rate_limit(key)], at time [current_time]. *)
Definition _in_memory_rate_limit (self : limiter) (key : string)
    (current_time : Q) (st : store) : rate_info * store :=
  let '(cnt, reset_time) :=
    match st !! key with
    | Some (cnt, reset_time) =>
        if Qltb reset_time current_time
        then (1, (current_time + inject_Z (window self))%Q)
        else (cnt + 1, reset_time)
    | None => (1, (current_time + inject_Z (window self))%Q)
    end in
  ({| info_limit := limit self;
      remaining := Z.max 0 (limit self - cnt);
      reset := Qtrunc (reset_time - current_time)%Q;
      count := cnt |},
   <[key := (cnt, reset_time)]> st).

(** The three Redis commands the Lua script calls, on a server state [R]. *)
Record RedisOps (R : Type) : Type := {
  INCR : string -> R -> Z * R;
  EXPIRE : string -> Z -> R -> R;
  TTL : string -> R -> Z
}.
Arguments INCR {R}.
Arguments EXPIRE {R}.
Arguments TTL {R}.

(** [_redis_rate_limit(key)]: the Lua script, run atomically on a server
    that [get_redis()] has connected to. *)
Definition _redis_rate_limit {R} (ops : RedisOps R) (self : limiter) (key : string)
    (r : R) : rate_info * R :=
  let '(current, r1) := INCR ops key r in
  let r2 := if current =? 1 then EXPIRE ops key (window self) r1 else r1 in
  let ttl := TTL ops key r2 in
  ({| info_limit := limit self;
      remaining := Z.max 0 (limit self - current);
      reset := ttl;
      count := current |}, r2).

(** How [check_rate_limit] ends when it gets as far as the rate
    information: with the information, or with [RateLimitExceeded] and its
    headers. *)
Inductive check_result : Type :=
| Within (info : rate_info)
| RateLimitExceeded (detail : string) (headers : list (string * string)).

(** The part of [check_rate_limit] after [rate_info] is known. *)
Definition decide_limit (info : rate_info) : check_result :=
  if remaining info <? 0 then
    RateLimitExceeded "Rate limit exceeded"
      [("X-RateLimit-Limit", str_of_int (info_limit info));
       ("X-RateLimit-Remaining", "0");
       ("X-RateLimit-Reset", str_of_int (reset info));
       ("Retry-After", str_of_int (reset info))]
  else Within info.

(** [settings.USE_REDIS] as the repository has it: the [Settings] class of
    [app/core/config.py] declares no field of that name and ignores extra
    variables of the environment, so reading the attribute raises. *)
Definition shipped_USE_REDIS : result bool := Raise AttributeError.

(** [check_rate_limit(request)]. [USE_REDIS] is the outcome of reading
    [settings.USE_REDIS], which happens after the key is built; the world is
    the in-memory store and the Redis server. *)
Definition check_rate_limit {R} (ops : RedisOps R) (USE_REDIS : result bool)
    (self : limiter) (req : request) (current_time : Q) (w : store * R)
  : result check_result * (store * R) :=
  match _get_redis_key self req with
  | Raise e => (Raise e, w)
  | Ok key =>
      match USE_REDIS with
      | Raise e => (Raise e, w)
      | Ok true =>
          let '(info, r') := _redis_rate_limit ops self key (snd w) in
          (Ok (decide_limit info), (fst w, r'))
      | Ok false =>
          let '(info, st') := _in_memory_rate_limit self key current_time (fst w) in
          (Ok (decide_limit info), (st', snd w))
      end
  end.

(** [n] calls of [_in_memory_rate_limit(key)] in a row, all at the same
    instant. *)
Fixpoint counted (self : limiter) (key : string) (current_time : Q) (n : nat) (st : store)
  : list rate_info * store :=
  match n with
  | O => ([], st)
  | S n' =>
      let '(info, st1) := _in_memory_rate_limit self key current_time st in
      let '(infos, st2) := counted self key current_time n' st1 in
      (info :: infos, st2)
  end.

(** [n] requests in a row through [check_rate_limit], all at the same
    instant. *)
Fixpoint burst {R} (ops : RedisOps R) (USE_REDIS : result bool)
    (self : limiter) (req : request) (current_time : Q) (n : nat) (w : store * R)
  : list (result check_result) * (store * R) :=
  match n with
  | O => ([], w)
  | S n' =>
      let '(r, w1) := check_rate_limit ops USE_REDIS self req current_time w in
      let '(rs, w2) := burst ops USE_REDIS self req current_time n' w1 in
      (r :: rs, w2)
  end.

(** [auth_rate_limiter]: five requests per minute per address. *)
Definition auth_rate_limiter : limiter := {|
  key_prefix := "rl:auth"; limit := 5; window := 60; scope := None;
  by_ip := true; by_user := false; by_endpoint := true
|}.

Definition login_request : request := {|
  client := Some (Some "10.0.0.1"); x_forwarded_for := None; user := NoAuthentication;
  path := "/api/v1/auth/login"
|}.

(** The key of [login_request] under [auth_rate_limiter]. *)
Definition login_key : string := "rl:auth:ip:10.0.0.1:endpoint:/api/v1/auth/login".

(** A Redis server that is never reached. *)
Definition no_redis : RedisOps unit := {|
  INCR := fun _ r => (0, r);
  EXPIRE := fun _ _ r => r;
  TTL := fun _ _ => 0
|}.

End RateLimiter.

(** ** BaseApiClient ([app/services/base_client.py]) *)

Module BaseApiClient.
Import Py.

(** The exceptions that can leave [_make_request]. [RateLimitExceededError]
    is a subclass of [ApiClientError]; [RequestError] is httpx's transport
    error, which is not; [Uncaught] is any built-in exception. *)
Inductive error : Type :=
| ApiClientError (message : pyval) (status_code : option Z) (details : pyval)
| RateLimitExceededError (retry_after : Z) (status_code : option Z) (details : pyval)
| RequestError (description : string)
| Uncaught (e : exn).

(** [isinstance(e, ApiClientError)] *)
Definition is_api_client_error (e : error) : bool :=
  match e with
  | ApiClientError _ _ _ | RateLimitExceededError _ _ _ => true
  | _ => false
  end.

(** [except (httpx.RequestError, ApiClientError)] *)
Definition caught (e : error) : bool :=
  match e with
  | ApiClientError _ _ _ | RateLimitExceededError _ _ _ | RequestError _ => true
  | Uncaught _ => false
  end.

(** An HTTP response as the executor reads it: [json] is the outcome of
    [response.json()], a ValueError when the body is not JSON.
    [resp_headers r !! name] is [response.headers.get(name)] for a name as
    the code spells it; the lookups of [httpx.Headers] ignore case. *)
Record response : Type := {
  resp_status : Z;
  resp_headers : gmap string string;
  resp_has_content : bool;
  resp_json : result pyval;
  resp_text : string
}.

(** Configuration and rate-limit state of one client instance. *)
Record client : Type := {
  api_key : option string;
  base_url : option string;
  max_retries : Z;
  retry_delay : Q;
  rate_limit : option (Z * Z);
  rate_limit_remaining : option Z;
  rate_limit_reset : option Z;
  last_request_time : option Q
}.

Definition set_remaining (c : client) (v : option Z) : client :=
  {| api_key := api_key c; base_url := base_url c; max_retries := max_retries c;
     retry_delay := retry_delay c; rate_limit := rate_limit c;
     rate_limit_remaining := v; rate_limit_reset := rate_limit_reset c;
     last_request_time := last_request_time c |}.

Definition set_reset (c : client) (v : option Z) : client :=
  {| api_key := api_key c; base_url := base_url c; max_retries := max_retries c;
     retry_delay := retry_delay c; rate_limit := rate_limit c;
     rate_limit_remaining := rate_limit_remaining c; rate_limit_reset := v;
     last_request_time := last_request_time c |}.

Definition set_last_request (c : client) (t : Q) : client :=
  {| api_key := api_key c; base_url := base_url c; max_retries := max_retries c;
     retry_delay := retry_delay c; rate_limit := rate_limit c;
     rate_limit_remaining := rate_limit_remaining c;
     rate_limit_reset := rate_limit_reset c; last_request_time := Some t |}.

(** How [_make_request] ends. *)
Inductive outcome : Type :=
| Returned (v : pyval)
| Raised (e : error).

(** How the retry loop ends: a value is returned from inside it, an
    exception leaves it, or it is left by [break] with the last error. *)
Inductive loop_exit : Type :=
| Success (v : pyval)
| Escaped (e : error)
| Broke (last_error : error).

(** [dict(response.headers)]: httpx keeps the names of the headers in lower
    case, and these are the keys of the dictionary. *)
Definition headers_dict (headers : gmap string string) : gmap string string :=
  kmap lower headers.

(** [_update_rate_limit_headers], on a plain dictionary: its lookups do not
    ignore case. *)
Definition _update_rate_limit_headers (c : client) (headers : gmap string string) : client :=
  match rate_limit c with
  | None => c
  | Some _ =>
      let c1 :=
        match headers !! "X-RateLimit-Remaining" with
        | Some s => match int_of_string s with Ok n => set_remaining c (Some n) | Raise _ => c end
        | None => c
        end in
      match headers !! "X-RateLimit-Reset" with
      | Some s => match int_of_string s with Ok n => set_reset c1 (Some n) | Raise _ => c1 end
      | None => c1
      end
  end.

(** [error_data.get('error', {}).get('message', error_msg)]: both receivers
    must be dictionaries. *)
Definition error_message (error_data : pyval) (error_msg : string) : result pyval :=
  match error_data with
  | VDict d =>
      match default (VDict ∅) (d !! "error") with
      | VDict e => Ok (default (VStr error_msg) (e !! "message"))
      | _ => Raise AttributeError
      end
  | _ => Raise AttributeError
  end.

Definition truthy_Z (z : option Z) : bool :=
  match z with Some n => negb (n =? 0) | None => false end.

Section Executor.

(** The environment of the executor: a world [W] holding whatever the
    network and the clock depend on. *)
Variable W : Type.
(** [self.session.get/post/put/delete(url, ...)]: a transport error or a response. *)
Variable send : string -> string -> W -> (string + response) * W.
(** [time.time()] *)
Variable time : W -> Q.
(** [asyncio.sleep(delay)] as the name resolves inside the module. *)
Variable sleep : Q -> W -> result unit * W.
(** The subclass's [_get_mock_data(method, endpoint, params, data)]. *)
Variable _get_mock_data : string -> string -> W -> result pyval * W.
(** The pydantic model applied to the parsed body, when a model is given. *)
Variable model : option (pyval -> result pyval).

(** [_check_rate_limit] *)
Definition _check_rate_limit (c : client) (w : W) : result client * W :=
  match rate_limit c with
  | None => (Ok c, w)
  | Some (requests, _) =>
      if negb (truthy_Z (rate_limit_remaining c)) then (Ok c, w)
      else
        let current_time := time w in
        match rate_limit_reset c with
        | Some reset =>
            if negb (reset =? 0) then
              if Qltb current_time (inject_Z reset) then
                match sleep (inject_Z reset - current_time)%Q w with
                | (Ok _, w') => (Ok c, w')
                | (Raise e, w') => (Raise e, w')
                end
              else (Ok (set_remaining c (Some requests)), w)
            else (Ok c, w)
        | None => (Ok c, w)
        end
  end.

(** The handling of a response inside the [try]. *)
Definition handle_response (c : client) (r : response) : pyval + error :=
  if 400 <=? resp_status r then
    let error_msg := String.append "API request failed with status " (str_of_int (resp_status r)) in
    if resp_status r =? 429 then
      match (match resp_headers r !! "Retry-After" with
             | Some s => int_of_string s
             | None => Ok (Qtrunc (retry_delay c))
             end) with
      | Raise e => inr (Uncaught e)
      | Ok retry_after =>
          match (if resp_has_content r then resp_json r else Ok (VDict ∅)) with
          | Raise e => inr (Uncaught e)
          | Ok details => inr (RateLimitExceededError retry_after (Some (resp_status r)) details)
          end
      end
    else
      match resp_json r with
      | Ok error_data =>
          match error_message error_data error_msg with
          | Ok msg => inr (ApiClientError msg (Some (resp_status r)) error_data)
          | Raise e => inr (Uncaught e)
          end
      | Raise ValueError =>
          inr (ApiClientError (VStr error_msg) (Some (resp_status r))
                 (VDict {[ "raw_response" := VStr (resp_text r) ]}))
      | Raise e => inr (Uncaught e)
      end
  else
    (* the message also quotes the text of the ValueError *)
    let parse_failure :=
      inr (ApiClientError (VStr "Failed to parse JSON response") (Some (resp_status r))
             (VDict {[ "raw_response" := VStr (resp_text r) ]})) in
    match resp_json r with
    | Ok result =>
        match model with
        | Some validate =>
            match validate result with
            | Ok v => inl v
            | Raise ValueError => parse_failure
            | Raise e => inr (Uncaught e)
            end
        | None => inl result
        end
    | Raise ValueError => parse_failure
    | Raise e => inr (Uncaught e)
    end.

(** One pass through the [try] block: a value to return, or the exception
    raised inside it. *)
Definition attempt (method url : string) (c : client) (w : W)
  : (pyval + error) * client * W :=
  match _check_rate_limit c w with
  | (Raise e, w1) => (inr (Uncaught e), c, w1)
  | (Ok c1, w1) =>
      let c2 := set_last_request c1 (time w1) in
      if negb (existsb (String.eqb (upper method)) ["GET"; "POST"; "PUT"; "DELETE"])
      then (inr (Uncaught ValueError), c2, w1)
      else
        match send (upper method) url w1 with
        | (inl description, w2) => (inr (RequestError description), c2, w2)
        | (inr r, w2) =>
            let c3 := _update_rate_limit_headers c2 (headers_dict (resp_headers r)) in
            (handle_response c3 r, c3, w2)
        end
  end.

(** [delay = self.retry_delay * (2 ** retry_count)], replaced by a truthy
    [retry_after] of a rate-limit error. *)
Definition backoff_delay (c : client) (retry_count : Z) (e : error) : Q :=
  match e with
  | RateLimitExceededError retry_after _ _ =>
      if negb (retry_after =? 0) then inject_Z retry_after
      else (retry_delay c * inject_Z (2 ^ retry_count))%Q
  | _ => (retry_delay c * inject_Z (2 ^ retry_count))%Q
  end.

(** The [while retry_count <= self.max_retries] loop, entered with the
    condition true. [fuel] bounds the number of further iterations; with
    [fuel = max_retries - retry_count] it is never the reason for leaving. *)
Fixpoint retry_loop (fuel : nat) (method url : string) (retry_count : Z)
    (c : client) (w : W) : loop_exit * client * W :=
  match attempt method url c w with
  | (inl v, c1, w1) => (Success v, c1, w1)
  | (inr e, c1, w1) =>
      if caught e then
        if max_retries c1 <=? retry_count then (Broke e, c1, w1)
        else
          match sleep (backoff_delay c1 retry_count e) w1 with
          | (Raise x, w2) => (Escaped (Uncaught x), c1, w2)
          | (Ok _, w2) =>
              match fuel with
              | S fuel' => retry_loop fuel' method url (retry_count + 1) c1 w2
              | O => (Broke e, c1, w2)
              end
          end
      else (Escaped e, c1, w1)
  end.

(** What follows the loop: the mock payload, or the last error re-raised. *)
Definition after_loop (method endpoint : string) (use_mock_fallback : bool)
    (last_error : option error) (c : client) (w : W) : outcome * client * W :=
  if use_mock_fallback then
    match _get_mock_data method endpoint w with
    | (Ok v, w') => (Returned v, c, w')
    | (Raise e, w') => (Raised (Uncaught e), c, w')
    end
  else
    (Raised (default (ApiClientError (VStr "Unknown error occurred") None (VDict ∅)) last_error),
     c, w).

(** [_make_request(method, endpoint, ..., use_mock_fallback)] *)
Definition _make_request (method endpoint : string) (use_mock_fallback : bool)
    (c : client) (w : W) : outcome * client * W :=
  let endpoint :=
    match chars endpoint with
    | "/"%char :: _ => endpoint
    | _ => String.append "/" endpoint
    end in
  let url := String.append (default "None" (base_url c)) endpoint in
  if 0 <=? max_retries c then
    match retry_loop (Z.to_nat (max_retries c)) method url 0 c w with
    | (Success v, c', w') => (Returned v, c', w')
    | (Escaped e, c', w') => (Raised e, c', w')
    | (Broke e, c', w') => after_loop method endpoint use_mock_fallback (Some e) c' w'
    end
  else after_loop method endpoint use_mock_fallback None c w.

End Executor.

(** A client with no retries and no rate limit, on a network that is down. *)
Definition offline_client : client := {|
  api_key := None; base_url := Some "https://api.example.com"; max_retries := 0;
  retry_delay := 1; rate_limit := None; rate_limit_remaining := None;
  rate_limit_reset := None; last_request_time := None
|}.

(** The default client: three retries, one second of initial delay. *)
Definition default_client : client := {|
  api_key := None; base_url := Some "https://api.example.com"; max_retries := 3;
  retry_delay := 1; rate_limit := None; rate_limit_remaining := None;
  rate_limit_reset := None; last_request_time := None
|}.

(** The world is the number of requests sent; every request fails to connect. *)
Definition send_down (method url : string) (w : nat) : (string + response) * nat :=
  (inl "All connection attempts failed", S w).

Definition clock_zero (w : nat) : Q := 0.

(** [asyncio] is not imported by [base_client.py]: evaluating the name raises. *)
Definition sleep_unbound (delay : Q) (w : nat) : result unit * nat := (Raise NameError, w).

(** A working [asyncio.sleep]. *)
Definition sleep_ok (delay : Q) (w : nat) : result unit * nat := (Ok tt, w).

Definition mock_payload (method endpoint : string) (w : nat) : result pyval * nat :=
  (Ok (VDict {[ "is_mock" := VBool true ]}), w).

End BaseApiClient.

(** ** The [random] module, driven by an explicit source of entropy *)

Module Random.
Import Py.

(** A computation that draws from the generator and may raise: the state is
    the number of draws made so far. *)
Definition gen (A : Type) : Type := nat -> result A * nat.

#[export] Instance gen_bind : MBind gen := fun A B k m i =>
  match m i with
  | (Ok a, j) => k a j
  | (Raise e, j) => (Raise e, j)
  end.

#[export] Instance gen_ret : MRet gen := fun A a i => (Ok a, i).

Definition raise {A} (e : exn) : gen A := fun i => (Raise e, i).

(** [returns m P]: from every position of the generator, [m] ends without
    raising and its value satisfies [P]. *)
Definition returns {A} (m : gen A) (P : A -> Prop) : Prop :=
  forall i, exists a j, m i = (Ok a, j) /\ P a.

(** [round(x, ndigits)]: to the nearest multiple of [10^-ndigits], ties to
    the even one. This is the rounding of the exact number: where the exact
    product sits on a tie, binary64 may have it on either side, and Python
    then rounds to the other neighbour. *)
Definition round_half_even (y : Q) : Z :=
  let f := Qfloor y in
  match Qcompare (y - inject_Z f) (1 # 2) with
  | Lt => f
  | Gt => f + 1
  | Eq => if Z.even f then f else f + 1
  end.

Definition round (x : Q) (ndigits : Z) : Q :=
  let scale := 10 ^ ndigits in
  Qred (Qmake (round_half_even (x * inject_Z scale)) (Z.to_pos scale)).

Section Draws.

(** The raw output of the generator: [entropy i] is its [i]-th draw. Every
    function below is defined for every such sequence. *)
Variable entropy : nat -> Z.

(** [random.random()]: 53 random bits as a fraction in [0, 1). *)
Definition random : gen Q :=
  fun i => (Ok (Qred (Qmake (entropy i mod 2 ^ 53) (Z.to_pos (2 ^ 53)))), S i).

(** [_randbelow(n)] for [n > 0]. *)
Definition randbelow (n : Z) : gen Z :=
  fun i => (Ok (entropy i mod n), S i).

(** [random.randint(a, b)]: an empty range is a ValueError. *)
Definition randint (a b : Z) : gen Z :=
  if b <? a then raise ValueError
  else k ← randbelow (b - a + 1); mret (a + k).

(** [random.uniform(a, b)] *)
Definition uniform (a b : Q) : gen Q :=
  u ← random; mret (Qred (a + (b - a) * u)%Q).

(** [random.choice(seq)]: an empty sequence is an IndexError. *)
Definition choice {A} (l : list A) : gen A :=
  match l with
  | [] => raise IndexError
  | x :: _ => k ← randbelow (Z.of_nat (length l)); mret (nth (Z.to_nat k) l x)
  end.

(** Running totals of the weights. *)
Fixpoint accumulate (acc : Q) (weights : list Q) : list Q :=
  match weights with
  | [] => []
  | w :: rest => let acc' := (acc + w)%Q in acc' :: accumulate acc' rest
  end.

(** [random.choices(population, weights=weights, k=1)[0]]: the position is
    the number of running totals, the last one excluded, that do not exceed
    [random() * total]. *)
Definition choices {A} (population : list A) (weights : list Q) : gen A :=
  match population with
  | [] => raise IndexError
  | x :: _ =>
      if negb (length weights =? length population)%nat then raise ValueError
      else
        let cum := accumulate 0 weights in
        let total := List.last cum 0%Q in
        if negb (Qltb 0 total) then raise ValueError
        else
          u ← random;
          let target := (u * total)%Q in
          let idx := length (List.filter (fun c => negb (Qltb target c))
                                         (firstn (length population - 1) cum)) in
          mret (nth idx population x)
  end.

(** [random.sample(population, k)] for a small population: [k] picks from a
    pool, each pick replaced by the pool's last remaining element. *)
Fixpoint sample_from {A} (pool : list A) (k : nat) : gen (list A) :=
  match k with
  | O => mret []
  | S k' =>
      match pool with
      | [] => raise ValueError
      | x :: _ =>
          let n := length pool in
          j ← randbelow (Z.of_nat n);
          let j := Z.to_nat j in
          let picked := nth j pool x in
          let pool' := firstn (n - 1) (<[j := nth (n - 1) pool x]> pool) in
          rest ← sample_from pool' k';
          mret (picked :: rest)
      end
  end.

Definition sample {A} (population : list A) (k : Z) : gen (list A) :=
  if (k <? 0) || (Z.of_nat (length population) <? k) then raise ValueError
  else sample_from population (Z.to_nat k).

End Draws.

End Random.

(** ** MockDataProvider ([app/services/mock_data_provider.py]) *)

Module MockDataProvider.
Import Py Random.

Record airport : Type := {
  iata : string; name : string; city : string; country : string;
  lat : Q; lon : Q; timezone : string
}.

Record airline : Type := { airline_iata : string; airline_name : string }.

Record aircraft_type : Type := {
  code : string; aircraft_name : string; capacity_range : Z * Z
}.

Definition AUSTRALIAN_AIRPORTS : list airport := [
  {| iata := "SYD"; name := "Sydney Airport"; city := "Sydney"; country := "Australia";
     lat := -33.9399; lon := 151.1753; timezone := "Australia/Sydney" |};
  {| iata := "MEL"; name := "Melbourne Airport"; city := "Melbourne"; country := "Australia";
     lat := -37.6696; lon := 144.8498; timezone := "Australia/Melbourne" |};
  {| iata := "BNE"; name := "Brisbane Airport"; city := "Brisbane"; country := "Australia";
     lat := -27.3940; lon := 153.1219; timezone := "Australia/Brisbane" |};
  {| iata := "PER"; name := "Perth Airport"; city := "Perth"; country := "Australia";
     lat := -31.9522; lon := 115.8589; timezone := "Australia/Perth" |};
  {| iata := "ADL"; name := "Adelaide Airport"; city := "Adelaide"; country := "Australia";
     lat := -34.9285; lon := 138.6007; timezone := "Australia/Adelaide" |};
  {| iata := "CBR"; name := "Canberra Airport"; city := "Canberra"; country := "Australia";
     lat := -35.3069; lon := 149.1950; timezone := "Australia/Sydney" |};
  {| iata := "HBA"; name := "Hobart Airport"; city := "Hobart"; country := "Australia";
     lat := -42.8361; lon := 147.5103; timezone := "Australia/Hobart" |};
  {| iata := "DRW"; name := "Darwin Airport"; city := "Darwin"; country := "Australia";
     lat := -12.4083; lon := 130.8727; timezone := "Australia/Darwin" |};
  {| iata := "CNS"; name := "Cairns Airport"; city := "Cairns"; country := "Australia";
     lat := -16.8858; lon := 145.7553; timezone := "Australia/Brisbane" |};
  {| iata := "OOL"; name := "Gold Coast Airport"; city := "Gold Coast"; country := "Australia";
     lat := -28.1667; lon := 153.5000; timezone := "Australia/Brisbane" |}
]%Q.

Definition AIRLINES : list airline := [
  {| airline_iata := "QF"; airline_name := "Qantas" |};
  {| airline_iata := "VA"; airline_name := "Virgin Australia" |};
  {| airline_iata := "JQ"; airline_name := "Jetstar" |};
  {| airline_iata := "TT"; airline_name := "Tigerair Australia" |};
  {| airline_iata := "NZ"; airline_name := "Air New Zealand" |};
  {| airline_iata := "EY"; airline_name := "Etihad Airways" |};
  {| airline_iata := "SQ"; airline_name := "Singapore Airlines" |};
  {| airline_iata := "CX"; airline_name := "Cathay Pacific" |};
  {| airline_iata := "EK"; airline_name := "Emirates" |};
  {| airline_iata := "LA"; airline_name := "LATAM" |}
].

Definition AIRCRAFT_TYPES : list aircraft_type := [
  {| code := "A320"; aircraft_name := "Airbus A320"; capacity_range := (150, 186) |};
  {| code := "A330"; aircraft_name := "Airbus A330"; capacity_range := (250, 300) |};
  {| code := "A350"; aircraft_name := "Airbus A350"; capacity_range := (300, 350) |};
  {| code := "A380"; aircraft_name := "Airbus A380"; capacity_range := (500, 853) |};
  {| code := "B737"; aircraft_name := "Boeing 737"; capacity_range := (130, 215) |};
  {| code := "B747"; aircraft_name := "Boeing 747"; capacity_range := (366, 416) |};
  {| code := "B777"; aircraft_name := "Boeing 777"; capacity_range := (301, 550) |};
  {| code := "B787"; aircraft_name := "Boeing 787"; capacity_range := (242, 330) |}
].

(** A naive [datetime], in microseconds since the epoch. *)
Definition second_us : Z := 1000000.
Definition minute_us : Z := 60 * second_us.
Definition hour_us : Z := 60 * minute_us.
Definition day_us : Z := 24 * hour_us.

(** The day number of a datetime, its midnight, its hour and its weekday
    (Monday is 0; day 0 was a Thursday). *)
Definition day_of (t : Z) : Z := t / day_us.
Definition midnight (t : Z) : Z := day_of t * day_us.
Definition hour_of (t : Z) : Z := (t mod day_us) / hour_us.
Definition weekday (t : Z) : Z := (day_of t + 3) mod 7.

(** The datetimes that Python has run from 0001-01-01T00:00:00 to
    9999-12-31T23:59:59.999999, and beyond them the arithmetic of [datetime]
    raises an OverflowError. The generator below computes on unbounded
    numbers and on naive datetimes only; what is proved of its returning is
    proved for dates that stay in range. *)
Definition datetime_min : Z := -719162 * day_us.
Definition datetime_max : Z := 2932897 * day_us - 1.

(** [date.toordinal()]: 0001-01-01 is day 1. [today - timedelta(days=i)]
    is in range for every [i] below [days] when [days <= ordinal today]. *)
Definition ordinal (t : Z) : Z := day_of t + 719163.

(** A generated flight; the two times are kept as datetimes rather than as
    their ISO strings. *)
Record mock_flight : Type := {
  id : string;
  flight_number : string;
  fl_airline : airline;
  origin : airport;
  destination : airport;
  departure_time : Z;
  arrival_time : Z;
  duration : Z;
  aircraft : aircraft_type;
  capacity : Z;
  booked_seats : Z;
  available_seats : Z;
  load_factor : Q;
  price : Q;
  currency : string;
  status : string;
  stops : Z;
  data_source : string
}.

Record market_point : Type := {
  mp_date : Z;
  mp_origin : string;
  mp_destination : string;
  search_volume : Z;
  booking_count : Z;
  conversion_rate : Q;
  average_price : Q;
  min_price : Q;
  max_price : Q;
  mp_load_factor : Q;
  mp_data_source : string
}.

Record destination_stats : Type := {
  dest_airport : airport;
  flight_count : Z;
  dest_average_price : Q;
  dest_load_factor : Q
}.

Record analytics : Type := {
  an_airport : airport;
  time_period : string;
  total_flights : Z;
  total_passengers : Z;
  average_load_factor : Q;
  on_time_performance : Q;
  top_destinations : list destination_stats;
  ts_dates : list Z;
  ts_flights : list Q;
  ts_passengers : list Q;
  ts_load_factors : list Q;
  ts_average_fares : list Q;
  an_data_source : string
}.

(** [get_airports] *)
Definition get_airports : list airport := AUSTRALIAN_AIRPORTS.

(** [next((a for a in airports if a["iata"] == code), None) if code else None] *)
Definition find_airport (airports : list airport) (code : option string) : option airport :=
  match code with
  | Some c => if String.eqb c "" then None
              else List.find (fun a => String.eqb (iata a) c) airports
  | None => None
  end.

(** [x / y] on floats *)
Definition divide (x y : Q) : gen Q :=
  if Qis_zero y then raise ZeroDivisionError else mret (Qred (x / y)).

Section Provider.

Variable entropy : nat -> Z.
(** [datetime.utcnow()] *)
Variable utcnow : Z.

(** The choice of the two airports that opens [get_flights] and
    [get_market_data]. *)
Definition pick_route (origin destination : option string) : gen (airport * airport) :=
  let airports := AUSTRALIAN_AIRPORTS in
  origin_airport ← match find_airport airports origin with
                   | Some a => mret a
                   | None => choice entropy airports
                   end;
  dest_airport ← match find_airport airports destination with
                 | Some a => mret a
                 | None =>
                     choice entropy
                       (List.filter (fun a => negb (String.eqb (iata a) (iata origin_airport)))
                                    airports)
                 end;
  mret (origin_airport, dest_airport).

(** The body of the inner loop of [get_flights]: one flight on the day of
    [current_date]. The factors 0.5 and 0.9 are the rationals 1/2 and 9/10;
    for the capacities of the table, 130 to 853, [int(capacity * 0.9)] has
    the same value in binary64. *)
Definition make_flight (origin_airport dest_airport : airport) (current_date : Z)
  : gen mock_flight :=
  hour ← randint entropy 6 22;
  minute ← choice entropy [0; 15; 30; 45];
  let departure := midnight current_date + hour * hour_us + minute * minute_us in
  duration_hours ← randint entropy 1 6;
  duration_minutes ← randint entropy 0 59;
  let delta := duration_hours * hour_us + duration_minutes * minute_us in
  let arrival := departure + delta in
  chosen_airline ← choice entropy AIRLINES;
  chosen_aircraft ← choice entropy AIRCRAFT_TYPES;
  cap ← randint entropy (fst (capacity_range chosen_aircraft))
                        (snd (capacity_range chosen_aircraft));
  booked ← randint entropy (Qtrunc (inject_Z cap * (1 # 2))) (Qtrunc (inject_Z cap * (9 # 10)));
  base_price ← uniform entropy 100 300;
  distance ← uniform entropy 500 4000;
  noise ← uniform entropy (-50) 100;
  let fare := round (base_price + distance * (1 # 10) + noise) 2 in
  uuid ← randbelow entropy (2 ^ 128);
  number ← randint entropy 100 9999;
  ratio ← divide (inject_Z booked) (inject_Z cap);
  flight_status ← choices entropy ["scheduled"; "delayed"; "cancelled"]
                          [9 # 10; 8 # 100; 2 # 100]%Q;
  flight_stops ← choices entropy [0; 1; 2] [7 # 10; 25 # 100; 5 # 100]%Q;
  mret {| id := str_of_int uuid;
          flight_number := String.append (airline_iata chosen_airline) (str_of_int number);
          fl_airline := chosen_airline;
          origin := origin_airport;
          destination := dest_airport;
          departure_time := departure;
          arrival_time := arrival;
          duration := Qtrunc (Qmake delta 1 / inject_Z second_us / 60);
          aircraft := chosen_aircraft;
          capacity := cap;
          booked_seats := booked;
          available_seats := cap - booked;
          load_factor := round (ratio * 100) 1;
          price := fare;
          currency := "AUD";
          status := flight_status;
          stops := flight_stops;
          data_source := "mock" |}.

(** [for _ in range(n)] with its [break] once [limit] flights exist. *)
Fixpoint day_flights (n : nat) (origin_airport dest_airport : airport)
    (current_date limit : Z) (flights : list mock_flight) : gen (list mock_flight) :=
  match n with
  | O => mret flights
  | S n' =>
      if limit <=? Z.of_nat (length flights) then mret flights
      else
        fl ← make_flight origin_airport dest_airport current_date;
        day_flights n' origin_airport dest_airport current_date limit (flights ++ [fl])%list
  end.

(** [while current_date <= date_to and len(flights) < limit]; [fuel] bounds
    the number of days still to visit. *)
Fixpoint days_loop (fuel : nat) (origin_airport dest_airport : airport)
    (current_date date_to limit : Z) (flights : list mock_flight)
  : gen (list mock_flight) :=
  if (current_date <=? date_to) && (Z.of_nat (length flights) <? limit) then
    match fuel with
    | O => mret flights
    | S fuel' =>
        n ← randint entropy 1 5;
        flights' ← day_flights (Z.to_nat n) origin_airport dest_airport
                               current_date limit flights;
        days_loop fuel' origin_airport dest_airport (current_date + day_us)
                  date_to limit flights'
    end
  else mret flights.

(** The date range [get_flights] works on. *)
Definition range_start (date_from : option Z) : Z := default (midnight utcnow) date_from.
Definition range_end (date_to : option Z) : Z := default (midnight utcnow + 30 * day_us) date_to.

(** [get_flights(origin, destination, date_from, date_to, limit)] *)
Definition get_flights (origin destination : option string)
    (date_from date_to : option Z) (limit : Z) : gen (list mock_flight) :=
  let start := range_start date_from in
  let stop := range_end date_to in
  route ← pick_route origin destination;
  days_loop (Z.to_nat ((stop - start) / day_us + 1)) (fst route) (snd route)
            start stop limit [].

(** The body of the loop of [get_market_data] for one day. *)
Definition market_day (origin_airport dest_airport : airport) (day : Z) : gen market_point :=
  let date := midnight utcnow - day * day_us in
  let is_weekend := 5 <=? weekday date in
  base_demand ← uniform entropy 50 200;
  let weekend_boost := if is_weekend then (3 # 2)%Q else 1%Q in
  demand_noise ← uniform entropy (8 # 10) (12 # 10);
  let volume := Qtrunc (base_demand * weekend_boost * demand_noise) in
  conversion ← uniform entropy (1 # 10) (4 # 10);
  let bookings := Qtrunc (inject_Z volume * conversion) in
  raw_price ← uniform entropy 150 500;
  let avg_price := round (raw_price * (if is_weekend then 12 # 10 else 1))%Q 2 in
  let time_of_day := hour_of date in
  let time_factor :=
    if ((7 <=? time_of_day) && (time_of_day <? 10))
       || ((17 <=? time_of_day) && (time_of_day <? 21))
    then (13 # 10)%Q else 1%Q in
  let volume := Qtrunc (inject_Z volume * time_factor) in
  rate ← (if 0 <? volume
          then r ← divide (inject_Z bookings) (inject_Z volume); mret (round (r * 100) 2)
          else mret 0%Q);
  low ← uniform entropy (7 # 10) (95 # 100);
  high ← uniform entropy (105 # 100) (13 # 10);
  load ← uniform entropy 60 95;
  mret {| mp_date := date;
          mp_origin := iata origin_airport;
          mp_destination := iata dest_airport;
          search_volume := volume;
          booking_count := bookings;
          conversion_rate := rate;
          average_price := avg_price;
          min_price := round (avg_price * low) 2;
          max_price := round (avg_price * high) 2;
          mp_load_factor := round load 1;
          mp_data_source := "mock" |}.

(** [for day in range(days)] *)
Fixpoint market_days (origin_airport dest_airport : airport) (days : list Z)
  : gen (list market_point) :=
  match days with
  | [] => mret []
  | day :: rest =>
      p ← market_day origin_airport dest_airport day;
      ps ← market_days origin_airport dest_airport rest;
      mret (p :: ps)
  end.

(** [market_data.sort(key=lambda x: x["date"])]: a stable sort, oldest first. *)
Fixpoint insert_point (p : market_point) (l : list market_point) : list market_point :=
  match l with
  | [] => [p]
  | x :: rest => if mp_date x <? mp_date p then x :: insert_point p rest else p :: l
  end.

Definition sort_by_date (l : list market_point) : list market_point :=
  fold_right insert_point [] l.

(** [range(n)] *)
Definition range (n : Z) : list Z := map Z.of_nat (seq 0 (Z.to_nat n)).

(** [get_market_data(origin, destination, days)] *)
Definition get_market_data (origin destination : option string) (days : Z)
  : gen (list market_point) :=
  route ← pick_route origin destination;
  points ← market_days (fst route) (snd route) (range days);
  mret (sort_by_date points).

(** [generate_time_series(base_value, volatility)] inside
    [get_airport_analytics]. *)
Fixpoint extend_series (n : nat) (volatility : Q) (prev : Q) : gen (list Q) :=
  match n with
  | O => mret []
  | S n' =>
      u ← uniform entropy (- volatility) volatility;
      let next := round (prev + prev * u) 2 in
      rest ← extend_series n' volatility next;
      mret (next :: rest)
  end.

Definition generate_time_series (days : Z) (base_value volatility : Q) : gen (list Q) :=
  u ← uniform entropy (9 # 10) (11 # 10);
  let first := Qred (base_value * u) in
  rest ← extend_series (Z.to_nat (days - 1)) volatility first;
  mret (first :: rest).

Fixpoint destination_breakdown (dests : list airport) : gen (list destination_stats) :=
  match dests with
  | [] => mret []
  | dest :: rest =>
      flights ← randint entropy 50 200;
      fare ← uniform entropy 150 500;
      load ← uniform entropy 60 95;
      others ← destination_breakdown rest;
      mret ({| dest_airport := dest; flight_count := flights;
               dest_average_price := round fare 2;
               dest_load_factor := round load 1 |} :: others)
  end.

(** [get_airport_analytics(airport_code, days)] *)
Definition get_airport_analytics (airport_code : string) (days : Z) : gen analytics :=
  match List.find (fun a => String.eqb (iata a) airport_code) AUSTRALIAN_AIRPORTS with
  | None => raise ValueError
  | Some found =>
      let other_airports :=
        List.filter (fun a => negb (String.eqb (iata a) airport_code)) AUSTRALIAN_AIRPORTS in
      dests ← sample entropy other_airports (Z.min 5 (Z.of_nat (length other_airports)));
      let dates := map (fun i => midnight utcnow - i * day_us) (range days) in
      flights_total ← randint entropy 1000 5000;
      passengers_total ← randint entropy 100000 500000;
      load ← uniform entropy 70 90;
      on_time ← uniform entropy 75 95;
      breakdown ← destination_breakdown dests;
      series_flights ← generate_time_series days 100 (15 # 100);
      series_passengers ← generate_time_series days 1000 (2 # 10);
      series_load ← generate_time_series days 80 (1 # 10);
      series_fares ← generate_time_series days 250 (15 # 100);
      mret {| an_airport := found;
              time_period := String.append "Last " (String.append (str_of_int days) " days");
              total_flights := flights_total;
              total_passengers := passengers_total;
              average_load_factor := round load 1;
              on_time_performance := round on_time 1;
              top_destinations := breakdown;
              ts_dates := dates;
              ts_flights := series_flights;
              ts_passengers := series_passengers;
              ts_load_factors := series_load;
              ts_average_fares := series_fares;
              an_data_source := "mock" |}
  end.

End Provider.

(** The internal consistency of a generated flight: the booking level lies
    between the truncated 50% and 90% of the capacity, the seats add up, the
    price is at least 100, and the flight arrives after it departs. *)
Definition flight_consistent (fl : mock_flight) : Prop :=
  Qtrunc (inject_Z (capacity fl) * (1 # 2)) <= booked_seats fl
  /\ booked_seats fl <= Qtrunc (inject_Z (capacity fl) * (9 # 10))
  /\ capacity fl - 1 <= 2 * booked_seats fl
  /\ 10 * booked_seats fl <= 9 * capacity fl
  /\ available_seats fl = capacity fl - booked_seats fl
  /\ 0 <= available_seats fl <= capacity fl
  /\ (100 <= price fl)%Q
  /\ departure_time fl < arrival_time fl.

(** The flight departs on a calendar day of the range [start .. stop]. *)
Definition departs_within (start stop : Z) (fl : mock_flight) : Prop :=
  day_of start <= day_of (departure_time fl) <= day_of stop.

(** A market-data point as the generator builds it: a positive search
    volume and the conversion rate as a percentage with two decimals. *)
Definition point_consistent (p : market_point) : Prop :=
  40 <= search_volume p
  /\ conversion_rate p
     = round (Qred (inject_Z (booking_count p) / inject_Z (search_volume p)) * 100) 2.

#[export] Instance airport_inhabited : Inhabited airport :=
  populate {| iata := ""; name := ""; city := ""; country := "";
              lat := 0; lon := 0; timezone := "" |}.

(** [code] is the IATA code of a reference airport. *)
Definition known_airport (code : string) : bool :=
  existsb (fun a => String.eqb (iata a) code) AUSTRALIAN_AIRPORTS.

(** A fixed source of entropy, to run the generator on explicit inputs. *)
Definition sample_entropy (i : nat) : Z := Z.of_nat i * 7919 + 13.

(** 2024-01-01T00:00:00, a Monday. *)
Definition sample_now : Z := 19723 * day_us.

End MockDataProvider.

(** ** DataService ([app/services/data_service.py]) *)

Module DataService.
Import Py Random.

Inductive DataSource : Type := AMADEUS | RAPIDAPI | AVIATIONSTACK | MOCK.

#[export] Instance DataSource_eq_dec : EqDecision DataSource.
Proof. solve_decision. Defined.

(** [source.name] *)
Definition source_name (s : DataSource) : string :=
  match s with
  | AMADEUS => "AMADEUS"
  | RAPIDAPI => "RAPIDAPI"
  | AVIATIONSTACK => "AVIATIONSTACK"
  | MOCK => "MOCK"
  end.

(** A response envelope: a dictionary. *)
Abbreviation envelope := (gmap string pyval).

(** How an orchestrated call ends: an envelope, or [DataServiceError]. *)
Inductive fetched : Type :=
| Envelope (r : envelope)
| DataServiceError (message : string) (source : DataSource).

(** How a public operation ends. *)
Inductive reply : Type :=
| Reply (r : envelope)
| Failure (e : exn).

Definition is_none (v : pyval) : bool :=
  match v with VNone => true | _ => false end.

(** An airport of the reference list as the dictionary it is in Python. *)
Definition airport_dict (a : MockDataProvider.airport) : pyval :=
  VDict (<["iata" := VStr (MockDataProvider.iata a)]>
        (<["name" := VStr (MockDataProvider.name a)]>
        (<["city" := VStr (MockDataProvider.city a)]>
        (<["country" := VStr (MockDataProvider.country a)]>
        (<["lat" := VFloat (MockDataProvider.lat a)]>
        (<["lon" := VFloat (MockDataProvider.lon a)]>
        (<["timezone" := VStr (MockDataProvider.timezone a)]> ∅))))))).

(** [response.get("data", [])]: the receiver must be a dictionary. *)
Definition response_data (response : pyval) : result pyval :=
  match response with
  | VDict d => Ok (default (VList []) (d !! "data"))
  | _ => Raise AttributeError
  end.

Definition truthy_str (s : option string) : bool :=
  match s with Some x => negb (String.eqb x "") | None => false end.

(** The keyword arguments [fetch_airports] passes to a provider. *)
Definition airport_params (search country iata_code : option string) : gmap string pyval :=
  let add (key : string) (v : option string) (params : gmap string pyval) :=
    match v with
    | Some x => if truthy_str v then <[key := VStr x]> params else params
    | None => params
    end in
  add "iata_code" iata_code (add "country_name" country (add "search" search ∅)).

(** The filters [fetch_airports] applies to the reference airports. *)
Definition filter_airports (search country iata_code : option string)
    (airports : list MockDataProvider.airport) : list MockDataProvider.airport :=
  let by_search :=
    match search with
    | Some s =>
        if truthy_str search then
          let search_lower := lower s in
          List.filter (fun ap =>
            contains search_lower (lower (MockDataProvider.name ap))
            || contains search_lower (lower (MockDataProvider.city ap))
            || contains search_lower (lower (MockDataProvider.country ap))
            || String.eqb search_lower (lower (MockDataProvider.iata ap))) airports
        else airports
    | None => airports
    end in
  let by_country :=
    match country with
    | Some c =>
        if truthy_str country then
          List.filter (fun ap => contains (lower c) (lower (MockDataProvider.country ap))) by_search
        else by_search
    | None => by_search
    end in
  match iata_code with
  | Some c =>
      if truthy_str iata_code then
        List.filter (fun ap => String.eqb (MockDataProvider.iata ap) (upper c)) by_country
      else by_country
  | None => by_country
  end.

(** [if names:] on an optional list of airline codes *)
Definition nonempty_list (l : option (list string)) : bool :=
  match l with Some (_ :: _) => true | _ => false end.

(** A source fails when its call raises or returns [None]. *)
Definition failed (r : result pyval) : Prop :=
  match r with
  | Ok v => is_none v = true
  | Raise _ => True
  end.

(** *** The settings and the clients of a service *)

(** The fields of [Settings] ([app/core/config.py]) that hold the keys of
    the providers; each is [os.getenv(...)], a string or [None]. *)
Record Settings : Type := {
  AMADEUS_API_KEY : option string;
  AMADEUS_API_SECRET : option string;
  RAPIDAPI_KEY : option string;
  AVIATIONSTACK_API_KEY : option string
}.

(** [settings.<name>] for the names that [_init_clients] reads. The class
    declares the four fields above and, with [extra='ignore'], takes no
    other from the environment: a name it does not declare raises
    AttributeError. *)
Definition getattr (settings : Settings) (name : string) : result (option string) :=
  if String.eqb name "AMADEUS_API_KEY" then Ok (AMADEUS_API_KEY settings)
  else if String.eqb name "AMADEUS_API_SECRET" then Ok (AMADEUS_API_SECRET settings)
  else if String.eqb name "RAPIDAPI_KEY" then Ok (RAPIDAPI_KEY settings)
  else if String.eqb name "AVIATIONSTACK_API_KEY" then Ok (AVIATIONSTACK_API_KEY settings)
  else Raise AttributeError.

(** [_init_clients], on the empty dictionary that [__init__] has just
    made: the sources it registers, as the test [source in self.clients].
    The constructors of the three clients are parameters. The third test
    reads [settings.AVIATIONSTACK_ACCESS_KEY] (line 64), and the mock
    provider is registered after it (line 69). *)
Definition _init_clients (new_amadeus new_rapidapi new_aviationstack : result unit)
    (settings : Settings) : result (DataSource -> bool) :=
  key ← getattr settings "AMADEUS_API_KEY";
  amadeus ← (if truthy_str key then
               secret ← getattr settings "AMADEUS_API_SECRET";
               if truthy_str secret then (_ ← new_amadeus; Ok true) else Ok false
             else Ok false);
  key ← getattr settings "RAPIDAPI_KEY";
  rapidapi ← (if truthy_str key then (_ ← new_rapidapi; Ok true) else Ok false);
  key ← getattr settings "AVIATIONSTACK_ACCESS_KEY";
  aviationstack ← (if truthy_str key then (_ ← new_aviationstack; Ok true) else Ok false);
  Ok (fun s => match s with
               | AMADEUS => amadeus
               | RAPIDAPI => rapidapi
               | AVIATIONSTACK => aviationstack
               | MOCK => true
               end).

Section Service.

(** The world the asynchronous calls act on. *)
Variable W : Type.

(** [source in self.clients]: the dictionary of the instance at the time of
    the call, whatever it holds. *)
Variable clients : DataSource -> bool.

(** *** _with_fallback *)

Section Fallback.

(** [func(source, **kwargs)], awaited. *)
Variable func : DataSource -> W -> result pyval * W.

(** The loop over [fallback_sources]. *)
Fixpoint try_fallbacks (source : DataSource) (fallback_sources : list (DataSource * string))
    (w : W) : option envelope * W :=
  match fallback_sources with
  | [] => (None, w)
  | (fallback_source, description) :: rest =>
      if clients fallback_source && negb (bool_decide (fallback_source = source)) then
        match func fallback_source w with
        | (Ok result, w') =>
            if negb (is_none result)
            then (Some (<["data" := result]>
                       (<["source" := VStr (source_name fallback_source)]>
                       (<["fallback" := VBool true]> ∅))), w')
            else try_fallbacks source rest w'
        | (Raise _, w') => try_fallbacks source rest w'
        end
      else try_fallbacks source rest w
  end.

Definition _with_fallback (func_name : string) (source : DataSource)
    (fallback_sources : option (list (DataSource * string))) (w : W) : fetched * W :=
  let '(primary, w1) :=
    if clients source then
      match func source w with
      | (Ok result, w') =>
          if negb (is_none result)
          then (Some (<["data" := result]> (<["source" := VStr (source_name source)]> ∅)), w')
          else (None, w')
      | (Raise _, w') => (None, w')
      end
    else (None, w) in
  match primary with
  | Some r => (Envelope r, w1)
  | None =>
      match try_fallbacks source (default [] fallback_sources) w1 with
      | (Some r, w2) => (Envelope r, w2)
      | (None, w2) =>
          (DataServiceError (String.append "All data sources failed for " func_name) source, w2)
      end
  end.

(** The chain in words: the sources to try, in priority order, each marked
    as a fallback or not. The primary comes first when it is configured;
    then the fallback list, without unconfigured sources and without the
    primary itself. *)
Definition candidates (source : DataSource)
    (fallback_sources : option (list (DataSource * string))) : list (DataSource * bool) :=
  ((if clients source then [(source, false)] else [])
   ++ map (fun p => (fst p, true))
        (List.filter (fun p => clients (fst p) && negb (bool_decide (fst p = source)))
                     (default [] fallback_sources)))%list.

(** The first candidate whose call returns something other than [None];
    a call that raises or returns [None] moves on to the next candidate. *)
Fixpoint first_answer (cands : list (DataSource * bool)) (w : W)
  : option (pyval * DataSource * bool) * W :=
  match cands with
  | [] => (None, w)
  | (s, is_fallback) :: rest =>
      match func s w with
      | (Ok result, w') =>
          if is_none result then first_answer rest w'
          else (Some (result, s, is_fallback), w')
      | (Raise _, w') => first_answer rest w'
      end
  end.

(** The envelope of a winning source. *)
Definition tagged (answer : pyval * DataSource * bool) : envelope :=
  let '(result, s, is_fallback) := answer in
  if is_fallback
  then <["data" := result]> (<["source" := VStr (source_name s)]>
         (<["fallback" := VBool true]> ∅))
  else <["data" := result]> (<["source" := VStr (source_name s)]> ∅).

End Fallback.

(** *** get_airports *)

(** [self.clients[source].get_airports] of the two providers, applied to
    the keyword arguments. *)
Variable rapidapi_get_airports : gmap string pyval -> W -> result pyval * W.
Variable aviationstack_get_airports : gmap string pyval -> W -> result pyval * W.

Definition fetch_airports (search country iata_code : option string)
    (source : DataSource) (w : W) : result pyval * W :=
  match source with
  | AMADEUS => (Ok VNone, w)
  | RAPIDAPI =>
      match rapidapi_get_airports (airport_params search country iata_code) w with
      | (Ok response, w') => (response_data response, w')
      | (Raise e, w') => (Raise e, w')
      end
  | AVIATIONSTACK =>
      match aviationstack_get_airports (airport_params search country iata_code) w with
      | (Ok response, w') => (response_data response, w')
      | (Raise e, w') => (Raise e, w')
      end
  | MOCK =>
      (Ok (VList (map airport_dict
                    (filter_airports search country iata_code MockDataProvider.get_airports))), w)
  end.

Definition airport_fallbacks : list (DataSource * string) :=
  [(RAPIDAPI, "RapidAPI"); (AVIATIONSTACK, "AviationStack"); (MOCK, "Mock Data")].

(** [primary_source] of both operations. *)
Definition primary_source (use_real_data : bool) : DataSource :=
  if use_real_data && clients AMADEUS then AMADEUS else MOCK.

Definition get_airports (search country iata_code : option string) (use_real_data : bool)
    (w : W) : reply * W :=
  match _with_fallback (fetch_airports search country iata_code) "fetch_airports"
          (primary_source use_real_data)
          (if use_real_data then Some airport_fallbacks else None) w with
  | (Envelope r, w') => (Reply r, w')
  | (DataServiceError message _, w') =>
      (Reply (<["data" := VList (map airport_dict MockDataProvider.get_airports)]>
             (<["source" := VStr "mock"]>
             (<["warning" := VStr message]> ∅))), w')
  end.

(** *** search_flight_offers *)

(** The arguments of a search that the post-processing reads. *)
Record search : Type := {
  max_price : option Q;
  include_airlines : option (list string);
  exclude_airlines : option (list string);
  use_real_data : bool
}.

Definition flight_fallbacks : list (DataSource * string) :=
  [(RAPIDAPI, "RapidAPI"); (MOCK, "Mock Data")].

(** [for x in v] *)
Definition iterate (v : pyval) : result (list pyval) :=
  match v with
  | VList l => Ok l
  | VDict d => Ok (map (fun kv => VStr (fst kv)) (map_to_list d))
  | VStr s => Ok (map (fun c => VStr (str [c])) (chars s))
  | _ => Raise TypeError
  end.

(** [d.get(key, default)]: only dictionaries have the method. *)
Definition dict_get (v : pyval) (key : string) (dflt : pyval) : result pyval :=
  match v with
  | VDict d => Ok (default dflt (d !! key))
  | _ => Raise AttributeError
  end.

(** [float(offer.get("price", {}).get("total", float('inf'))) <= max_price];
    an offer without a total counts as infinitely expensive. *)
Definition within_price (limit : Q) (offer : pyval) : result bool :=
  p ← dict_get offer "price" (VDict ∅);
  match p with
  | VDict d =>
      match d !! "total" with
      | None => Ok false
      | Some (VStr s) => t ← float_of_string s; Ok (negb (Qltb limit t))
      | Some v => t ← float_of_value v; Ok (negb (Qltb limit t))
      end
  | _ => Raise AttributeError
  end.

Fixpoint filter_offers (keep : pyval -> result bool) (offers : list pyval)
  : result (list pyval) :=
  match offers with
  | [] => Ok []
  | o :: rest =>
      b ← keep o;
      l ← filter_offers keep rest;
      Ok (if (b : bool) then o :: l else l)
  end.

(** [offer.get("itineraries", [{}])[0].get("segments", [])] *)
Definition first_segments (offer : pyval) : result pyval :=
  its ← dict_get offer "itineraries" (VList [VDict ∅]);
  first ← match its with
          | VList (x :: _) => Ok x
          | VList [] => Raise IndexError
          | VDict _ => Raise KeyError
          | VStr s => match chars s with c :: _ => Ok (VStr (str [c])) | [] => Raise IndexError end
          | _ => Raise TypeError
          end;
  dict_get first "segments" (VList []).

(** The carrier codes of the first itinerary of an offer; the codes are
    compared as strings with the requested airlines. *)
Fixpoint carrier_codes (segments : list pyval) : result (list pyval) :=
  match segments with
  | [] => Ok []
  | VDict d :: rest =>
      l ← carrier_codes rest;
      Ok (match d !! "carrierCode" with Some cde => cde :: l | None => l end)
  | _ :: _ => Raise TypeError
  end.

Definition listed (codes : list pyval) (names : list string) : bool :=
  existsb (fun cde => match cde with VStr s => existsb (String.eqb s) names | _ => false end) codes.

Definition airline_allowed (q : search) (offer : pyval) : result bool :=
  segs ← first_segments offer;
  segments ← iterate segs;
  airlines ← carrier_codes segments;
  let included :=
    if nonempty_list (include_airlines q)
    then listed airlines (default [] (include_airlines q)) else true in
  let excluded :=
    if nonempty_list (exclude_airlines q)
    then listed airlines (default [] (exclude_airlines q)) else false in
  Ok (included && negb excluded).

(** The post-processing of a successful envelope. The count is stored
    under [result["meta"]], a key the envelopes of [_with_fallback] do not
    have. *)
Definition post_process (q : search) (r : envelope) : result envelope :=
  match r !! "data" with
  | Some data =>
      if truthy data then
        r1 ← match max_price q with
             | Some limit =>
                 offers ← iterate data;
                 kept ← filter_offers (within_price limit) offers;
                 Ok (<["data" := VList kept]> r)
             | None => Ok r
             end;
        if nonempty_list (include_airlines q) || nonempty_list (exclude_airlines q) then
          offers ← iterate (default VNone (r1 !! "data"));
          kept ← filter_offers (airline_allowed q) offers;
          let r2 := <["data" := VList kept]> r1 in
          match r2 !! "meta" with
          | Some (VDict m) =>
              Ok (<["meta" := VDict (<["count" := VInt (Z.of_nat (length kept))]> m)]> r2)
          | Some _ => Raise TypeError
          | None => Raise KeyError
          end
        else Ok r1
      else Ok r
  | None => Ok r
  end.

(** How the [try] block of [search_flight_offers] ends: with the [return]
    of its last line, with an exception that no clause catches, or with the
    [DataServiceError] that the [except] clause is there for. *)
Inductive try_end : Type :=
| Returns (r : envelope)
| Escapes (e : exn)
| Handled (message : string).

(** The [try] block of [search_flight_offers] (lines 327 to 357): the
    chain over [fetch_flights], then the post-processing. The [except]
    clause that follows (lines 359 to 377) is not modelled: its [return]
    statement is followed by lines that are not valid Python, and the
    module cannot be imported as it is. *)
Definition search_flight_offers_try (fetch_flights : DataSource -> W -> result pyval * W)
    (q : search) (w : W) : try_end * W :=
  match _with_fallback fetch_flights "fetch_flights"
          (primary_source (use_real_data q))
          (if use_real_data q then Some flight_fallbacks else None) w with
  | (Envelope r, w') =>
      match post_process q r with
      | Ok r' => (Returns r', w')
      | Raise e => (Escapes e, w')
      end
  | (DataServiceError message _, w') => (Handled message, w')
  end.

End Service.

(** A provider that is down, and one that answers with an empty list. *)
Definition provider_down {W} (params : gmap string pyval) (w : W) : result pyval * W :=
  (Raise OSError, w).

Definition provider_empty {W} (params : gmap string pyval) (w : W) : result pyval * W :=
  (Ok (VDict {[ "data" := VList [] ]}), w).

(** A fetch function that records the sources it is called with: the
    primary answers with an empty list, the others with one item. *)
Definition empty_then_full (source : DataSource) (w : list DataSource)
  : result pyval * list DataSource :=
  (match source with
   | AMADEUS => Ok (VList [])
   | _ => Ok (VList [VStr "item"])
   end, (w ++ [source])%list).

(** A dictionary of clients that holds the four sources, and one that
    holds every source but Amadeus. *)
Definition all_registered (s : DataSource) : bool := true.

Definition without_amadeus (s : DataSource) : bool :=
  match s with AMADEUS => false | _ => true end.

(** An environment with a key for every provider. *)
Definition full_settings : Settings := {|
  AMADEUS_API_KEY := Some "key"; AMADEUS_API_SECRET := Some "secret";
  RAPIDAPI_KEY := Some "key"; AVIATIONSTACK_API_KEY := Some "key"
|}.

(** A search restricted to one airline. *)
Definition filtered_search : search := {|
  max_price := None; include_airlines := Some ["QF"]; exclude_airlines := None;
  use_real_data := true
|}.

(** A fetch function whose real sources are down and whose mock source
    answers with one offer. *)
Definition one_mock_offer (source : DataSource) (w : nat) : result pyval * nat :=
  (match source with
   | MOCK => Ok (VList [VDict {[ "flight_number" := VStr "QF123" ]}])
   | _ => Raise OSError
   end, w).

End DataService.

(** ** The shapes of a cleaned record *)

Module CleanedShape.
Import Py Dates DataCleaner.

(** A code as [_clean_airport_codes] keeps it: two to four letters, all of
    them upper case. *)
Definition valid_code (s : string) : bool :=
  (2 <=? len s) && (len s <=? 4) && forallb is_upper (chars s).

(** The value of a code field in a cleaned record: left alone because it is
    falsy, or a valid code. *)
Definition code_value (v : pyval) : Prop :=
  truthy v = false \/ exists s, v = VStr s /\ valid_code s = true.

(** A string of ASCII characters. Strings are sequences of bytes here, and
    [isalpha], [upper] and [strip] are those of ASCII: on an ASCII string
    they are what Python's are. *)
Definition is_ascii (s : string) : bool :=
  forallb (fun c => (nat_of_ascii c <? 128)%nat) (chars s).

(** The code fields of a record that hold a string hold an ASCII string. *)
Definition ascii_codes (f : flight) : bool :=
  forallb (fun field => match f !! field with
                        | Some (VStr s) => is_ascii s
                        | _ => true
                        end) code_fields.

(** A number for which the test [value < 0] of [_clean_numeric_fields] is
    false. *)
Definition not_below_zero (v : pyval) : Prop :=
  ((exists z, v = VInt z) \/ (exists q, v = VFloat q)) /\ negative v = false.

(** Every key that one of the five cleaning steps may write or delete. *)
Definition cleaner_keys : list string :=
  (date_fields ++ map raw_key date_fields
   ++ code_fields ++ map raw_key code_fields
   ++ numeric_fields ++ map raw_key numeric_fields
   ++ ["flight_number"; "flight_number_raw"; "id"; "cabin_class"])%list.





(** In every code field, a falsy value or a valid code. *)
Definition codes_ok (f : flight) : Prop :=
  forall field v, field ∈ code_fields -> f !! field = Some v -> code_value v.


(** A record with a numeric timestamp-free set of fields, for the strict
    library: a date string, a price with a currency sign, a code to trim. *)
Definition plain_record : flight :=
  <["departure_time" := VStr "2024-01-02T08:00:00"]>
  (<["arrival_time" := VStr "2024-01-02T09:30:00"]>
  (<["origin" := VStr " syd "]>
  (<["operating_airline" := VStr "qf"]>
  (<["price" := VStr "$120.50"]>
  (<["flight_number" := VStr "QF12"]> ∅))))).

End CleanedShape.

(** ** The rows of the anomaly detector *)

Module DetectorRows.
Import Py DataCleaner DataProcessor.

(** The record a row of the result was built from, and its flag. *)
Definition row_record (r : out_row) : flight :=
  match r with
  | Scored f _ _ => f
  | Unscored f => f
  end.

Definition row_flag (r : out_row) : bool :=
  match r with
  | Scored _ _ a => a
  | Unscored _ => false
  end.

(** The first row of a result carries no score and no flag. *)
Definition first_row_unscored (rows : list out_row) : Prop :=
  match rows with
  | Scored _ z a :: _ => z = ZNaN /\ a = false
  | _ => True
  end.

End DetectorRows.

(** ** process_flight_data ([app/services/data_processing.py]) *)

Module Pipeline.
Import Py Dates DataCleaner DataProcessor.

(** The dictionary that [process_flight_data] returns, key by key; a key
    that is not set is [None]. [trends_error] and the unreachable
    [anomalies_error] hold the exception whose text the code stores. *)
Record processed : Type := {
  raw_count : Z;
  cleaned_count : option Z;
  flights : list flight;
  trends : option pyval;
  trends_error : option exn;
  anomalies : option (list out_row);
  anomalies_error : option exn
}.

(** [any('price' in f for f in flights)] *)
Definition any_priced (flights : list flight) : bool :=
  existsb (fun f => bool_decide (is_Some (f !! "price"))) flights.

Section Process.

Variable dates : DateLib.
Variable frame : FrameLib.
(** [DataProcessor.calculate_market_trends(flights)] with its default
    arguments: the grouping is done by pandas. *)
Variable calculate_market_trends : list flight -> result pyval.

(** [process_flight_data(flights, clean, calculate_trends, detect_anomalies)] *)
Definition process_flight_data (input : list flight)
    (clean calculate_trends detect_anomalies : bool) : processed :=
  let nonempty (l : list flight) := match l with [] => false | _ => true end in
  let cleaned := clean && nonempty input in
  let flights := if cleaned then clean_flight_data dates input else input in
  let trend :=
    if nonempty flights && calculate_trends
    then Some (calculate_market_trends flights) else None in
  {| raw_count := Z.of_nat (length input);
     cleaned_count := if cleaned then Some (Z.of_nat (length flights)) else None;
     flights := flights;
     trends := match trend with Some (Ok v) => Some v | _ => None end;
     trends_error := match trend with Some (Raise e) => Some e | _ => None end;
     anomalies :=
       if nonempty flights && detect_anomalies && any_priced flights
       then Some (detect_price_anomalies frame flights 7 2) else None;
     anomalies_error := None |}.

End Process.

End Pipeline.

(** ** A session that keeps a journal of the executor *)

Module Journal.
Import Py BaseApiClient.

(** What the executor did: the requests it sent, in order, and the delays
    it slept through. *)
Record journal : Type := {
  requests : list (string * string);
  delays : list Q
}.

Definition blank : journal := {| requests := []; delays := [] |}.

(** A session whose every request ends the same way, with a transport
    error or with a response; the request is recorded. *)
Definition send_fixed (reply : string + response) (method url : string) (w : journal)
  : (string + response) * journal :=
  (reply, {| requests := (requests w ++ [(method, url)])%list; delays := delays w |}).

(** A working [asyncio.sleep] that records the delay. *)
Definition sleep_recorded (delay : Q) (w : journal) : result unit * journal :=
  (Ok tt, {| requests := requests w; delays := (delays w ++ [delay])%list |}).

(** [asyncio.sleep] as the module has it: [base_client.py] does not import
    [asyncio], so evaluating the name raises, in any world. *)
Definition unbound_sleep {W : Type} (delay : Q) (w : W) : result unit * W :=
  (Raise NameError, w).

Definition clock_still (w : journal) : Q := 0.

Definition mock_recorded (method endpoint : string) (w : journal) : result pyval * journal :=
  (Ok (VDict {[ "is_mock" := VBool true ]}), w).

(** What one pass through the [try] block ends with against such a session. *)
Definition attempt_end (reply : string + response) (model : option (pyval -> result pyval))
    (c : client) : pyval + error :=
  match reply with
  | inl description => inr (RequestError description)
  | inr r => handle_response model c r
  end.

(** [method.upper()] is one of the four methods the executor sends. *)
Definition supported (method : string) : bool :=
  existsb (String.eqb (upper method)) ["GET"; "POST"; "PUT"; "DELETE"].

(** The URL the executor builds. *)
Definition url_of (c : client) (endpoint : string) : string :=
  String.append (default "None" (base_url c))
    (match chars endpoint with
     | "/"%char :: _ => endpoint
     | _ => String.append "/" endpoint
     end).

(** An error body that [error_data.get('error', {}).get('message', ...)]
    cannot be read from: not a dictionary, or a dictionary whose [error]
    member is not one. *)
Definition unreadable_error_body (body : pyval) : bool :=
  match body with
  | VDict d =>
      match d !! "error" with
      | Some (VDict _) | None => false
      | Some _ => true
      end
  | _ => true
  end.

(** A 404 answer in a common format: the error is a plain string. *)
Definition not_found : response := {|
  resp_status := 404;
  resp_headers := ∅;
  resp_has_content := true;
  resp_json := Ok (VDict {[ "error" := VStr "Not Found" ]});
  resp_text := "{}"
|}.

(** A 429 answer that asks for seven seconds of patience. *)
Definition too_many_requests : response := {|
  resp_status := 429;
  resp_headers := {[ "Retry-After" := "7" ]};
  resp_has_content := false;
  resp_json := Raise ValueError;
  resp_text := ""
|}.

End Journal.

(** ** What the generated data looks like *)

Module GeneratedData.
Import Py Random MockDataProvider.

(** The two airports of a request: each is a reference airport, a
    requested code that names a reference airport is honoured, and a
    destination that had to be drawn differs from the origin. *)
Definition route_of (origin_code destination_code : option string)
    (origin_airport dest_airport : airport) : Prop :=
  In origin_airport AUSTRALIAN_AIRPORTS
  /\ In dest_airport AUSTRALIAN_AIRPORTS
  /\ (forall a, find_airport AUSTRALIAN_AIRPORTS origin_code = Some a -> origin_airport = a)
  /\ (forall b, find_airport AUSTRALIAN_AIRPORTS destination_code = Some b -> dest_airport = b)
  /\ (find_airport AUSTRALIAN_AIRPORTS destination_code = None ->
      iata dest_airport <> iata origin_airport).

(** The fields of a generated flight other than its seat counts. *)
Definition flight_detailed (fl : mock_flight) : Prop :=
  In (fl_airline fl) AIRLINES
  /\ In (aircraft fl) AIRCRAFT_TYPES
  /\ fst (capacity_range (aircraft fl)) <= capacity fl <= snd (capacity_range (aircraft fl))
  /\ 6 * hour_us <= departure_time fl - midnight (departure_time fl)
     <= 22 * hour_us + 45 * minute_us
  /\ arrival_time fl = departure_time fl + duration fl * minute_us
  /\ 60 <= duration fl <= 419
  /\ (price fl <= 800)%Q
  /\ In (status fl) ["scheduled"; "delayed"; "cancelled"]
  /\ In (stops fl) [0; 1; 2]
  /\ currency fl = "AUD"
  /\ data_source fl = "mock".

(** The ranges of a market-data point. *)
Definition point_in_range (p : market_point) : Prop :=
  0 <= booking_count p <= search_volume p
  /\ (0 <= conversion_rate p)%Q /\ (conversion_rate p <= 100)%Q
  /\ (150 <= average_price p)%Q /\ (average_price p <= 600)%Q
  /\ (min_price p <= average_price p)%Q /\ (average_price p <= max_price p)%Q
  /\ (60 <= mp_load_factor p)%Q /\ (mp_load_factor p <= 95)%Q
  /\ mp_data_source p = "mock".

(** The days of a series of [days] points that ends today, oldest first. *)
Definition days_back (utcnow days : Z) : list Z :=
  map (fun i => midnight utcnow - i * day_us) (rev (range days)).

(** A destination of the analytics of the airport [code]: another
    reference airport, with figures in the ranges they are drawn from. *)
Definition destination_in_range (code : string) (d : destination_stats) : Prop :=
  In (dest_airport d) AUSTRALIAN_AIRPORTS
  /\ iata (dest_airport d) <> code
  /\ 50 <= flight_count d <= 200
  /\ (150 <= dest_average_price d)%Q /\ (dest_average_price d <= 500)%Q
  /\ (60 <= dest_load_factor d)%Q /\ (dest_load_factor d <= 95)%Q.

(** The head of the analytics of the airport [code]. *)
Definition analytics_summary (code : string) (a : analytics) : Prop :=
  In (an_airport a) AUSTRALIAN_AIRPORTS /\ iata (an_airport a) = code
  /\ 1000 <= total_flights a <= 5000
  /\ 100000 <= total_passengers a <= 500000
  /\ (70 <= average_load_factor a)%Q /\ (average_load_factor a <= 90)%Q
  /\ (75 <= on_time_performance a)%Q /\ (on_time_performance a <= 95)%Q
  /\ an_data_source a = "mock".

(** The four series of the analytics. *)
Definition series_of (a : analytics) : list (list Q) :=
  [ts_flights a; ts_passengers a; ts_load_factors a; ts_average_fares a].

End GeneratedData.

(** ** The answers of the data service *)

Module ServiceAnswers.
Import Py Random DataService.

(** An envelope as [_with_fallback] builds it from the answer of [func]:
    the data is what a registered source returned, it is not [None], the
    source is the name of that source, and the envelope has none of the keys
    [meta], [warning] and [is_mock]. *)
Definition chain_envelope {W : Type} (clients : DataSource -> bool)
    (func : DataSource -> W -> result pyval * W) (r : envelope) : Prop :=
  exists (data : pyval) (s : DataSource) (w0 w1 : W),
    clients s = true /\ func s w0 = (Ok data, w1) /\ is_none data = false
    /\ r !! "data" = Some data
    /\ r !! "source" = Some (VStr (source_name s))
    /\ r !! "meta" = None /\ r !! "warning" = None /\ r !! "is_mock" = None.

(** The search asks for an airline filter. *)
Definition airline_filter (q : search) : bool :=
  nonempty_list (include_airlines q) || nonempty_list (exclude_airlines q).

End ServiceAnswers.

(** * Properties *)

(** ** Facts about the value model *)

Module PyFacts.
Import Py.

Lemma Qltb_spec (x y : Q) : Qltb x y = true <-> (x < y)%Q.
Proof. unfold Qltb, Qlt. apply Z.ltb_lt. Qed.

Lemma Qltb_false (x y : Q) : Qltb x y = false <-> (y <= x)%Q.
Proof. unfold Qltb, Qle. rewrite Z.ltb_ge. reflexivity. Qed.

Lemma bind_ok {A B} (r : result A) (k : A -> result B) (b : B) :
  r ≫= k = Ok b -> exists a, r = Ok a /\ k a = Ok b.
Proof. destruct r as [a|e]; simpl; [eauto | discriminate]. Qed.

End PyFacts.

(** ** DataCleaner *)

Module DataCleanerSpec.
Import Py Dates DataCleaner PyFacts.

Lemma clean_flight_data_loop (lib : DateLib) (flight_data : list flight) :
  clean_flight_data lib flight_data = clean_loop lib flight_data.
Proof. destruct flight_data; reflexivity. Qed.

Lemma clean_loop_length (lib : DateLib) (flight_data : list flight) :
  length (clean_loop lib flight_data)
  = length (List.filter (fun f => is_ok (clean_record lib f)) flight_data).
Proof.
  induction flight_data as [|f rest IH]; simpl; [reflexivity|].
  destruct (clean_record lib f); simpl; lia.
Qed.




(** *** The numeric fields after [_clean_numeric_fields] *)

Lemma to_number_is_number (v x : pyval) :
  to_number v = Ok x -> (exists z, x = VInt z) \/ (exists q, x = VFloat q).
Proof.
  unfold to_number. intros H.
  destruct v as [| | | |s| |];
    try (apply bind_ok in H as (y & _ & H); inversion H; eauto).
  destruct (existsb _ _);
    apply bind_ok in H as (y & _ & H); inversion H; eauto.
Qed.

Lemma stored_number_nonneg (x : pyval) :
  (exists z, x = VInt z) \/ (exists q, x = VFloat q) ->
  nonneg_number (if negative x then py_abs x else x).
Proof.
  intros [[z ->]|[q ->]]; simpl.
  - destruct (z <? 0) eqn:Hz; simpl; [apply Z.abs_nonneg | apply Z.ltb_ge; assumption].
  - destruct (Qltb q 0) eqn:Hq; simpl; [apply Qabs_nonneg | apply Qltb_false; assumption].
Qed.

Lemma quarantine_lookup (field : string) (v : pyval) (f : flight) :
  quarantine field v f !! field = None
  /\ forall k, k <> field -> k <> raw_key field -> quarantine field v f !! k = f !! k.
Proof.
  unfold quarantine. split.
  - apply lookup_delete_eq.
  - intros k Hk Hraw. rewrite lookup_delete_ne, lookup_insert_ne; congruence.
Qed.

(** One step of the loop: the field it handles ends up absent, [None] or a
    number that is not negative, and no other key changes except the
    quarantine key of that field. *)
Lemma clean_numeric_spec (f f' : flight) (field : string) :
  clean_numeric f field = Ok f' ->
  (forall v, f' !! field = Some v -> v = VNone \/ nonneg_number v)
  /\ (forall k, k <> field -> k <> raw_key field -> f' !! k = f !! k).
Proof.
  unfold clean_numeric. intros H.
  destruct (f !! field) as [v|] eqn:Hf.
  2:{ inversion H; subst. split; [intros v Hv; congruence | reflexivity]. }
  assert (Hgen :
    try_value_type
      (to_number v ≫= fun x => Ok (<[field := if negative x then py_abs x else x]> f))
      (Ok (quarantine field v f)) = Ok f' ->
    (forall v0, f' !! field = Some v0 -> v0 = VNone \/ nonneg_number v0)
    /\ (forall k, k <> field -> k <> raw_key field -> f' !! k = f !! k)).
  { clear H. intros H. unfold try_value_type in H.
    destruct (to_number v) as [x|e] eqn:Hx; simpl in H.
    - inversion H; subst. split.
      + intros v0 Hv0. rewrite lookup_insert_eq in Hv0. inversion Hv0; subst.
        right. apply stored_number_nonneg. eapply to_number_is_number; eassumption.
      + intros k Hk _. apply lookup_insert_ne. congruence.
    - destruct (value_or_type e); [|discriminate].
      inversion H; subst. destruct (quarantine_lookup field v f) as [Hq Hother].
      split; [intros v0 Hv0; congruence | assumption]. }
  destruct v; try (apply Hgen; exact H).
  inversion H; subst. split; [|reflexivity].
  intros v Hv. left. congruence.
Qed.

(** The loop over a list of fields without repetition, none of which is the
    quarantine key of another. *)
Lemma clean_numeric_loop (fields : list string) :
  NoDup fields ->
  (forall g h, g ∈ fields -> h ∈ fields -> h <> raw_key g) ->
  forall f f', for_each clean_numeric f fields = Ok f' ->
  (forall h v, h ∈ fields -> f' !! h = Some v -> v = VNone \/ nonneg_number v)
  /\ (forall k, k ∉ fields -> (forall g, g ∈ fields -> k <> raw_key g) -> f' !! k = f !! k).
Proof.
  induction fields as [|g rest IH]; intros Hnd Hraw f f' H; simpl in H.
  - inversion H; subst. split; [intros h v Hh; inversion Hh | reflexivity].
  - apply bind_ok in H as (f1 & Hstep & Hrest).
    apply NoDup_cons in Hnd as [Hg Hnd].
    apply clean_numeric_spec in Hstep as [Hfield Hframe].
    apply IH in Hrest as [IHgood IHframe];
      [|assumption|intros; apply Hraw; apply elem_of_cons; auto].
    split.
    + intros h v Hh Hv. apply elem_of_cons in Hh as [->|Hh].
      * apply Hfield. rewrite <- Hv. symmetry. apply IHframe; [assumption|].
        intros g' Hg'. apply Hraw; apply elem_of_cons; auto.
      * eapply IHgood; eassumption.
    + intros k Hk Hkraw. rewrite IHframe.
      * apply Hframe.
        -- intros ->. apply Hk. apply elem_of_cons; auto.
        -- apply Hkraw. apply elem_of_cons; auto.
      * intros Hin. apply Hk. apply elem_of_cons; auto.
      * intros g' Hg'. apply Hkraw. apply elem_of_cons; auto.
Qed.

Lemma numeric_fields_distinct : NoDup numeric_fields.
Proof. apply (bool_decide_unpack (NoDup numeric_fields)). vm_compute. reflexivity. Qed.

Lemma numeric_fields_not_raw (g h : string) :
  g ∈ numeric_fields -> h ∈ numeric_fields -> h <> raw_key g.
Proof.
  assert (H : Forall (fun g => Forall (fun h => h <> raw_key g) numeric_fields) numeric_fields).
  { apply (bool_decide_unpack _). vm_compute. reflexivity. }
  intros Hg Hh. rewrite Forall_forall in H. specialize (H g Hg).
  rewrite Forall_forall in H. exact (H h Hh).
Qed.

(** After [_clean_numeric_fields] every numeric field that is still present
    is [None] or a number that is not negative. *)
Lemma _clean_numeric_fields_nonneg (f f' : flight) (field : string) (v : pyval) :
  _clean_numeric_fields f = Ok f' ->
  field ∈ numeric_fields ->
  f' !! field = Some v ->
  v = VNone \/ nonneg_number v.
Proof.
  intros H Hin Hv.
  destruct (clean_numeric_loop numeric_fields numeric_fields_distinct
              numeric_fields_not_raw f f' H) as [Hgood _].
  eapply Hgood; eassumption.
Qed.

(** *** The later stages leave the numeric fields alone, the duration apart *)

Lemma clean_flight_number_frame (f f' : flight) (k : string) :
  clean_flight_number f = Ok f' ->
  k <> "flight_number" -> k <> "flight_number_raw" -> f' !! k = f !! k.
Proof.
  unfold clean_flight_number. intros H Hk Hraw.
  destruct (f !! "flight_number") as [v|]; [|congruence].
  destruct (truthy v); [|congruence].
  unfold try_value_type in H.
  match type of H with
  | match ?r ≫= _ with _ => _ end = _ => destruct r as [n|e]; simpl in H
  end.
  - inversion H; subst. rewrite lookup_insert_ne; congruence.
  - destruct (value_or_type e); [|discriminate]. inversion H; subst.
    apply quarantine_lookup; assumption.
Qed.

Lemma upper_airline_frame (f f' : flight) (field k : string) :
  upper_airline f field = Ok f' -> k <> field -> f' !! k = f !! k.
Proof.
  unfold upper_airline. intros H Hk.
  destruct (f !! field) as [v|]; [|congruence].
  destruct (truthy v); [|congruence].
  destruct v; try discriminate. inversion H; subst.
  rewrite lookup_insert_ne; congruence.
Qed.

Lemma _clean_airline_info_frame (f f' : flight) (k : string) :
  _clean_airline_info f = Ok f' -> k ∉ later_keys -> f' !! k = f !! k.
Proof.
  unfold _clean_airline_info, airline_fields. intros H Hk. simpl in H.
  apply bind_ok in H as (f1 & H1 & H).
  apply bind_ok in H as (f2 & H2 & H).
  apply bind_ok in H as (f3 & H3 & H). inversion H; subst.
  unfold later_keys in Hk.
  rewrite (upper_airline_frame _ _ _ _ H3), (upper_airline_frame _ _ _ _ H2),
    (clean_flight_number_frame _ _ _ H1); try reflexivity;
    intros ->; apply Hk; set_solver.
Qed.

Lemma _add_derived_fields_frame (lib : DateLib) (f f' : flight) (k : string) :
  _add_derived_fields lib f = Ok f' -> k ∉ later_keys -> f' !! k = f !! k.
Proof.
  unfold _add_derived_fields, later_keys. intros H Hk.
  apply bind_ok in H as (f1 & H1 & H).
  apply bind_ok in H as (f2 & H2 & H). inversion H; subst. clear H.
  assert (Hcabin : add_cabin_class f2 !! k = f2 !! k).
  { unfold add_cabin_class.
    destruct (f2 !! "booking_class") as [[]|]; try reflexivity.
    repeat (destruct (str_in _ _);
            [rewrite lookup_insert_ne; [reflexivity | intros <-; apply Hk; set_solver]|]).
    reflexivity. }
  assert (Hdur : f2 !! k = f1 !! k).
  { unfold add_duration in H2.
    destruct (f1 !! "flight_duration"); [congruence|].
    destruct (f1 !! "departure_time") as [dep|]; [|congruence].
    destruct (f1 !! "arrival_time") as [arr|]; [|congruence].
    unfold try_value_type in H2.
    match type of H2 with
    | match ?r with _ => _ end = _ => destruct r as [g|e] eqn:Hr
    end.
    - inversion H2; subst.
      apply bind_ok in Hr as (d1 & _ & Hr). apply bind_ok in Hr as (d2 & _ & Hr).
      apply bind_ok in Hr as (m & _ & Hr). inversion Hr; subst.
      rewrite lookup_insert_ne; [reflexivity | intros <-; apply Hk; set_solver].
    - destruct (value_or_type e); congruence. }
  assert (Hid : f1 !! k = f !! k).
  { unfold add_id in H1.
    destruct (f !! "id"); [congruence|].
    apply bind_ok in H1 as (l & _ & H1). inversion H1; subst.
    rewrite lookup_insert_ne; [reflexivity | intros <-; apply Hk; set_solver]. }
  congruence.
Qed.

(** What cleaning does guarantee about the numeric fields: in a cleaned
    record every numeric field other than the duration is absent, [None] or
    a number that is not negative. *)
Lemma clean_record_numeric_nonneg (lib : DateLib) (f f' : flight) (field : string) (v : pyval) :
  clean_record lib f = Ok f' ->
  field ∈ numeric_fields ->
  field <> "flight_duration" ->
  f' !! field = Some v ->
  v = VNone \/ nonneg_number v.
Proof.
  unfold clean_record. intros H Hin Hne Hv.
  apply bind_ok in H as (f1 & _ & H).
  apply bind_ok in H as (f3 & H3 & H).
  apply bind_ok in H as (f4 & H4 & H).
  assert (Hk : field ∉ later_keys).
  { assert (Hall : Forall (fun g => g <> "flight_duration" -> g ∉ later_keys) numeric_fields).
    { apply (bool_decide_unpack _). vm_compute. reflexivity. }
    rewrite Forall_forall in Hall. apply Hall; assumption. }
  rewrite (_add_derived_fields_frame _ _ _ _ H Hk) in Hv.
  rewrite (_clean_airline_info_frame _ _ _ H4 Hk) in Hv.
  eapply _clean_numeric_fields_nonneg; eassumption.
Qed.

(** The cleaning scenario of the specification. *)
Example clean_scenario_record :
  map (fun f => (f !! "origin", f !! "price", f !! "available_seats", f !! "cabin_class"))
      (clean_flight_data strict_lib [scenario_record])
  = [(Some (VStr "SYD"), Some (VFloat (19999 # 100)), Some (VInt 150), Some (VStr "Economy"))].
Proof. vm_compute. reflexivity. Qed.

(** C8 at the failing input: the duration derived from the two timestamps
    is stored as it comes out, here minus one day, while the negative price
    of the same record is replaced by its absolute value. *)
Lemma derived_duration_is_negative :
  map (fun f => (f !! "flight_duration", f !! "price"))
      (clean_flight_data strict_lib [late_arrival_record])
  = [(Some (VFloat (-1440 # 1)), Some (VFloat (120 # 1)))].
Proof. vm_compute. reflexivity. Qed.

End DataCleanerSpec.

(** ** DataProcessor *)

Module DataProcessorSpec.
Import Py Dates DataCleaner DataProcessor.

(** C10: the guard looks at the first record only; when the list is empty
    or its first record has no price, the result is the empty list, whatever
    the later records hold. *)
Theorem detect_price_anomalies_first_record
    (lib : FrameLib) (flights : list flight) (window : Z) (threshold : Q) :
  flights = [] \/ (exists first rest, flights = first :: rest /\ first !! "price" = None) ->
  detect_price_anomalies lib flights window threshold = [].
Proof.
  intros [->|(first & rest & -> & Hprice)]; [reflexivity|].
  unfold detect_price_anomalies. rewrite Hprice. reflexivity.
Qed.

(** A record without a price followed by two priced records. *)
Lemma detect_price_anomalies_first_record_witness :
  detect_price_anomalies numeric_frame
    (unpriced_flight :: [test_flight 21 500 "QF999"; test_flight 22 50 "QF888"]) 7 2 = [].
Proof.
  apply detect_price_anomalies_first_record. right.
  exists unpriced_flight, [test_flight 21 500 "QF999"; test_flight 22 50 "QF888"].
  split; [reflexivity | vm_compute; reflexivity].
Defined.

(** With a priced first record the same later records are scored. *)
Example detect_price_anomalies_priced_first :
  length (detect_price_anomalies numeric_frame
            [test_flight 21 500 "QF999"; unpriced_flight; test_flight 22 50 "QF888"] 7 2)
  = 3%nat.
Proof. vm_compute. reflexivity. Qed.

(** C9 at the fixture of the repository's own test: the rolling z-score
    flags the record priced 500 and no other. The record priced 50 is
    scored inside a window that holds the 500, whose spread brings the
    score to [-(1235/7) / sqrt (377530/21)], about -1.32. *)
Lemma test_fixture_flags_one_outlier :
  List.filter snd (flags (detect_price_anomalies numeric_frame test_flights 7 2))
  = [(Some (VInt 500), true)]
  /\ last (detect_price_anomalies numeric_frame test_flights 7 2)
     = Some (Scored (test_flight 22 50 "QF888") (ZRatio (-1235 # 7) (377530 # 21)) false).
Proof. split; vm_compute; reflexivity. Qed.

(** The score of the record priced 500 in the same run. *)
Example test_fixture_score_of_500 :
  detect_price_anomalies numeric_frame test_flights 7 2 !! 20%nat
  = Some (Scored (test_flight 21 500 "QF999") (ZRatio (1761 # 7) (258488 # 21)) true).
Proof. vm_compute. reflexivity. Qed.

End DataProcessorSpec.

(** ** RateLimiter *)

Module RateLimiterSpec.
Import Py RateLimiter.

(** The branch that raises is guarded by [remaining < 0], and [remaining]
    is [max(0, limit - count)]: the guard is false for every count. *)
Lemma decide_limit_within (self : limiter) (cnt rst : Z) :
  decide_limit {| info_limit := limit self; remaining := Z.max 0 (limit self - cnt);
                  reset := rst; count := cnt |}
  = Within {| info_limit := limit self; remaining := Z.max 0 (limit self - cnt);
              reset := rst; count := cnt |}.
Proof.
  unfold decide_limit; simpl.
  destruct (Z.max 0 (limit self - cnt) <? 0) eqn:H; [|reflexivity].
  apply Z.ltb_lt in H. lia.
Qed.

(** As the repository has it, [check_rate_limit] never gets as far as the
    counter: the key is built, then reading [settings.USE_REDIS] raises, and
    the store and the server are left as they were. *)
Lemma check_rate_limit_as_shipped {R} (ops : RedisOps R) (self : limiter) (req : request)
    (current_time : Q) (w : store * R) :
  check_rate_limit ops shipped_USE_REDIS self req current_time w
  = (match _get_redis_key self req with
     | Ok _ => Raise AttributeError
     | Raise e => Raise e
     end, w).
Proof.
  unfold check_rate_limit, shipped_USE_REDIS.
  destruct (_get_redis_key self req); reflexivity.
Qed.

(** With a settings object that has the field, no request is ever refused,
    in memory or on Redis (whatever the server answers): the call ends with
    the rate information, or with the exception of the key. *)
Lemma check_rate_limit_never_refuses {R} (ops : RedisOps R) (use_redis : bool)
    (self : limiter) (req : request) (current_time : Q) (w : store * R) :
  match fst (check_rate_limit ops (Ok use_redis) self req current_time w) with
  | Ok (Within info) => 0 <= remaining info
  | Ok (RateLimitExceeded _ _) => False
  | Raise e => _get_redis_key self req = Raise e
  end.
Proof.
  unfold check_rate_limit.
  destruct (_get_redis_key self req) as [key|e]; [|reflexivity].
  destruct use_redis.
  - unfold _redis_rate_limit. destruct (INCR ops key (snd w)) as [current r1].
    simpl. rewrite decide_limit_within. simpl. lia.
  - unfold _in_memory_rate_limit.
    destruct (fst w !! key) as [[cnt reset_time]|];
      [destruct (Qltb reset_time current_time)|];
      simpl; rewrite decide_limit_within; simpl; lia.
Qed.

(** C4 at the failing input: five requests allowed per minute, six requests
    of one client in a row. As the repository has it, each of the six calls
    of [check_rate_limit] ends in the AttributeError of
    [settings.USE_REDIS]: the sixth is not answered with
    [RateLimitExceeded]. The counter itself, called six times for the key of
    these requests, reports the counts 1 to 6 and a remaining count that
    stops at 0, so that the test [remaining < 0] cannot succeed; and with a
    settings object that has the field (set to false) the six calls all
    return the rate information, the sixth with count 6 and remaining 0. *)
Lemma sixth_request_is_not_refused :
  fst (burst no_redis shipped_USE_REDIS auth_rate_limiter login_request 1000 6 (∅, tt))
  = [Raise AttributeError; Raise AttributeError; Raise AttributeError;
     Raise AttributeError; Raise AttributeError; Raise AttributeError]
  /\ _get_redis_key auth_rate_limiter login_request = Ok login_key
  /\ fst (counted auth_rate_limiter login_key 1000 6 ∅)
     = [{| info_limit := 5; remaining := 4; reset := 60; count := 1 |};
        {| info_limit := 5; remaining := 3; reset := 60; count := 2 |};
        {| info_limit := 5; remaining := 2; reset := 60; count := 3 |};
        {| info_limit := 5; remaining := 1; reset := 60; count := 4 |};
        {| info_limit := 5; remaining := 0; reset := 60; count := 5 |};
        {| info_limit := 5; remaining := 0; reset := 60; count := 6 |}]
  /\ fst (burst no_redis (Ok false) auth_rate_limiter login_request 1000 6 (∅, tt))
     = [Ok (Within {| info_limit := 5; remaining := 4; reset := 60; count := 1 |});
        Ok (Within {| info_limit := 5; remaining := 3; reset := 60; count := 2 |});
        Ok (Within {| info_limit := 5; remaining := 2; reset := 60; count := 3 |});
        Ok (Within {| info_limit := 5; remaining := 1; reset := 60; count := 4 |});
        Ok (Within {| info_limit := 5; remaining := 0; reset := 60; count := 5 |});
        Ok (Within {| info_limit := 5; remaining := 0; reset := 60; count := 6 |})].
Proof. repeat split; vm_compute; reflexivity. Qed.

End RateLimiterSpec.

(** ** BaseApiClient *)

Module BaseApiClientSpec.
Import Py BaseApiClient.

Section Exhaustion.

Variable W : Type.
Variable send : string -> string -> W -> (string + response) * W.
Variable time : W -> Q.
Variable sleep : Q -> W -> result unit * W.
Variable _get_mock_data : string -> string -> W -> result pyval * W.
Variable model : option (pyval -> result pyval).

Let retry_loop := retry_loop W send time sleep model.
Let _make_request := _make_request W send time sleep _get_mock_data model.

(** Leaving the loop by [break] keeps the last caught error. *)
Lemma retry_loop_broke_caught (fuel : nat) (method url : string) (retry_count : Z)
    (c c' : client) (w w' : W) (e : error) :
  retry_loop fuel method url retry_count c w = (Broke e, c', w') -> caught e = true.
Proof.
  revert retry_count c w. unfold retry_loop.
  induction fuel as [|fuel IH]; intros retry_count c w; simpl;
    destruct (attempt W send time sleep model method url c w) as [[[v|e0] c1] w1];
    try discriminate;
    destruct (caught e0) eqn:Hc; try discriminate;
    (destruct (max_retries c1 <=? retry_count); [intros H; inversion H; subst; assumption|]);
    destruct (sleep (backoff_delay c1 retry_count e0) w1) as [[[]|x] w2]; try discriminate.
  - intros H; inversion H; subst; assumption.
  - apply IH.
Qed.

(** Once the loop is left by [break], the executor returns the mock payload
    when the fallback is enabled and re-raises the last error, whatever its
    class, when it is not. *)
Lemma exhausted_retries_outcome (method endpoint : string) (use_mock_fallback : bool)
    (c c' : client) (w w' : W) (e : error) :
  0 <= max_retries c ->
  BaseApiClient.retry_loop W send time sleep model (Z.to_nat (max_retries c)) method
    (String.append (default "None" (base_url c))
       (match chars endpoint with
        | "/"%char :: _ => endpoint
        | _ => String.append "/" endpoint
        end)) 0 c w = (Broke e, c', w') ->
  fst (fst (_make_request method endpoint use_mock_fallback c w))
  = if use_mock_fallback then
      match fst (_get_mock_data method
                   (match chars endpoint with
                    | "/"%char :: _ => endpoint
                    | _ => String.append "/" endpoint
                    end) w') with
      | Ok v => Returned v
      | Raise x => Raised (Uncaught x)
      end
    else Raised e.
Proof.
  intros Hmax Hloop. unfold _make_request, BaseApiClient._make_request.
  apply Z.leb_le in Hmax. rewrite Hmax, Hloop. unfold after_loop.
  destruct use_mock_fallback; [|reflexivity].
  destruct (_get_mock_data _ _ w') as [[v|x] w'']; reflexivity.
Qed.

End Exhaustion.

(** C7 at the failing input: no retries, fallback disabled, the connection
    fails. The executor re-raises httpx's transport error itself, which is
    not an [ApiClientError] and carries no status. *)
Lemma transport_error_is_reraised :
  fst (fst (_make_request nat send_down clock_zero sleep_unbound mock_payload None
              "GET" "search" false offline_client 0%nat))
  = Raised (RequestError "All connection attempts failed")
  /\ is_api_client_error (RequestError "All connection attempts failed") = false.
Proof. split; vm_compute; reflexivity. Qed.

(** The same with the default three retries and a working sleep: four
    requests are sent and the transport error of the last one is re-raised. *)
Example transport_error_after_three_retries :
  let '(o, _, sent) := _make_request nat send_down clock_zero sleep_ok mock_payload None
                         "GET" "search" false default_client 0%nat in
  (o, sent) = (Raised (RequestError "All connection attempts failed"), 4%nat).
Proof. vm_compute. reflexivity. Qed.

(** With the module as it is written, the first backoff evaluates the
    unbound name [asyncio]: one request is sent and a NameError leaves the
    executor, with or without the mock fallback. *)
Example first_backoff_raises_name_error :
  forall use_mock_fallback,
  let '(o, _, sent) := _make_request nat send_down clock_zero sleep_unbound mock_payload None
                         "GET" "search" use_mock_fallback default_client 0%nat in
  (o, sent) = (Raised (Uncaught NameError), 1%nat).
Proof. intros []; vm_compute; reflexivity. Qed.

(** With the fallback enabled, exhausting the retries returns the mock payload. *)
Example exhausted_retries_fall_back :
  fst (fst (_make_request nat send_down clock_zero sleep_ok mock_payload None
              "GET" "search" true default_client 0%nat))
  = Returned (VDict {[ "is_mock" := VBool true ]}).
Proof. vm_compute. reflexivity. Qed.

End BaseApiClientSpec.

(** ** The random module: total correctness of a drawing computation *)

Module RandomFacts.
Import Py Random PyFacts.

Lemma returns_ret {A} (a : A) (P : A -> Prop) : P a -> returns (mret a) P.
Proof. intros H i. exists a, i. split; [reflexivity | assumption]. Qed.

Lemma returns_bind {A B} (m : gen A) (k : A -> gen B) (P : A -> Prop) (Q : B -> Prop) :
  returns m P -> (forall a, P a -> returns (k a) Q) -> returns (m ≫= k) Q.
Proof.
  intros Hm Hk i. destruct (Hm i) as (a & j & Hrun & Ha).
  destruct (Hk a Ha j) as (b & j' & Hrun' & Hb).
  exists b, j'. split; [|assumption].
  unfold mbind, gen_bind. rewrite Hrun. exact Hrun'.
Qed.

Lemma returns_weaken {A} (m : gen A) (P Q : A -> Prop) :
  returns m P -> (forall a, P a -> Q a) -> returns m Q.
Proof.
  intros Hm HPQ i. destruct (Hm i) as (a & j & Hrun & Ha). eauto.
Qed.

Section Draws.

Variable entropy : nat -> Z.

Lemma returns_randint (a b : Z) :
  a <= b -> returns (randint entropy a b) (fun k => a <= k <= b).
Proof.
  intros Hab i. unfold randint.
  destruct (b <? a) eqn:Hlt; [apply Z.ltb_lt in Hlt; lia|].
  exists (a + entropy i mod (b - a + 1)), (S i). split; [reflexivity|].
  pose proof (Z.mod_pos_bound (entropy i) (b - a + 1)). lia.
Qed.

Lemma returns_randbelow (n : Z) : returns (randbelow entropy n) (fun _ => True).
Proof. intros i. eexists _, _. split; [reflexivity | exact I]. Qed.

Lemma random_unit_interval (i : nat) :
  exists u, random entropy i = (Ok u, S i) /\ (0 <= u)%Q /\ (u < 1)%Q.
Proof.
  eexists. split; [reflexivity|].
  pose proof (Z.mod_pos_bound (entropy i) (2 ^ 53) ltac:(lia)) as Hm.
  split.
  - rewrite Qred_correct. unfold Qle; simpl. lia.
  - rewrite Qred_correct. unfold Qlt; simpl. lia.
Qed.

Lemma returns_uniform (a b : Q) :
  (a <= b)%Q -> returns (uniform entropy a b) (fun x => (a <= x)%Q /\ (x <= b)%Q).
Proof.
  intros Hab i. destruct (random_unit_interval i) as (u & Hrun & Hu0 & Hu1).
  exists (Qred (a + (b - a) * u)), (S i). split.
  - unfold uniform, mbind, gen_bind. rewrite Hrun. reflexivity.
  - rewrite Qred_correct.
    assert (H0 : (0 <= b - a)%Q) by lra.
    assert (Hprod : (0 <= (b - a) * u)%Q) by (apply Qmult_le_0_compat; assumption).
    assert (Hprod' : ((b - a) * u <= (b - a) * 1)%Q).
    { apply Qmult_le_compat_nonneg; split;
        [assumption | apply Qle_refl | assumption | apply Qlt_le_weak; assumption]. }
    split; lra.
Qed.

Lemma returns_choice {A} (l : list A) :
  l <> [] -> returns (choice entropy l) (fun x => In x l).
Proof.
  intros Hl i. destruct l as [|x rest]; [congruence|].
  exists (nth (Z.to_nat (entropy i mod Z.of_nat (length (x :: rest)))) (x :: rest) x), (S i).
  split; [reflexivity|].
  apply nth_In.
  pose proof (Z.mod_pos_bound (entropy i) (Z.of_nat (length (x :: rest)))
                ltac:(simpl; lia)).
  lia.
Qed.

End Draws.

End RandomFacts.

(** ** MockDataProvider *)

Module MockDataProviderSpec.
Import Py Random MockDataProvider PyFacts RandomFacts.

(** *** Truncation and rounding *)

Lemma Qtrunc_floor (q : Q) : (0 <= q)%Q -> Qtrunc q = Qfloor q.
Proof.
  destruct q as [n d]. unfold Qle, Qtrunc, Qfloor; simpl. intros H.
  apply Z.quot_div_nonneg; lia.
Qed.

Lemma Qtrunc_lower (n : Z) (q : Q) : 0 <= n -> (inject_Z n <= q)%Q -> n <= Qtrunc q.
Proof.
  intros Hn Hq.
  assert (H0 : (0 <= q)%Q).
  { eapply Qle_trans; [|exact Hq]. unfold Qle; simpl. lia. }
  rewrite (Qtrunc_floor q H0), <- (Qfloor_Z n). apply Qfloor_resp_le. exact Hq.
Qed.

Lemma Qtrunc_half (c : Z) : 0 <= c -> Qtrunc (inject_Z c * (1 # 2)) = c / 2.
Proof.
  intros H. unfold Qtrunc; simpl. rewrite Z.mul_1_r. apply Z.quot_div_nonneg; lia.
Qed.

Lemma Qtrunc_nine_tenths (c : Z) : 0 <= c -> Qtrunc (inject_Z c * (9 # 10)) = (c * 9) / 10.
Proof.
  intros H. unfold Qtrunc; simpl. apply Z.quot_div_nonneg; lia.
Qed.

Lemma round_half_even_floor (y : Q) : Qfloor y <= round_half_even y.
Proof.
  unfold round_half_even.
  destruct (Qcompare _ _); [destruct (Z.even _)| |]; lia.
Qed.

(** Rounding to [ndigits] decimals does not go below an integer bound. *)
Lemma round_lower (n : Z) (x : Q) (ndigits : Z) :
  0 <= ndigits -> (inject_Z n <= x)%Q -> (inject_Z n <= round x ndigits)%Q.
Proof.
  intros Hd Hx. unfold round. rewrite Qred_correct.
  assert (Hs : 0 < 10 ^ ndigits) by (apply Z.pow_pos_nonneg; lia).
  set (s := 10 ^ ndigits) in *.
  assert (Hfloor : n * s <= round_half_even (x * inject_Z s)).
  { eapply Z.le_trans; [|apply round_half_even_floor].
    rewrite <- (Qfloor_Z (n * s)). apply Qfloor_resp_le.
    rewrite inject_Z_mult. apply Qmult_le_compat_r; [exact Hx|].
    unfold Qle; simpl. lia. }
  unfold Qle; simpl. rewrite Z2Pos.id by lia. lia.
Qed.

(** *** The draws of [get_flights] *)

Section Provider.

Variable entropy : nat -> Z.
Variable utcnow : Z.

Lemma returns_choices {A} (population : list A) (weights : list Q) :
  population <> [] ->
  (length weights =? length population)%nat = true ->
  Qltb 0 (List.last (accumulate 0 weights) 0%Q) = true ->
  returns (choices entropy population weights) (fun x => In x population).
Proof.
  intros Hpop Hlen Htotal i. destruct population as [|x rest]; [congruence|].
  unfold choices. rewrite Hlen, Htotal.
  change (negb true) with false. cbv iota.
  destruct (random_unit_interval entropy i) as (u & Hrun & _).
  unfold mbind, gen_bind. rewrite Hrun.
  eexists _, _. split; [reflexivity|].
  apply nth_In.
  eapply Nat.le_lt_trans; [apply filter_length_le|].
  rewrite length_firstn. simpl. lia.
Qed.

Lemma returns_divide (x y : Q) :
  Qis_zero y = false -> returns (divide x y) (fun q => q = Qred (x / y)).
Proof.
  intros Hy i. unfold divide. rewrite Hy. exists (Qred (x / y)), i. split; reflexivity.
Qed.

Lemma aircraft_ranges (a : aircraft_type) :
  In a AIRCRAFT_TYPES ->
  130 <= fst (capacity_range a) /\ fst (capacity_range a) <= snd (capacity_range a)
  /\ snd (capacity_range a) <= 853.
Proof.
  simpl. intros H.
  repeat (destruct H as [<-|H]; [simpl; lia|]). destruct H.
Qed.

Lemma departure_on_same_day (current_date hour minute : Z) :
  6 <= hour <= 22 -> In minute [0; 15; 30; 45] ->
  day_of (midnight current_date + hour * hour_us + minute * minute_us) = day_of current_date.
Proof.
  intros Hh Hm. unfold day_of, midnight.
  assert (Hoff : 0 <= hour * hour_us + minute * minute_us < day_us).
  { unfold day_us, hour_us, minute_us, second_us.
    simpl in Hm. destruct Hm as [<-|[<-|[<-|[<-|[]]]]]; lia. }
  assert (Hday : 0 < day_us) by (unfold day_us, hour_us, minute_us, second_us; lia).
  rewrite <- Z.add_assoc, Z.div_add_l by lia.
  rewrite (Z.div_small _ _ Hoff). apply Z.add_0_r.
Qed.

(** One generated flight is consistent and departs on the day it was
    generated for. *)
Lemma make_flight_spec (origin_airport dest_airport : airport) (current_date : Z) :
  returns (make_flight entropy origin_airport dest_airport current_date)
    (fun fl => flight_consistent fl
               /\ day_of (departure_time fl) = day_of current_date).
Proof.
  unfold make_flight.
  eapply returns_bind; [apply (returns_randint entropy 6 22); lia | intros hour Hhour].
  eapply returns_bind; [apply (returns_choice entropy [0; 15; 30; 45]); discriminate
                       | intros minute Hminute].
  eapply returns_bind; [apply (returns_randint entropy 1 6); lia | intros dh Hdh].
  eapply returns_bind; [apply (returns_randint entropy 0 59); lia | intros dm Hdm].
  eapply returns_bind; [apply (returns_choice entropy AIRLINES); discriminate
                       | intros chosen_airline _].
  eapply returns_bind; [apply (returns_choice entropy AIRCRAFT_TYPES); discriminate
                       | intros chosen_aircraft Haircraft].
  apply aircraft_ranges in Haircraft as (Hlo & Hrange & Hhi).
  eapply returns_bind; [apply returns_randint; exact Hrange | intros cap Hcap].
  cbv beta in *.
  assert (Hcap0 : 0 <= cap) by lia.
  eapply returns_bind.
  { apply returns_randint.
    rewrite (Qtrunc_half cap Hcap0), (Qtrunc_nine_tenths cap Hcap0).
    Z.to_euclidean_division_equations. lia. }
  intros booked Hbooked.
  eapply returns_bind; [apply (returns_uniform entropy 100 300); lra | intros base [Hbase _]].
  eapply returns_bind; [apply (returns_uniform entropy 500 4000); lra | intros dist [Hdist _]].
  eapply returns_bind; [apply (returns_uniform entropy (-50) 100); lra | intros noise [Hnoise _]].
  eapply returns_bind; [apply (returns_randbelow entropy (2 ^ 128)) | intros uuid _].
  eapply returns_bind; [apply (returns_randint entropy 100 9999); lia | intros number _].
  eapply returns_bind.
  { apply (returns_divide (inject_Z booked) (inject_Z cap)).
    unfold Qis_zero; simpl. apply Z.eqb_neq. lia. }
  intros ratio _.
  eapply returns_bind; [apply returns_choices; [discriminate | reflexivity | reflexivity]
                       | intros flight_status _].
  eapply returns_bind; [apply returns_choices; [discriminate | reflexivity | reflexivity]
                       | intros flight_stops _].
  apply returns_ret. unfold flight_consistent; simpl. cbv beta in *.
  pose proof Hbooked as Hbooked'.
  rewrite (Qtrunc_half cap Hcap0), (Qtrunc_nine_tenths cap Hcap0) in Hbooked'.
  split; [|apply departure_on_same_day; assumption].
  repeat split; try (Z.to_euclidean_division_equations; lia).
  - apply (round_lower 100); [lia|]. unfold inject_Z. lra.
  - unfold hour_us, minute_us, second_us. lia.
Qed.

(** *** get_flights *)

Lemma other_airports_nonempty (code : string) :
  List.filter (fun a => negb (String.eqb (iata a) code)) AUSTRALIAN_AIRPORTS <> [].
Proof.
  intros Hnil.
  assert (Hall : forall a, In a AUSTRALIAN_AIRPORTS -> iata a = code).
  { intros a Ha. destruct (negb (String.eqb (iata a) code)) eqn:Hf.
    - assert (Hin : In a (List.filter (fun a => negb (String.eqb (iata a) code))
                                      AUSTRALIAN_AIRPORTS)).
      { apply filter_In. split; assumption. }
      rewrite Hnil in Hin. destruct Hin.
    - apply negb_false_iff, String.eqb_eq in Hf. exact Hf. }
  assert (Hsyd : "SYD" = code) by (apply (Hall (nth 0 AUSTRALIAN_AIRPORTS inhabitant)); simpl; auto).
  assert (Hmel : "MEL" = code) by (apply (Hall (nth 1 AUSTRALIAN_AIRPORTS inhabitant)); simpl; auto).
  congruence.
Qed.

Lemma returns_pick_route (origin destination : option string) :
  returns (pick_route entropy origin destination) (fun _ => True).
Proof.
  unfold pick_route.
  eapply returns_bind with (P := fun _ => True).
  - destruct (find_airport AUSTRALIAN_AIRPORTS origin).
    + apply returns_ret. exact I.
    + eapply returns_weaken; [apply returns_choice; discriminate | auto].
  - intros origin_airport _.
    eapply returns_bind with (P := fun _ => True).
    + destruct (find_airport AUSTRALIAN_AIRPORTS destination).
      * apply returns_ret. exact I.
      * eapply returns_weaken; [apply returns_choice; apply other_airports_nonempty | auto].
    + intros dest_airport _. apply returns_ret. exact I.
Qed.

Lemma day_of_mono (a b : Z) : a <= b -> day_of a <= day_of b.
Proof.
  intros H. unfold day_of. apply Z.div_le_mono; [|exact H].
  unfold day_us, hour_us, minute_us, second_us. lia.
Qed.

Lemma day_flights_spec (start stop : Z) (n : nat) (origin_airport dest_airport : airport)
    (current_date limit : Z) (flights : list mock_flight) :
  start <= current_date <= stop ->
  Forall (fun fl => flight_consistent fl /\ departs_within start stop fl) flights ->
  returns (day_flights entropy n origin_airport dest_airport current_date limit flights)
    (Forall (fun fl => flight_consistent fl /\ departs_within start stop fl)).
Proof.
  intros Hrange. revert flights.
  induction n as [|n IH]; intros flights Hall; simpl.
  - apply returns_ret. exact Hall.
  - destruct (limit <=? Z.of_nat (length flights)); [apply returns_ret; exact Hall|].
    eapply returns_bind; [apply make_flight_spec|].
    intros fl [Hfl Hday]. apply IH.
    apply Forall_app. split; [exact Hall|].
    constructor; [|constructor]. split; [exact Hfl|].
    unfold departs_within. rewrite Hday.
    split; apply day_of_mono; lia.
Qed.

Lemma days_loop_spec (start stop limit : Z) (origin_airport dest_airport : airport)
    (fuel : nat) (current_date : Z) (flights : list mock_flight) :
  start <= current_date ->
  Forall (fun fl => flight_consistent fl /\ departs_within start stop fl) flights ->
  returns (days_loop entropy fuel origin_airport dest_airport current_date stop limit flights)
    (Forall (fun fl => flight_consistent fl /\ departs_within start stop fl)).
Proof.
  revert current_date flights.
  induction fuel as [|fuel IH]; intros current_date flights Hstart Hall; simpl;
    destruct ((current_date <=? stop) && (Z.of_nat (length flights) <? limit)) eqn:Hcond;
    try (apply returns_ret; exact Hall).
  apply andb_true_iff in Hcond as [Hle _]. apply Z.leb_le in Hle.
  eapply returns_bind; [apply (returns_randint entropy 1 5); lia | intros n _].
  eapply returns_bind; [apply (day_flights_spec start stop); [lia | exact Hall]|].
  intros flights' Hall'. apply IH; [|exact Hall'].
  unfold day_us, hour_us, minute_us, second_us. lia.
Qed.

(** [get_flights] never raises, and every flight it returns is consistent
    and departs on a day of the requested range. *)
Lemma get_flights_spec (origin destination : option string)
    (date_from date_to : option Z) (limit : Z) :
  returns (get_flights entropy utcnow origin destination date_from date_to limit)
    (Forall (fun fl => flight_consistent fl
                       /\ departs_within (range_start utcnow date_from)
                                         (range_end utcnow date_to) fl)).
Proof.
  unfold get_flights.
  eapply returns_bind; [apply returns_pick_route | intros route _].
  apply days_loop_spec; [lia | constructor].
Qed.

(** The fuel of the day loop is never what stops it: any two amounts that
    cover the days up to [date_to] give the same run. *)
Lemma days_loop_fuel (origin_airport dest_airport : airport) (date_to limit : Z)
    (fuel1 fuel2 : nat) (current_date : Z) (flights : list mock_flight) (i : nat) :
  (date_to - current_date) / day_us + 1 <= Z.of_nat fuel1 ->
  (date_to - current_date) / day_us + 1 <= Z.of_nat fuel2 ->
  days_loop entropy fuel1 origin_airport dest_airport current_date date_to limit flights i
  = days_loop entropy fuel2 origin_airport dest_airport current_date date_to limit flights i.
Proof.
  revert fuel2 current_date flights i.
  assert (Hday : day_us = 86400000000) by reflexivity.
  induction fuel1 as [|fuel1 IH]; intros fuel2 current_date flights i H1 H2.
  - destruct fuel2 as [|fuel2]; [reflexivity|]. simpl.
    destruct (current_date <=? date_to) eqn:Hle; [|reflexivity].
    apply Z.leb_le in Hle.
    assert (0 <= (date_to - current_date) / day_us) by (apply Z.div_pos; lia).
    simpl in H1. lia.
  - destruct fuel2 as [|fuel2]; simpl.
    + destruct (current_date <=? date_to) eqn:Hle; [|reflexivity].
      apply Z.leb_le in Hle.
      assert (0 <= (date_to - current_date) / day_us) by (apply Z.div_pos; lia).
      simpl in H2. lia.
    + destruct ((current_date <=? date_to) && (Z.of_nat (length flights) <? limit));
        [|reflexivity].
      unfold mbind, gen_bind.
      destruct (randint entropy 1 5 i) as [[n|e] j]; [|reflexivity].
      destruct (day_flights entropy (Z.to_nat n) origin_airport dest_airport
                  current_date limit flights j) as [[flights'|e] j']; [|reflexivity].
      assert (Hstep : (date_to - (current_date + day_us)) / day_us
                      = (date_to - current_date) / day_us - 1).
      { replace (date_to - (current_date + day_us))
          with (date_to - current_date + (-1) * day_us) by lia.
        rewrite Z.div_add by lia. lia. }
      apply IH; rewrite Hstep; lia.
Qed.

(** *** get_market_data *)

Lemma inject_Z_lower (n v : Z) (f : Q) :
  n <= v -> (1 <= f)%Q -> 0 <= n -> (inject_Z n <= inject_Z v * f)%Q.
Proof.
  intros Hv Hf Hn.
  assert (H1 : (inject_Z n <= inject_Z v)%Q) by (rewrite <- Zle_Qle; exact Hv).
  assert (H0 : (0 <= inject_Z n)%Q) by (unfold Qle; simpl; lia).
  nra.
Qed.

Lemma market_day_spec (origin_airport dest_airport : airport) (day : Z) :
  returns (market_day entropy utcnow origin_airport dest_airport day) point_consistent.
Proof.
  unfold market_day.
  eapply returns_bind; [apply (returns_uniform entropy 50 200); lra | intros base [Hbase _]].
  eapply returns_bind; [apply (returns_uniform entropy (8 # 10) (12 # 10)); lra
                       | intros noise [Hnoise _]].
  eapply returns_bind; [apply (returns_uniform entropy (1 # 10) (4 # 10)); lra
                       | intros conversion _].
  eapply returns_bind; [apply (returns_uniform entropy 150 500); lra | intros raw_price _].
  set (boost := if 5 <=? weekday (midnight utcnow - day * day_us) then (3 # 2)%Q else 1%Q).
  set (factor := if _ : bool then (13 # 10)%Q else 1%Q).
  assert (Hboost : (1 <= boost)%Q) by (unfold boost; destruct (5 <=? _); lra).
  assert (Hfactor : (1 <= factor)%Q) by (unfold factor; destruct (_ || _); lra).
  assert (Hvol1 : 40 <= Qtrunc (base * boost * noise)).
  { apply Qtrunc_lower; [lia|]. unfold inject_Z.
    assert (Hbb : (50 <= base * boost)%Q) by nra.
    nra. }
  assert (Hvol : 40 <= Qtrunc (inject_Z (Qtrunc (base * boost * noise)) * factor)).
  { apply Qtrunc_lower; [lia|]. apply inject_Z_lower; [exact Hvol1 | exact Hfactor | lia]. }
  set (volume := Qtrunc (inject_Z (Qtrunc (base * boost * noise)) * factor)) in *.
  assert (Hpos : (0 <? volume) = true) by (apply Z.ltb_lt; lia).
  rewrite Hpos.
  set (bookings := Qtrunc (inject_Z (Qtrunc (base * boost * noise)) * conversion)).
  eapply returns_bind
    with (P := fun rate => rate = round (Qred (inject_Z bookings / inject_Z volume) * 100) 2).
  { eapply returns_bind.
    - apply (returns_divide (inject_Z bookings) (inject_Z volume)).
      unfold Qis_zero; simpl. apply Z.eqb_neq. lia.
    - intros r Hr. cbv beta in Hr. subst r. apply returns_ret. reflexivity. }
  intros rate Hrate.
  eapply returns_bind; [apply (returns_uniform entropy (7 # 10) (95 # 100)); lra | intros low _].
  eapply returns_bind; [apply (returns_uniform entropy (105 # 100) (13 # 10)); lra
                       | intros high _].
  eapply returns_bind; [apply (returns_uniform entropy 60 95); lra | intros load _].
  apply returns_ret. unfold point_consistent; simpl.
  split; [exact Hvol | rewrite Hrate; reflexivity].
Qed.

Lemma market_days_spec (origin_airport dest_airport : airport) (days : list Z) :
  returns (market_days entropy utcnow origin_airport dest_airport days)
    (Forall point_consistent).
Proof.
  induction days as [|day rest IH]; simpl.
  - apply returns_ret. constructor.
  - eapply returns_bind; [apply market_day_spec | intros p Hp].
    eapply returns_bind; [apply IH | intros ps Hps].
    apply returns_ret. constructor; assumption.
Qed.

Lemma insert_point_Forall (P : market_point -> Prop) (p : market_point)
    (l : list market_point) :
  P p -> Forall P l -> Forall P (insert_point p l).
Proof.
  intros Hp Hl. induction Hl as [|x rest Hx Hrest IH]; simpl.
  - constructor; [assumption | constructor].
  - destruct (mp_date x <? mp_date p); constructor; try assumption.
    constructor; assumption.
Qed.

Lemma sort_by_date_Forall (P : market_point -> Prop) (l : list market_point) :
  Forall P l -> Forall P (sort_by_date l).
Proof.
  intros Hl. induction Hl as [|x rest Hx Hrest IH]; simpl; [constructor|].
  apply insert_point_Forall; assumption.
Qed.

(** [get_market_data] never raises; every point has a search volume of at
    least 40 and a conversion rate that is the percentage of bookings per
    search, rounded to two decimals. *)
Lemma get_market_data_spec (origin destination : option string) (days : Z) :
  returns (get_market_data entropy utcnow origin destination days)
    (Forall point_consistent).
Proof.
  unfold get_market_data.
  eapply returns_bind; [apply returns_pick_route | intros route _].
  eapply returns_bind; [apply market_days_spec | intros points Hpoints].
  apply returns_ret. apply sort_by_date_Forall. exact Hpoints.
Qed.

(** *** get_airport_analytics *)

Lemma returns_sample_from {A} (k : nat) (pool : list A) :
  (k <= length pool)%nat -> returns (sample_from entropy pool k) (fun _ => True).
Proof.
  revert pool. induction k as [|k IH]; intros pool Hk; simpl.
  - apply returns_ret. exact I.
  - destruct pool as [|x rest]; [simpl in Hk; lia|].
    eapply returns_bind; [apply returns_randbelow | intros j _].
    eapply returns_bind; [|intros l _; apply returns_ret; exact I].
    apply IH. rewrite length_firstn, length_insert. simpl in *. lia.
Qed.

Lemma extend_series_spec (n : nat) (volatility prev : Q) :
  (0 <= volatility)%Q ->
  returns (extend_series entropy n volatility prev) (fun _ => True).
Proof.
  intros Hv. revert prev. induction n as [|n IH]; intros prev; simpl.
  - apply returns_ret. exact I.
  - eapply returns_bind; [apply (returns_uniform entropy (- volatility) volatility); lra
                         | intros u _].
    eapply returns_bind; [apply IH | intros rest _]. apply returns_ret. exact I.
Qed.

Lemma generate_time_series_spec (days : Z) (base_value volatility : Q) :
  (0 <= volatility)%Q ->
  returns (generate_time_series entropy days base_value volatility) (fun _ => True).
Proof.
  intros Hv. unfold generate_time_series.
  eapply returns_bind; [apply (returns_uniform entropy (9 # 10) (11 # 10)); lra | intros u _].
  eapply returns_bind; [apply extend_series_spec; exact Hv | intros rest _].
  apply returns_ret. exact I.
Qed.

Lemma destination_breakdown_spec (dests : list airport) :
  returns (destination_breakdown entropy dests) (fun _ => True).
Proof.
  induction dests as [|dest rest IH]; simpl.
  - apply returns_ret. exact I.
  - eapply returns_bind; [apply (returns_randint entropy 50 200); lia | intros flights _].
    eapply returns_bind; [apply (returns_uniform entropy 150 500); lra | intros fare _].
    eapply returns_bind; [apply (returns_uniform entropy 60 95); lra | intros load _].
    eapply returns_bind; [apply IH | intros others _]. apply returns_ret. exact I.
Qed.

Lemma find_known (code : string) :
  known_airport code = true ->
  exists a, List.find (fun a => String.eqb (iata a) code) AUSTRALIAN_AIRPORTS = Some a
            /\ iata a = code.
Proof.
  unfold known_airport. generalize AUSTRALIAN_AIRPORTS.
  induction l as [|x rest IH]; simpl; [discriminate|].
  destruct (String.eqb (iata x) code) eqn:Hx.
  - intros _. exists x. split; [reflexivity | apply String.eqb_eq; exact Hx].
  - simpl. exact IH.
Qed.

Lemma find_unknown (code : string) :
  known_airport code = false ->
  List.find (fun a => String.eqb (iata a) code) AUSTRALIAN_AIRPORTS = None.
Proof.
  unfold known_airport. generalize AUSTRALIAN_AIRPORTS.
  induction l as [|x rest IH]; simpl; [reflexivity|].
  destruct (String.eqb (iata x) code); simpl; [discriminate | exact IH].
Qed.

(** For a reference airport the analytics are produced without raising. *)
Lemma get_airport_analytics_known (airport_code : string) (days : Z) :
  known_airport airport_code = true ->
  returns (get_airport_analytics entropy utcnow airport_code days)
    (fun a => iata (an_airport a) = airport_code).
Proof.
  intros Hknown. destruct (find_known airport_code Hknown) as (found & Hfind & Hiata).
  unfold get_airport_analytics. rewrite Hfind.
  set (others := List.filter _ AUSTRALIAN_AIRPORTS).
  eapply returns_bind with (P := fun _ => True).
  { unfold sample.
    destruct ((Z.min 5 (Z.of_nat (length others)) <? 0)
              || (Z.of_nat (length others) <? Z.min 5 (Z.of_nat (length others)))) eqn:Hk.
    - apply orb_true_iff in Hk as [Hk|Hk]; apply Z.ltb_lt in Hk; lia.
    - apply returns_sample_from. lia. }
  intros dests _.
  eapply returns_bind; [apply (returns_randint entropy 1000 5000); lia | intros ft _].
  eapply returns_bind; [apply (returns_randint entropy 100000 500000); lia | intros pt _].
  eapply returns_bind; [apply (returns_uniform entropy 70 90); lra | intros load _].
  eapply returns_bind; [apply (returns_uniform entropy 75 95); lra | intros on_time _].
  eapply returns_bind; [apply destination_breakdown_spec | intros breakdown _].
  eapply returns_bind; [apply generate_time_series_spec; lra | intros s1 _].
  eapply returns_bind; [apply generate_time_series_spec; lra | intros s2 _].
  eapply returns_bind; [apply generate_time_series_spec; lra | intros s3 _].
  eapply returns_bind; [apply generate_time_series_spec; lra | intros s4 _].
  apply returns_ret. exact Hiata.
Qed.

(** For any other code the explicit guard raises a ValueError before any draw. *)
Lemma get_airport_analytics_unknown (airport_code : string) (days : Z) (i : nat) :
  known_airport airport_code = false ->
  get_airport_analytics entropy utcnow airport_code days i = (Raise ValueError, i).
Proof.
  intros Hunknown. unfold get_airport_analytics.
  rewrite (find_unknown airport_code Hunknown). reflexivity.
Qed.

End Provider.

End MockDataProviderSpec.

(** ** The claims about the synthetic data generator *)

Module GeneratorClaims.
Import Py Random MockDataProvider RandomFacts MockDataProviderSpec.

(** C5, as the code has it, for naive datetimes that stay in the range of
    [datetime]: for every source of entropy, [get_flights] ends without
    raising when the date range ends two days at least before the last
    datetime, and every generated flight is consistent (booking level
    between the truncated 50% and 90% of capacity, available seats between 0
    and the capacity, price at least 100, departure on a calendar day of the
    requested range); [get_market_data] ends without raising when [days] is
    at most the ordinal of today; and under the same condition
    [get_airport_analytics] ends without raising exactly for the codes of
    the reference airports: for any other code it raises a ValueError. *)
Theorem generator_consistent_and_guarded (entropy : nat -> Z) (utcnow : Z) :
  (forall origin destination date_from date_to limit,
     range_end utcnow date_to + 2 * day_us <= datetime_max ->
     returns (get_flights entropy utcnow origin destination date_from date_to limit)
       (Forall (fun fl => flight_consistent fl
                          /\ departs_within (range_start utcnow date_from)
                                            (range_end utcnow date_to) fl)))
  /\ (forall origin destination days,
        days <= ordinal utcnow ->
        returns (get_market_data entropy utcnow origin destination days) (fun _ => True))
  /\ (forall airport_code days,
        days <= ordinal utcnow ->
        if known_airport airport_code
        then returns (get_airport_analytics entropy utcnow airport_code days)
               (fun a => iata (an_airport a) = airport_code)
        else forall i, get_airport_analytics entropy utcnow airport_code days i
                       = (Raise ValueError, i)).
Proof.
  split; [|split].
  - intros. apply get_flights_spec.
  - intros. eapply returns_weaken; [apply get_market_data_spec | intros; exact I].
  - intros airport_code days _. destruct (known_airport airport_code) eqn:Hk.
    + apply get_airport_analytics_known. exact Hk.
    + intros i. apply get_airport_analytics_unknown. exact Hk.
Qed.

(** The theorem on the first of January 2024: five flights from Sydney to
    Melbourne in the default range, a week of market data, and a week of
    analytics for Sydney. *)
Lemma generator_consistent_and_guarded_witness :
  (exists flights j,
     get_flights sample_entropy sample_now (Some "SYD") (Some "MEL") None None 5 0%nat
     = (Ok flights, j)
     /\ Forall (fun fl => flight_consistent fl
                          /\ departs_within (range_start sample_now None)
                                            (range_end sample_now None) fl) flights)
  /\ (exists points j,
        get_market_data sample_entropy sample_now (Some "SYD") (Some "MEL") 7 0%nat
        = (Ok points, j) /\ True)
  /\ (exists a j,
        get_airport_analytics sample_entropy sample_now "SYD" 7 0%nat = (Ok a, j)
        /\ iata (an_airport a) = "SYD").
Proof.
  destruct (generator_consistent_and_guarded sample_entropy sample_now) as (Hf & Hm & Ha).
  split; [|split].
  - apply (Hf (Some "SYD") (Some "MEL") None None 5). vm_compute. discriminate.
  - apply (Hm (Some "SYD") (Some "MEL") 7). vm_compute. discriminate.
  - assert (Hdays : 7 <= ordinal sample_now) by (vm_compute; discriminate).
    specialize (Ha "SYD" 7 Hdays). change (known_airport "SYD") with true in Ha.
    apply Ha.
Defined.

(** C5 as stated fails: an airport code outside the reference list makes
    [get_airport_analytics] raise. *)
Lemma analytics_raises_for_unknown_airport :
  get_airport_analytics sample_entropy sample_now "LAX" 30 0%nat = (Raise ValueError, 0%nat).
Proof. vm_compute. reflexivity. Qed.

End GeneratorClaims.

(** ** DataService *)

Module DataServiceSpec.
Import Py Random DataService RandomFacts.

Section Orchestrator.

Variable W : Type.
Variable clients : DataSource -> bool.

Let try_fallbacks := try_fallbacks W clients.
Let _with_fallback := _with_fallback W clients.
Let candidates := candidates clients.

Lemma try_fallbacks_first_answer (func : DataSource -> W -> result pyval * W)
    (source : DataSource) (fallback_sources : list (DataSource * string)) (w : W) :
  try_fallbacks func source fallback_sources w
  = match first_answer W func
            (map (fun p => (fst p, true))
               (List.filter (fun p => clients (fst p) && negb (bool_decide (fst p = source)))
                            fallback_sources)) w with
    | (Some a, w') => (Some (tagged a), w')
    | (None, w') => (None, w')
    end.
Proof.
  revert w. induction fallback_sources as [|[s d] rest IH]; intros w; simpl; [reflexivity|].
  destruct (clients s && negb (bool_decide (s = source))); simpl; [|apply IH].
  destruct (func s w) as [[result|e] w']; [|apply IH].
  destruct (is_none result); simpl; [apply IH | reflexivity].
Qed.

Lemma candidates_marked (source : DataSource)
    (fallback_sources : option (list (DataSource * string))) :
  Forall (fun c => clients (fst c) = true /\ (snd c = true <-> fst c <> source))
         (candidates source fallback_sources).
Proof.
  unfold candidates, DataService.candidates. apply Forall_app. split.
  - destruct (clients source) eqn:Hc; constructor; [|constructor].
    simpl. split; [exact Hc|]. split; [discriminate | congruence].
  - apply Forall_forall. intros [s b] Hin.
    apply list_elem_of_In, in_map_iff in Hin as ([s' d] & Heq & Hin).
    inversion Heq; subst. apply filter_In in Hin as [_ Hf]. simpl in *.
    apply andb_true_iff in Hf as [Hc Hne].
    apply negb_true_iff, bool_decide_eq_false in Hne.
    split; [exact Hc|]. split; [intros _; exact Hne | reflexivity].
Qed.

(** C2, as the code has it: [_with_fallback] calls the configured sources in
    priority order (the primary, then the fallback list without the
    unconfigured sources and the primary) and stops at the first call that
    returns something other than [None]; a call that raises or returns
    [None] moves on, an empty list does not. The envelope carries the
    winner's data and name, and the key [fallback] (set to true) exactly
    when the winner is not the primary; with no winner the call raises
    [DataServiceError]. *)
Theorem with_fallback_priority_order (func : DataSource -> W -> result pyval * W)
    (func_name : string) (source : DataSource)
    (fallback_sources : option (list (DataSource * string))) (w : W) :
  _with_fallback func func_name source fallback_sources w
  = match first_answer W func (candidates source fallback_sources) w with
    | (Some a, w') => (Envelope (tagged a), w')
    | (None, w') =>
        (DataServiceError (String.append "All data sources failed for " func_name) source, w')
    end
  /\ Forall (fun c => clients (fst c) = true /\ (snd c = true <-> fst c <> source))
            (candidates source fallback_sources)
  /\ (forall result s is_fallback,
        tagged (result, s, is_fallback) !! "data" = Some result
        /\ tagged (result, s, is_fallback) !! "source" = Some (VStr (source_name s))
        /\ tagged (result, s, is_fallback) !! "fallback"
           = if is_fallback then Some (VBool true) else None).
Proof.
  split; [|split; [apply candidates_marked|]].
  - unfold _with_fallback, DataService._with_fallback, candidates, DataService.candidates.
    fold try_fallbacks.
    destruct (clients source); simpl.
    + destruct (func source w) as [[result|e] w1]; simpl.
      * destruct (is_none result); simpl; [|reflexivity].
        rewrite try_fallbacks_first_answer.
        destruct (first_answer W func _ w1) as [[a|] w2]; reflexivity.
      * rewrite try_fallbacks_first_answer.
        destruct (first_answer W func _ w1) as [[a|] w2]; reflexivity.
    + rewrite try_fallbacks_first_answer.
      destruct (first_answer W func _ w) as [[a|] w2]; reflexivity.
  - intros result s []; simpl; repeat split; reflexivity.
Qed.

End Orchestrator.

(** *** The service as the repository builds it *)

(** [_init_clients] never returns: whatever the environment holds and
    whatever the constructors of the clients do, it raises before the mock
    provider is registered; when the constructors it calls succeed, the
    exception is the AttributeError of [settings.AVIATIONSTACK_ACCESS_KEY]. *)
Lemma _init_clients_raises (new_amadeus new_rapidapi new_aviationstack : result unit)
    (settings : Settings) :
  exists e, _init_clients new_amadeus new_rapidapi new_aviationstack settings = Raise e
            /\ (new_amadeus = Ok tt -> new_rapidapi = Ok tt -> e = AttributeError).
Proof.
  unfold _init_clients, getattr. simpl.
  destruct (truthy_str (AMADEUS_API_KEY settings));
    [destruct (truthy_str (AMADEUS_API_SECRET settings)); [destruct new_amadeus as [[]|e1]|]|];
    simpl;
    try (destruct (truthy_str (RAPIDAPI_KEY settings)); [destruct new_rapidapi as [[]|e2]|];
         simpl);
    eexists; (split; [reflexivity|]); intros H1 H2; congruence.
Qed.

(** *** The counterexample to the chain as the specification has it *)

(** C2 as stated fails: the primary answers with an empty list, which is
    falsy; the chain stops there, no fallback source is called, and the
    empty list is returned under the primary's name. *)
Lemma empty_result_ends_the_chain :
  _with_fallback (list DataSource) all_registered empty_then_full "fetch_airports"
    AMADEUS (Some airport_fallbacks) []
  = (Envelope (<["data" := VList []]> (<["source" := VStr "AMADEUS"]> ∅)), [AMADEUS])
  /\ truthy (VList []) = false.
Proof. split; vm_compute; reflexivity. Qed.

(** *** Degraded answers *)

(** C3 at the failing input. With a key for every provider in the
    environment, building the service raises the AttributeError of
    [settings.AVIATIONSTACK_ACCESS_KEY] before the mock provider is
    registered: no operation can be called. And on a service whose
    dictionary of clients does hold the four sources, [get_airports] with
    every real source down is answered by the MOCK entry of the fallback
    list: the reference airports under the source ["MOCK"] with [fallback]
    true. The handler that builds the source ["mock"] and the [warning] is
    not reached, and the answer has no [is_mock], no [warning] and no
    [metadata]. *)
Lemma degraded_airports_carry_no_mock_tag :
  _init_clients (Ok tt) (Ok tt) (Ok tt) full_settings = Raise AttributeError
  /\ match fst (get_airports nat all_registered provider_down provider_down
                  None None None true 0%nat) with
     | Reply r =>
         r !! "data" = Some (VList (map airport_dict MockDataProvider.get_airports))
         /\ r !! "source" = Some (VStr "MOCK")
         /\ r !! "source" <> Some (VStr "mock")
         /\ r !! "fallback" = Some (VBool true)
         /\ r !! "is_mock" = None
         /\ r !! "warning" = None
         /\ r !! "metadata" = None
     | Failure _ => False
     end.
Proof.
  split; [vm_compute; reflexivity|].
  vm_compute. repeat split; discriminate.
Qed.

(** An airline filter on an answer of the chain: the mock source returns
    one offer, and the count of the filtered offers is stored under
    [result["meta"]], a key the envelope does not have. *)
Example airline_filter_raises_key_error :
  fst (search_flight_offers_try nat all_registered one_mock_offer filtered_search 0%nat)
  = Escapes KeyError.
Proof. vm_compute. reflexivity. Qed.

End DataServiceSpec.

(** ** Truncation of a rational that is an integer *)

Module NumberFacts.
Import Py.

Lemma Qtrunc_inject (q : Q) (z : Z) : (q == inject_Z z)%Q -> Qtrunc q = z.
Proof.
  unfold Qeq, Qtrunc. simpl. intros H. rewrite Z.mul_1_r in H. rewrite H.
  apply Z.quot_mul. discriminate.
Qed.

End NumberFacts.

(** ** Lists: keys, and the picks of a sample *)

Module ListFacts.

(** In a list without two elements of the same key, one key selects one
    element at most. *)
Lemma filter_key_at_most_one {A} (key : A -> string) (c : string) (l : list A) :
  List.NoDup (map key l) ->
  (length (List.filter (fun a => String.eqb (key a) c) l) <= 1)%nat.
Proof.
  induction l as [|x rest IH]; intros Hnd; simpl; [lia|].
  inversion Hnd as [|? ? Hnotin Hrest]; subst.
  destruct (String.eqb (key x) c) eqn:Hx; [|apply IH; exact Hrest].
  apply String.eqb_eq in Hx. simpl.
  assert (Hnone : List.filter (fun a => String.eqb (key a) c) rest = []).
  { destruct (List.filter (fun a => String.eqb (key a) c) rest) as [|y ys] eqn:Hf;
      [reflexivity|].
    assert (Hy : In y (List.filter (fun a => String.eqb (key a) c) rest))
      by (rewrite Hf; left; reflexivity).
    apply filter_In in Hy as [Hin Hkey]. apply String.eqb_eq in Hkey.
    exfalso. apply Hnotin. rewrite Hx, <- Hkey. apply in_map. exact Hin. }
  rewrite Hnone. simpl. lia.
Qed.

(** Replacing an element by [y] and putting it in front is a permutation
    of the list with [y] in front. *)
Lemma insert_front_perm {A} (l : list A) (j : nat) (d y : A) :
  (j < length l)%nat -> nth j l d :: <[j := y]> l ≡ₚ y :: l.
Proof.
  revert j. induction l as [|x rest IH]; intros j Hj; simpl in Hj; [lia|].
  destruct j as [|j]; simpl.
  - apply perm_swap.
  - rewrite perm_swap. rewrite (IH j) by lia. apply perm_swap.
Qed.

(** One pick of [random.sample]: the picked element and the pool that is
    left are a permutation of the pool. *)
Lemma pick_perm {A} (pool : list A) (d : A) (j : nat) :
  (j < length pool)%nat ->
  nth j pool d
    :: firstn (length pool - 1) (<[j := nth (length pool - 1) pool d]> pool)
  ≡ₚ pool.
Proof.
  intros Hj. destruct pool as [|x0 pool0]; [simpl in Hj; lia|].
  destruct (exists_last (l := x0 :: pool0) ltac:(discriminate)) as (init & lst & Heq).
  rewrite Heq in *. clear Heq x0 pool0.
  rewrite length_app in *. simpl in Hj. simpl length.
  replace (length init + 1 - 1)%nat with (length init) by lia.
  assert (Hlast : nth (length init) (init ++ [lst]) d = lst).
  { rewrite app_nth2 by lia. rewrite Nat.sub_diag. reflexivity. }
  rewrite Hlast.
  destruct (decide (j = length init)) as [->|Hne].
  - rewrite Hlast. rewrite list_insert_id.
    + rewrite take_app_length. apply Permutation_cons_append.
    + rewrite lookup_app_r by lia. rewrite Nat.sub_diag. reflexivity.
  - rewrite app_nth1 by lia. rewrite insert_app_l by lia.
    rewrite (take_app_length' (<[j := lst]> init)) by (rewrite length_insert; reflexivity).
    rewrite insert_front_perm by lia. apply Permutation_cons_append.
Qed.

End ListFacts.

(** ** DataCleaner: what a cleaned record guarantees *)

Module DataCleanerProps.
Import Py Dates DataCleaner CleanedShape PyFacts DataCleanerSpec.

Ltac in_list := apply (bool_decide_unpack _); vm_compute; reflexivity.

(** *** Lifting a property of [clean_record] to the cleaned list *)

Lemma clean_flight_data_origin (lib : DateLib) (P : flight -> flight -> Prop)
    (flight_data : list flight) :
  (forall f f', clean_record lib f = Ok f' -> P f f') ->
  Forall (fun f' => exists f, f ∈ flight_data /\ P f f') (clean_flight_data lib flight_data).
Proof.
  intros H. rewrite clean_flight_data_loop.
  induction flight_data as [|f rest IH]; simpl; [constructor|].
  assert (Hrest : Forall (fun f' => exists f0, f0 ∈ f :: rest /\ P f0 f') (clean_loop lib rest)).
  { eapply Forall_impl; [exact IH|]. intros f' (f0 & Hin & HP).
    exists f0. split; [apply elem_of_cons; auto | exact HP]. }
  destruct (clean_record lib f) as [f'|e] eqn:Hf; [|exact Hrest].
  constructor; [|exact Hrest].
  exists f. split; [apply elem_of_cons; auto | apply H; exact Hf].
Qed.

Lemma clean_flight_data_Forall (lib : DateLib) (P : flight -> Prop)
    (flight_data : list flight) :
  (forall f f', clean_record lib f = Ok f' -> P f') ->
  Forall P (clean_flight_data lib flight_data).
Proof.
  intros H. eapply Forall_impl; [apply (clean_flight_data_origin lib (fun _ f' => P f')); exact H|].
  intros f' (f & _ & HP). exact HP.
Qed.

(** *** Frames of the single steps *)

Lemma for_each_frame {A} (step : flight -> A -> result flight) (k : string) (l : list A) :
  (forall f f' a, a ∈ l -> step f a = Ok f' -> f' !! k = f !! k) ->
  forall f f', for_each step f l = Ok f' -> f' !! k = f !! k.
Proof.
  induction l as [|a rest IH]; intros Hstep f f' H; simpl in H.
  - inversion H; reflexivity.
  - apply bind_ok in H as (f1 & H1 & H).
    rewrite (IH (fun g g' b Hb => Hstep g g' b (proj2 (elem_of_cons _ _ _) (or_intror Hb)))
               f1 f' H).
    apply (Hstep f f1 a); [apply elem_of_cons; auto | exact H1].
Qed.

Lemma standardize_date_frame (lib : DateLib) (f f' : flight) (field k : string) :
  standardize_date lib f field = Ok f' -> k <> field -> k <> raw_key field ->
  f' !! k = f !! k.
Proof.
  unfold standardize_date. intros H Hk Hraw.
  destruct (f !! field) as [v|]; [|congruence].
  destruct (truthy v); [|congruence].
  unfold try_value_type in H.
  match type of H with
  | match ?r with _ => _ end = _ => destruct r as [g|e] eqn:Hr
  end.
  - inversion H; subst.
    destruct v; try (inversion Hr; subst; reflexivity);
      apply bind_ok in Hr as (s' & _ & Hr); inversion Hr; subst;
      apply lookup_insert_ne; congruence.
  - destruct (value_or_type e); [|discriminate]. inversion H; subst.
    apply quarantine_lookup; assumption.
Qed.

Lemma clean_code_frame (lib : DateLib) (f : flight) (field k : string) :
  k <> field -> k <> raw_key field -> clean_code lib f field !! k = f !! k.
Proof.
  unfold clean_code. intros Hk Hraw.
  destruct (f !! field) as [v|]; [|reflexivity].
  destruct (truthy v); [|reflexivity].
  destruct (negb _).
  - rewrite lookup_delete_ne, lookup_insert_ne; congruence.
  - apply lookup_insert_ne. congruence.
Qed.

(** The four code steps, one after the other. *)
Lemma _clean_airport_codes_steps (lib : DateLib) (f : flight) :
  _clean_airport_codes lib f
  = clean_code lib
      (clean_code lib
         (clean_code lib (clean_code lib f "origin") "destination")
         "operating_airline")
      "marketing_airline".
Proof. reflexivity. Qed.

Lemma _clean_airport_codes_frame (lib : DateLib) (f : flight) (k : string) :
  k ∉ code_fields -> k ∉ map raw_key code_fields ->
  _clean_airport_codes lib f !! k = f !! k.
Proof.
  intros Hk Hraw. rewrite _clean_airport_codes_steps.
  rewrite !clean_code_frame; try reflexivity;
    intros ->; first [apply Hk; in_list | apply Hraw; in_list].
Qed.

Lemma _standardize_dates_frame (lib : DateLib) (f f' : flight) (k : string) :
  _standardize_dates lib f = Ok f' ->
  k ∉ date_fields -> k ∉ map raw_key date_fields -> f' !! k = f !! k.
Proof.
  intros H Hk Hraw. revert f f' H. apply for_each_frame.
  intros g g' field Hfield Hstep.
  apply (standardize_date_frame lib g g' field k Hstep).
  - intros ->. contradiction.
  - intros ->. apply Hraw. apply list_elem_of_fmap. eauto.
Qed.

Lemma _clean_numeric_fields_frame (f f' : flight) (k : string) :
  _clean_numeric_fields f = Ok f' ->
  k ∉ numeric_fields -> k ∉ map raw_key numeric_fields -> f' !! k = f !! k.
Proof.
  intros H Hk Hraw.
  destruct (clean_numeric_loop numeric_fields numeric_fields_distinct
              numeric_fields_not_raw f f' H) as [_ Hframe].
  apply Hframe; [exact Hk|].
  intros g Hg ->. apply Hraw. apply list_elem_of_fmap. eauto.
Qed.

(** [_add_derived_fields] writes three keys at most, and the id only when
    the record has none. *)
Lemma _add_derived_fields_writes (lib : DateLib) (f f' : flight) (k : string) :
  _add_derived_fields lib f = Ok f' ->
  (k = "id" -> f !! "id" <> None) -> k <> "flight_duration" -> k <> "cabin_class" ->
  f' !! k = f !! k.
Proof.
  unfold _add_derived_fields. intros H Hid Hdur Hcab.
  apply bind_ok in H as (f1 & H1 & H).
  apply bind_ok in H as (f2 & H2 & H). inversion H; subst. clear H.
  assert (Hcabin : add_cabin_class f2 !! k = f2 !! k).
  { unfold add_cabin_class.
    destruct (f2 !! "booking_class") as [[]|]; try reflexivity.
    repeat (destruct (str_in _ _); [rewrite lookup_insert_ne; congruence|]).
    reflexivity. }
  assert (Hduration : f2 !! k = f1 !! k).
  { unfold add_duration in H2.
    destruct (f1 !! "flight_duration"); [congruence|].
    destruct (f1 !! "departure_time") as [dep|]; [|congruence].
    destruct (f1 !! "arrival_time") as [arr|]; [|congruence].
    unfold try_value_type in H2.
    match type of H2 with
    | match ?r with _ => _ end = _ => destruct r as [g|e] eqn:Hr
    end.
    - inversion H2; subst.
      apply bind_ok in Hr as (d1 & _ & Hr). apply bind_ok in Hr as (d2 & _ & Hr).
      apply bind_ok in Hr as (m & _ & Hr). inversion Hr; subst.
      rewrite lookup_insert_ne; congruence.
    - destruct (value_or_type e); congruence. }
  assert (Hident : f1 !! k = f !! k).
  { unfold add_id in H1.
    destruct (f !! "id") eqn:Hf; [congruence|].
    apply bind_ok in H1 as (l & _ & H1). inversion H1; subst.
    rewrite lookup_insert_ne; [reflexivity|]. intros Heq. symmetry in Heq.
    apply Hid in Heq. congruence. }
  congruence.
Qed.

Lemma _clean_airline_info_writes (f f' : flight) (k : string) :
  _clean_airline_info f = Ok f' ->
  k <> "flight_number" -> k <> "flight_number_raw" ->
  k <> "operating_airline" -> k <> "marketing_airline" -> f' !! k = f !! k.
Proof.
  unfold _clean_airline_info, airline_fields. intros H Hn Hraw Hop Hmk. simpl in H.
  apply bind_ok in H as (f1 & H1 & H).
  apply bind_ok in H as (f2 & H2 & H).
  apply bind_ok in H as (f3 & H3 & H). inversion H; subst.
  rewrite (upper_airline_frame _ _ _ _ H3 Hmk), (upper_airline_frame _ _ _ _ H2 Hop).
  apply (clean_flight_number_frame _ _ _ H1); assumption.
Qed.

(** *** Characters *)

Lemma upper_char_alpha (c : ascii) :
  is_alpha (upper_char c) = true -> is_upper (upper_char c) = true.
Proof.
  destruct c as [[] [] [] [] [] [] [] []]; vm_compute; intros H;
    first [reflexivity | discriminate H].
Qed.

Lemma upper_char_fixed (c : ascii) : is_upper c = true -> upper_char c = c.
Proof.
  destruct c as [[] [] [] [] [] [] [] []]; vm_compute; intros H;
    first [reflexivity | discriminate H].
Qed.

Lemma chars_str (l : list ascii) : chars (str l) = l.
Proof. apply list_ascii_of_string_of_list_ascii. Qed.

Lemma str_chars (s : string) : str (chars s) = s.
Proof. apply string_of_list_ascii_of_string. Qed.

Lemma upper_fixed (s : string) : forallb is_upper (chars s) = true -> upper s = s.
Proof.
  intros H. unfold upper. rewrite <- (str_chars s) at 2. f_equal.
  induction (chars s) as [|c l IH]; [reflexivity|]. simpl in *.
  apply andb_true_iff in H as [Hc Hl]. rewrite (upper_char_fixed c Hc), (IH Hl). reflexivity.
Qed.

Lemma isalpha_upper (s : string) :
  isalpha (upper s) = true -> forallb is_upper (chars (upper s)) = true.
Proof.
  unfold isalpha, upper. rewrite chars_str.
  intros H.
  assert (Hall : forallb is_alpha (map upper_char (chars s)) = true)
    by (destruct (map upper_char (chars s)); [discriminate | exact H]).
  clear H. induction (chars s) as [|c l IH]; [reflexivity|]. simpl in *.
  apply andb_true_iff in Hall as [Hc Hl].
  rewrite (upper_char_alpha c Hc), (IH Hl). reflexivity.
Qed.

(** *** The code fields *)

Lemma clean_code_value (lib : DateLib) (f : flight) (field : string) (v : pyval) :
  clean_code lib f field !! field = Some v -> code_value v.
Proof.
  unfold clean_code. destruct (f !! field) as [v0|] eqn:Hf; [|congruence].
  destruct (truthy v0) eqn:Ht.
  - destruct (negb _) eqn:Hc.
    + rewrite lookup_delete_eq. discriminate.
    + rewrite lookup_insert_eq. intros H. inversion H; subst. right.
      eexists. split; [reflexivity|].
      apply negb_false_iff in Hc. apply andb_true_iff in Hc as [Hlen Halpha].
      unfold valid_code. rewrite Hlen. simpl. apply isalpha_upper. exact Halpha.
  - intros H. left. congruence.
Qed.

Lemma _clean_airport_codes_ok (lib : DateLib) (f : flight) :
  codes_ok (_clean_airport_codes lib f).
Proof.
  intros field v Hin. rewrite _clean_airport_codes_steps.
  unfold code_fields in Hin.
  repeat (apply elem_of_cons in Hin as [->|Hin]); [| | | |inversion Hin].
  - rewrite !clean_code_frame by in_list. apply clean_code_value.
  - rewrite !clean_code_frame by in_list. apply clean_code_value.
  - rewrite !clean_code_frame by in_list. apply clean_code_value.
  - apply clean_code_value.
Qed.

Lemma codes_ok_frame (f f' : flight) :
  (forall k, k ∈ code_fields -> f' !! k = f !! k) -> codes_ok f -> codes_ok f'.
Proof.
  intros Hframe Hok field v Hin Hv. rewrite (Hframe field Hin) in Hv.
  exact (Hok field v Hin Hv).
Qed.

Lemma upper_airline_codes (f f' : flight) (field : string) :
  upper_airline f field = Ok f' -> codes_ok f -> field ∈ code_fields -> codes_ok f'.
Proof.
  intros H Hok Hfield g v Hg Hv.
  destruct (decide (g = field)) as [->|Hne].
  - unfold upper_airline in H. destruct (f !! field) as [v0|] eqn:Hf.
    + destruct (truthy v0) eqn:Ht.
      * destruct v0; try discriminate. inversion H; subst.
        rewrite lookup_insert_eq in Hv. inversion Hv; subst.
        destruct (Hok field (VStr s) Hfield Hf) as [Hfalse|(s' & Heq & Hvalid)];
          [congruence|].
        inversion Heq; subst. right. exists s'. split; [|exact Hvalid].
        f_equal. apply upper_fixed.
        unfold valid_code in Hvalid. apply andb_true_iff in Hvalid as [_ Hup]. exact Hup.
      * inversion H; subst. apply (Hok field v Hfield Hv).
    + inversion H; subst. apply (Hok field v Hfield Hv).
  - rewrite (upper_airline_frame _ _ _ _ H Hne) in Hv. apply (Hok g v Hg Hv).
Qed.

Lemma _clean_airline_info_codes (f f' : flight) :
  _clean_airline_info f = Ok f' -> codes_ok f -> codes_ok f'.
Proof.
  unfold _clean_airline_info, airline_fields. intros H Hok. simpl in H.
  apply bind_ok in H as (f1 & H1 & H).
  apply bind_ok in H as (f2 & H2 & H).
  apply bind_ok in H as (f3 & H3 & H). inversion H; subst.
  apply (upper_airline_codes _ _ _ H3); [|in_list].
  apply (upper_airline_codes _ _ _ H2); [|in_list].
  apply (codes_ok_frame f); [|exact Hok].
  intros k Hk. apply (clean_flight_number_frame _ _ _ H1); intros ->; revert Hk; in_list.
Qed.

Lemma code_fields_apart :
  Forall (fun g => (g ∉ numeric_fields) /\ (g ∉ map raw_key numeric_fields)
                   /\ g <> "id" /\ g <> "flight_duration" /\ g <> "cabin_class")
         code_fields.
Proof. in_list. Qed.

(** Every stage after [_clean_airport_codes] keeps the code fields valid. *)
Lemma clean_record_codes (lib : DateLib) (f f' : flight) :
  clean_record lib f = Ok f' -> codes_ok f'.
Proof.
  unfold clean_record. intros H.
  apply bind_ok in H as (f1 & _ & H).
  apply bind_ok in H as (f3 & H3 & H).
  apply bind_ok in H as (f4 & H4 & H).
  pose proof code_fields_apart as Hapart. rewrite Forall_forall in Hapart.
  apply (codes_ok_frame f4).
  { intros k Hk. destruct (Hapart k Hk) as (_ & _ & Hid & Hdur & Hcab).
    apply (_add_derived_fields_writes lib _ _ _ H); [congruence | exact Hdur | exact Hcab]. }
  apply (_clean_airline_info_codes _ _ H4).
  apply (codes_ok_frame (_clean_airport_codes lib f1)); [|apply _clean_airport_codes_ok].
  intros k Hk. destruct (Hapart k Hk) as (Hn & Hraw & _).
  apply (_clean_numeric_fields_frame _ _ _ H3); assumption.
Qed.

(** X1. When the code fields of the input hold ASCII strings wherever they
    hold strings, then in every record that [clean_flight_data] returns each
    of the four code fields (origin, destination, operating and marketing
    airline) is absent, holds the falsy value it had, or holds a string of
    two to four upper-case ASCII letters. *)
Theorem cleaned_codes_are_valid (lib : DateLib) (flight_data : list flight) :
  Forall (fun f => ascii_codes f = true) flight_data ->
  Forall (fun f' => forall field v, field ∈ code_fields -> f' !! field = Some v ->
                    code_value v)
         (clean_flight_data lib flight_data).
Proof.
  intros _. apply clean_flight_data_Forall. intros f f' H.
  exact (clean_record_codes lib f f' H).
Qed.

(** Two records with codes to trim and to put in upper case. *)
Lemma cleaned_codes_are_valid_witness :
  Forall (fun f' => forall field v, field ∈ code_fields -> f' !! field = Some v ->
                    code_value v)
         (clean_flight_data strict_lib [plain_record; scenario_record]).
Proof.
  apply (cleaned_codes_are_valid strict_lib [plain_record; scenario_record]).
  repeat constructor.
Defined.

Lemma nonneg_not_below_zero (v : pyval) : nonneg_number v -> not_below_zero v.
Proof.
  destruct v as [| |z|q| | |]; simpl; try contradiction; intros H; split; eauto; simpl.
  - apply Z.ltb_ge. exact H.
  - apply Qltb_false. exact H.
Qed.

(** X2. No cleaned record holds a number below zero in a numeric field
    other than the duration: in every record that [clean_flight_data]
    returns, each of these fields is absent, [None], or a number for which
    the test [value < 0] is false. *)
Theorem cleaned_numbers_are_not_negative (lib : DateLib) (flight_data : list flight) :
  Forall (fun f' => forall field v, field ∈ numeric_fields -> field <> "flight_duration" ->
                    f' !! field = Some v -> v = VNone \/ not_below_zero v)
         (clean_flight_data lib flight_data).
Proof.
  apply clean_flight_data_Forall. intros f f' H field v Hin Hne Hv.
  destruct (clean_record_numeric_nonneg lib f f' field v H Hin Hne Hv) as [->|Hv'];
    [left; reflexivity | right; apply nonneg_not_below_zero; exact Hv'].
Qed.

(** *** Keys the cleaner does not write *)

Lemma cleaner_keys_cover (k : string) :
  k ∉ cleaner_keys ->
  (k ∉ date_fields) /\ (k ∉ map raw_key date_fields)
  /\ (k ∉ code_fields) /\ (k ∉ map raw_key code_fields)
  /\ (k ∉ numeric_fields) /\ (k ∉ map raw_key numeric_fields)
  /\ (k ∉ ["flight_number"; "flight_number_raw"; "id"; "cabin_class"]).
Proof.
  unfold cleaner_keys. rewrite !not_elem_of_app. tauto.
Qed.

Lemma clean_record_frame (lib : DateLib) (f f' : flight) (k : string) :
  clean_record lib f = Ok f' -> k ∉ cleaner_keys -> f' !! k = f !! k.
Proof.
  unfold clean_record. intros H Hk.
  apply cleaner_keys_cover in Hk as (Hd & Hdr & Hc & Hcr & Hn & Hnr & Hrest).
  apply bind_ok in H as (f1 & H1 & H).
  apply bind_ok in H as (f3 & H3 & H).
  apply bind_ok in H as (f4 & H4 & H).
  rewrite (_add_derived_fields_writes lib _ _ k H);
    [|intros ->; exfalso; apply Hrest; in_list
     |intros ->; apply Hn; in_list
     |intros ->; apply Hrest; in_list].
  rewrite (_clean_airline_info_writes _ _ k H4);
    [|intros ->; apply Hrest; in_list
     |intros ->; apply Hrest; in_list
     |intros ->; apply Hc; in_list
     |intros ->; apply Hc; in_list].
  rewrite (_clean_numeric_fields_frame _ _ k H3 Hn Hnr).
  rewrite (_clean_airport_codes_frame lib f1 k Hc Hcr).
  apply (_standardize_dates_frame lib _ _ k H1 Hd Hdr).
Qed.

(** The four stages before [_add_derived_fields] never touch the id. *)
Lemma id_before_derived (lib : DateLib) (f f1 f3 f4 : flight) :
  _standardize_dates lib f = Ok f1 ->
  _clean_numeric_fields (_clean_airport_codes lib f1) = Ok f3 ->
  _clean_airline_info f3 = Ok f4 ->
  f4 !! "id" = f !! "id".
Proof.
  intros H1 H3 H4.
  rewrite (_clean_airline_info_writes _ _ "id" H4) by discriminate.
  rewrite (_clean_numeric_fields_frame _ _ "id" H3) by in_list.
  rewrite (_clean_airport_codes_frame lib f1 "id") by in_list.
  apply (_standardize_dates_frame lib _ _ "id" H1); in_list.
Qed.

Lemma clean_record_keeps_id (lib : DateLib) (f f' : flight) (v : pyval) :
  clean_record lib f = Ok f' -> f !! "id" = Some v -> f' !! "id" = Some v.
Proof.
  unfold clean_record. intros H Hv.
  apply bind_ok in H as (f1 & H1 & H).
  apply bind_ok in H as (f3 & H3 & H).
  apply bind_ok in H as (f4 & H4 & H).
  pose proof (id_before_derived lib f f1 f3 f4 H1 H3 H4) as Hid.
  rewrite (_add_derived_fields_writes lib _ _ "id" H); [congruence| |discriminate|discriminate].
  intros _. congruence.
Qed.

(** X3. Every record that [clean_flight_data] returns comes from an input
    record with which it agrees on every key outside the keys the cleaner
    writes (the date, code and numeric fields, their [_raw] copies, the
    flight number, the id and the cabin class), and whose id, when it had
    one, it still carries. *)
Theorem cleaning_keeps_foreign_fields_and_id (lib : DateLib) (flight_data : list flight) :
  Forall (fun f' => exists f, f ∈ flight_data
                    /\ (forall k, k ∉ cleaner_keys -> f' !! k = f !! k)
                    /\ (forall v, f !! "id" = Some v -> f' !! "id" = Some v))
         (clean_flight_data lib flight_data).
Proof.
  apply (clean_flight_data_origin lib
           (fun f f' => (forall k, k ∉ cleaner_keys -> f' !! k = f !! k)
                        /\ (forall v, f !! "id" = Some v -> f' !! "id" = Some v))).
  intros f f' H. split.
  - intros k Hk. exact (clean_record_frame lib f f' k H Hk).
  - intros v Hv. exact (clean_record_keeps_id lib f f' v H Hv).
Qed.

(** *** What the numeric step does with each field *)

Lemma float_of_string_raises (s : string) (e : exn) :
  float_of_string s = Raise e -> e = ValueError.
Proof.
  unfold float_of_string. cbv zeta.
  assert (Hu : forall l e0,
    (let '(ip, rest) := split_dot l in
     let fp := match rest with Some r => r | None => [] end in
     if forallb is_digit ip && forallb is_digit fp
        && negb ((length ip + length fp =? 0)%nat)
     then Ok (Qred (Qmake (digits_val (ip ++ fp)) (Z.to_pos (10 ^ Z.of_nat (length fp)))))
     else Raise ValueError) = Raise e0 -> e0 = ValueError).
  { intros l e0. destruct (split_dot l) as [ip rest]. cbv beta iota zeta.
    match goal with |- context [if ?b then _ else _] => destruct b end;
      [discriminate|]. intros H. inversion H. reflexivity. }
  intros H.
  destruct (chars s) as [|c l]; [apply (Hu [] e H)|].
  destruct c as [[] [] [] [] [] [] [] []]; cbv beta iota in H;
    first [ match type of H with
            | ?r ≫= _ = _ => destruct r as [q|e0] eqn:Hr; simpl in H; [discriminate|]
            end;
            inversion H; subst; apply (Hu l e Hr)
          | match type of H with
            | context [split_dot ?x] => apply (Hu x e H)
            end ].
Qed.

Lemma int_of_string_raises (s : string) (e : exn) :
  int_of_string s = Raise e -> e = ValueError.
Proof.
  unfold int_of_string. cbv zeta.
  assert (Hu : forall l e0,
    match literal_digits l false with
    | Some ds => Ok (digits_val ds)
    | None => Raise ValueError
    end = Raise e0 -> e0 = ValueError).
  { intros l e0. destruct (literal_digits l false); [discriminate|].
    intros H. inversion H. reflexivity. }
  intros H.
  destruct (chars (strip s)) as [|c l]; [apply (Hu [] e H)|].
  destruct c as [[] [] [] [] [] [] [] []]; cbv beta iota in H;
    first [ match type of H with
            | ?r ≫= _ = _ => destruct r as [q|e0] eqn:Hr; simpl in H; [discriminate|]
            end;
            inversion H; subst; apply (Hu l e Hr)
          | match type of H with
            | context [literal_digits ?x false] => apply (Hu x e H)
            end ].
Qed.

Lemma to_number_raises (v : pyval) (e : exn) :
  to_number v = Raise e -> value_or_type e = true \/ e = OverflowError.
Proof.
  unfold to_number. intros H.
  destruct v as [|b|z|q|s|l|d]; simpl in H;
    try (inversion H; subst; left; reflexivity); try discriminate.
  - destruct (Z.abs z <? float_max_int); simpl in H; [discriminate|].
    inversion H. right. reflexivity.
  - destruct (existsb _ _).
    + destruct (float_of_string _) as [q|e0] eqn:Hr; simpl in H; [discriminate|].
      inversion H; subst. rewrite (float_of_string_raises _ _ Hr). left. reflexivity.
    + destruct (int_of_string _) as [n|e0] eqn:Hr; simpl in H; [discriminate|].
      inversion H; subst. rewrite (int_of_string_raises _ _ Hr). left. reflexivity.
Qed.

(** The three ways one step of the loop can end well. *)
Lemma clean_numeric_outcome (f f' : flight) (field : string) (v : pyval) :
  clean_numeric f field = Ok f' -> f !! field = Some v ->
  (v = VNone /\ f' = f)
  \/ (exists x, to_number v = Ok x
                /\ f' = <[field := if negative x then py_abs x else x]> f)
  \/ ((exists e, to_number v = Raise e) /\ f' = quarantine field v f).
Proof.
  unfold clean_numeric. intros H Hv. rewrite Hv in H.
  assert (Hgen :
    try_value_type
      (to_number v ≫= fun x => Ok (<[field := if negative x then py_abs x else x]> f))
      (Ok (quarantine field v f)) = Ok f' ->
    (exists x, to_number v = Ok x
               /\ f' = <[field := if negative x then py_abs x else x]> f)
    \/ ((exists e, to_number v = Raise e) /\ f' = quarantine field v f)).
  { clear H. unfold try_value_type. destruct (to_number v) as [x|e]; simpl.
    - intros H. inversion H. left. eauto.
    - destruct (value_or_type e); [|discriminate]. intros H. inversion H. right. eauto. }
  destruct v; try (right; apply Hgen; exact H).
  left. inversion H. auto.
Qed.

Lemma clean_numeric_raises (f : flight) (field : string) (e : exn) :
  clean_numeric f field = Raise e -> e = OverflowError.
Proof.
  unfold clean_numeric.
  assert (Hgen : forall v,
    try_value_type
      (to_number v ≫= fun x => Ok (<[field := if negative x then py_abs x else x]> f))
      (Ok (quarantine field v f)) = Raise e -> e = OverflowError).
  { intros v. unfold try_value_type. destruct (to_number v) as [x|e0] eqn:Hn; simpl.
    - discriminate.
    - destruct (value_or_type e0) eqn:Hc; [discriminate|]. intros H. inversion H; subst.
      destruct (to_number_raises v e Hn) as [Hvt|Hov]; congruence. }
  destruct (f !! field) as [v|]; [|discriminate].
  destruct v; try discriminate; apply Hgen.
Qed.

Lemma for_each_app {A S} (step : S -> A -> result S) (s : S) (l1 l2 : list A) :
  for_each step s (l1 ++ l2) = for_each step s l1 ≫= fun s1 => for_each step s1 l2.
Proof.
  revert s. induction l1 as [|a l1 IH]; intros s; simpl; [reflexivity|].
  destruct (step s a) as [s'|e]; simpl; [apply IH | reflexivity].
Qed.

Lemma for_each_raises (f : flight) (fields : list string) (e : exn) :
  for_each clean_numeric f fields = Raise e -> e = OverflowError.
Proof.
  revert f. induction fields as [|a rest IH]; intros f; simpl; [discriminate|].
  destruct (clean_numeric f a) as [f1|e0] eqn:Hstep; simpl.
  - apply IH.
  - intros H. inversion H; subst. exact (clean_numeric_raises f a e Hstep).
Qed.

Lemma numeric_raw_keys_distinct (g h : string) :
  g ∈ numeric_fields -> h ∈ numeric_fields -> g <> h -> raw_key g <> raw_key h.
Proof.
  assert (H : Forall (fun g => Forall (fun h => g <> h -> raw_key g <> raw_key h)
                                      numeric_fields) numeric_fields) by in_list.
  intros Hg Hh. rewrite Forall_forall in H. specialize (H g Hg).
  rewrite Forall_forall in H. exact (H h Hh).
Qed.

Lemma numeric_loop_keeps (fields : list string) (k : string) :
  (forall a, a ∈ fields -> k <> a /\ k <> raw_key a) ->
  forall f f', for_each clean_numeric f fields = Ok f' -> f' !! k = f !! k.
Proof.
  intros Hk. apply for_each_frame. intros g g' a Ha Hstep.
  destruct (Hk a Ha) as [Hne Hraw].
  destruct (clean_numeric_spec g g' a Hstep) as [_ Hframe]. apply Hframe; assumption.
Qed.

Lemma _clean_numeric_fields_field (f f' : flight) (field : string) (v : pyval) :
  _clean_numeric_fields f = Ok f' -> field ∈ numeric_fields -> f !! field = Some v ->
  (v = VNone /\ f' !! field = Some VNone)
  \/ (exists x, to_number v = Ok x
                /\ f' !! field = Some (if negative x then py_abs x else x))
  \/ (f' !! field = None /\ f' !! raw_key field = Some v).
Proof.
  unfold _clean_numeric_fields. intros H Hin Hv.
  pose proof numeric_fields_distinct as Hnd.
  destruct (list_elem_of_split _ _ Hin) as (pre & post & Heq).
  rewrite Heq in H, Hnd.
  rewrite for_each_app in H. apply bind_ok in H as (f0 & Hpre & H). simpl in H.
  apply bind_ok in H as (f1 & Hstep & Hpost).
  apply NoDup_app in Hnd as (_ & Hpre_nd & Hnd).
  apply NoDup_cons in Hnd as [Hpost_nd _].
  assert (Hin_pre : forall a, a ∈ pre -> a ∈ numeric_fields)
    by (intros a Ha; rewrite Heq; apply elem_of_app; auto).
  assert (Hin_post : forall a, a ∈ post -> a ∈ numeric_fields)
    by (intros a Ha; rewrite Heq; apply elem_of_app; right; apply elem_of_cons; auto).
  assert (H0 : f0 !! field = Some v).
  { rewrite (numeric_loop_keeps pre field) with (f := f) (f' := f0); [exact Hv| |exact Hpre].
    intros a Ha. split.
    - intros <-. exact (Hpre_nd _ Ha (list_elem_of_here _ _)).
    - apply numeric_fields_not_raw; auto. }
  assert (Hkeep : f' !! field = f1 !! field).
  { apply (numeric_loop_keeps post field); [|exact Hpost].
    intros a Ha. split.
    - intros <-. exact (Hpost_nd Ha).
    - apply numeric_fields_not_raw; auto. }
  assert (Hkeep_raw : f' !! raw_key field = f1 !! raw_key field).
  { apply (numeric_loop_keeps post (raw_key field)); [|exact Hpost].
    intros a Ha. split.
    - intros Hraw. apply (numeric_fields_not_raw field a); auto.
    - apply numeric_raw_keys_distinct; auto. intros <-. exact (Hpost_nd Ha). }
  rewrite Hkeep, Hkeep_raw.
  destruct (clean_numeric_outcome f0 f1 field v Hstep H0)
    as [[-> ->]|[(x & Hx & ->)|[_ ->]]].
  - left. auto.
  - right. left. exists x. split; [exact Hx | apply lookup_insert_eq].
  - right. right. unfold quarantine. split; [apply lookup_delete_eq|].
    rewrite lookup_delete_ne, lookup_insert_eq; [reflexivity|].
    intros Hraw. apply (numeric_fields_not_raw field field); auto.
Qed.

(** X4. The numeric step loses no value. It raises nothing but the
    OverflowError of an integer too large for a float; when it returns, every
    numeric field of the input that held a value other than [None] now holds
    the converted number, made non-negative, or is deleted with its original
    value kept under [<field>_raw]. *)
Theorem numeric_cleaning_loses_nothing (f : flight) :
  match _clean_numeric_fields f with
  | Ok f' =>
      forall field v, field ∈ numeric_fields -> f !! field = Some v ->
        (v = VNone /\ f' !! field = Some VNone)
        \/ (exists x, to_number v = Ok x
                      /\ f' !! field = Some (if negative x then py_abs x else x))
        \/ (f' !! field = None /\ f' !! raw_key field = Some v)
  | Raise e => e = OverflowError
  end.
Proof.
  destruct (_clean_numeric_fields f) as [f'|e] eqn:H.
  - intros field v Hin Hv. exact (_clean_numeric_fields_field f f' field v H Hin Hv).
  - exact (for_each_raises f numeric_fields e H).
Qed.

(** *** Records that cleaning cannot fail on *)
























End DataCleanerProps.

(** ** DataProcessor: the rows and the scores of the detector *)

Module DataProcessorProps.
Import Py Dates DataCleaner DataProcessor DetectorRows PyFacts.

(** *** The frame: lengths and order *)

Lemma column_length {A B} (conv : A -> result B) (l : list A) (bs : list B) :
  column conv l = Ok bs -> length bs = length l.
Proof.
  revert bs. induction l as [|a rest IH]; intros bs H; simpl in H.
  - inversion H. reflexivity.
  - apply bind_ok in H as (b & _ & H). apply bind_ok in H as (bs' & Hrest & H).
    inversion H; subst. simpl. f_equal. apply IH. exact Hrest.
Qed.

Lemma insert_row_perm (r : option Z * flight) (l : list (option Z * flight)) :
  insert_row r l ≡ₚ r :: l.
Proof.
  induction l as [|x rest IH]; simpl; [reflexivity|].
  destruct (negb _); [|reflexivity].
  rewrite IH. apply Permutation_swap.
Qed.

Lemma sort_values_perm (l : list (option Z * flight)) : sort_values l ≡ₚ l.
Proof.
  induction l as [|x rest IH]; simpl; [reflexivity|].
  rewrite insert_row_perm, IH. reflexivity.
Qed.

Lemma map_snd_combine {A B} (l : list A) (l' : list B) :
  length l = length l' -> map snd (combine l l') = l'.
Proof.
  revert l'. induction l as [|a l IH]; intros [|b l'] H; simpl in *; try discriminate;
    [reflexivity|].
  f_equal. apply IH. lia.
Qed.

Lemma windows_length (w : nat) (seen col : list (option Q)) :
  length (windows w seen col) = length col.
Proof.
  revert seen. induction col as [|x rest IH]; intros seen; simpl; [reflexivity|].
  f_equal. apply IH.
Qed.

Lemma scored_rows_records (threshold : Q) (rows : list flight) (zs : list zscore) :
  length zs = length rows ->
  map row_record (zip_with (fun f z => Scored f z (exceeds z threshold)) rows zs) = rows.
Proof.
  revert zs. induction rows as [|f rows IH]; intros [|z zs] H; simpl in *;
    try discriminate; [reflexivity|].
  f_equal. apply IH. lia.
Qed.

(** The frame that [score_rows] scores: the input records, ordered by
    departure time when that column exists. *)
Lemma score_rows_shape (lib : FrameLib) (flights : list flight) (window : Z) (threshold : Q)
    (out : list out_row) :
  score_rows lib flights window threshold = Ok out ->
  exists rows prices,
    rows ≡ₚ flights
    /\ 1 <= window
    /\ column (fun f => to_float lib (f !! "price")) rows = Ok prices
    /\ out = zip_with (fun f z => Scored f z (exceeds z threshold)) rows
               (zip_with zscore_of prices (windows (Z.to_nat window) [] prices)).
Proof.
  unfold score_rows. intros H.
  apply bind_ok in H as (rows & Hrows & H).
  destruct (window <? 1) eqn:Hw; [discriminate|]. apply Z.ltb_ge in Hw.
  apply bind_ok in H as (prices & Hprices & H). inversion H; subst.
  exists rows, prices. split; [|auto].
  destruct (existsb _ flights).
  - apply bind_ok in Hrows as (times & Htimes & Hrows). inversion Hrows; subst.
    apply column_length in Htimes.
    rewrite sort_values_perm, map_snd_combine; [reflexivity | exact Htimes].
  - inversion Hrows. reflexivity.
Qed.

Lemma detect_price_anomalies_perm
    (lib : FrameLib) (first : flight) (rest : list flight) (window : Z) (threshold : Q) :
  is_Some (first !! "price") ->
  map row_record (detect_price_anomalies lib (first :: rest) window threshold)
  ≡ₚ first :: rest.
Proof.
  intros [p Hp]. unfold detect_price_anomalies. rewrite Hp.
  destruct (score_rows lib (first :: rest) window threshold) as [out|e] eqn:Hs.
  - apply score_rows_shape in Hs as (rows & prices & Hperm & _ & Hprices & ->).
    rewrite scored_rows_records; [exact Hperm|].
    rewrite length_zip_with, windows_length, (column_length _ _ _ Hprices). lia.
  - rewrite map_map. simpl. rewrite map_id. reflexivity.
Qed.

(** X6. When the first record has a price key, [detect_price_anomalies]
    returns every input record exactly once: the records of its rows are a
    permutation of the input, whether the scoring succeeded or failed. *)
Theorem detect_price_anomalies_keeps_every_record
    (lib : FrameLib) (first : flight) (rest : list flight) (window : Z) (threshold : Q) :
  is_Some (first !! "price") ->
  map row_record (detect_price_anomalies lib (first :: rest) window threshold)
  ≡ₚ first :: rest.
Proof. apply detect_price_anomalies_perm. Qed.

Lemma detect_price_anomalies_keeps_every_record_witness :
  map row_record (detect_price_anomalies numeric_frame
                    (test_flight 21 500 "QF999"
                     :: [unpriced_flight; test_flight 22 50 "QF888"]) 7 2)
  ≡ₚ test_flight 21 500 "QF999" :: [unpriced_flight; test_flight 22 50 "QF888"].
Proof.
  apply (detect_price_anomalies_keeps_every_record numeric_frame
           (test_flight 21 500 "QF999") [unpriced_flight; test_flight 22 50 "QF888"] 7 2).
  exists (VInt 500). vm_compute. reflexivity.
Defined.

(** *** The first row *)

Lemma zscore_single (p : option Q) : zscore_of p [p] = ZNaN.
Proof. destruct p as [x|]; reflexivity. Qed.

(** X7. The row that comes first in the result is never scored: its window
    holds one price at most, the sample deviation of one value is not a
    number, and the row is not flagged, whatever its price and the threshold. *)
Theorem first_row_is_never_flagged
    (lib : FrameLib) (flights : list flight) (window : Z) (threshold : Q) :
  first_row_unscored (detect_price_anomalies lib flights window threshold).
Proof.
  unfold detect_price_anomalies.
  destruct flights as [|first rest]; [exact I|].
  destruct (first !! "price") as [given|]; [|exact I].
  destruct (score_rows lib (first :: rest) window threshold) as [out|e] eqn:Hs;
    [|exact I].
  apply score_rows_shape in Hs as (rows & prices & _ & Hw & Hprices & ->).
  destruct rows as [|f rows]; [exact I|].
  simpl in Hprices. apply bind_ok in Hprices as (p & _ & Hprices).
  apply bind_ok in Hprices as (ps & _ & Hprices). inversion Hprices; subst.
  destruct (Z.to_nat window) as [|n] eqn:Hn; [lia|].
  assert (Hwin : firstn (S n) [p] = [p]) by (simpl; rewrite firstn_nil; reflexivity).
  unfold first_row_unscored. cbn [windows zip_with]. rewrite Hwin, zscore_single.
  split; reflexivity.
Qed.

(** *** How large a z-score can be *)

Lemma Qsum_cons (a : Q) (l : list Q) : Qsum (a :: l) = (a + Qsum l)%Q.
Proof. reflexivity. Qed.

Lemma inject_Z_succ (n : nat) :
  (inject_Z (Z.of_nat (S n)) == inject_Z (Z.of_nat n) + 1)%Q.
Proof. rewrite Nat2Z.inj_succ. unfold Z.succ. rewrite inject_Z_plus. reflexivity. Qed.

Lemma inject_Z_nat_nonneg (n : nat) : (0 <= inject_Z (Z.of_nat n))%Q.
Proof. unfold Qle; simpl. lia. Qed.

Lemma Qsum_deviations (m : Q) (l : list Q) :
  (Qsum (map (fun y => y - m) l) == Qsum l - inject_Z (Z.of_nat (length l)) * m)%Q.
Proof.
  induction l as [|a l IH].
  - change (0 == 0 - 0 * m)%Q. lra.
  - cbn [map length]. rewrite !Qsum_cons, IH, inject_Z_succ. lra.
Qed.

Lemma Qsum_squares_nonneg (l : list Q) : (0 <= Qsum (map (fun d => d * d) l))%Q.
Proof.
  induction l as [|a l IH]; [change (0 <= 0)%Q; lra|].
  cbn [map]. rewrite Qsum_cons. nra.
Qed.

Lemma Qsquare_nonneg (x : Q) : (0 <= x * x)%Q.
Proof. nra. Qed.

Lemma Qmult_pos_nonneg (k t : Q) : (0 < k)%Q -> (0 <= k * t)%Q -> (0 <= t)%Q.
Proof.
  intros Hk H. apply (Qmult_le_l _ _ k Hk). rewrite Qmult_0_r. exact H.
Qed.

Lemma cauchy_step (a s q k : Q) :
  (1 <= k)%Q -> (s * s <= k * q)%Q -> ((a + s) * (a + s) <= (k + 1) * (a * a + q))%Q.
Proof.
  intros Hk H.
  pose proof (Qsquare_nonneg (k * a - s)) as Hsq.
  assert (Ht : (0 <= k * (a * a) + q - 2 * (a * s))%Q).
  { apply (Qmult_pos_nonneg k); [lra|].
    assert (E : (k * (k * (a * a) + q - 2 * (a * s))
                 == (k * a - s) * (k * a - s) + (k * q - s * s))%Q) by ring.
    rewrite E. lra. }
  assert (E : ((k + 1) * (a * a + q) - (a + s) * (a + s)
               == (k * (a * a) + q - 2 * (a * s)) + (k * q - s * s))%Q) by ring.
  lra.
Qed.

Lemma cauchy_schwarz (l : list Q) :
  (Qsum l * Qsum l <= inject_Z (Z.of_nat (length l)) * Qsum (map (fun d => d * d) l))%Q.
Proof.
  induction l as [|a l IH].
  - change (0 * 0 <= 0 * 0)%Q. lra.
  - cbn [map length]. rewrite !Qsum_cons, inject_Z_succ.
    destruct l as [|b l'].
    + change ((a + 0) * (a + 0) <= (0 + 1) * (a * a + 0))%Q. lra.
    + apply cauchy_step; [|exact IH].
      cbn [length]. rewrite inject_Z_succ.
      pose proof (inject_Z_nat_nonneg (length l')). lra.
Qed.

Lemma deviation_bound (x m : Q) (others : list Q) :
  ((inject_Z (Z.of_nat (length others)) + 1) * m == Qsum (x :: others))%Q ->
  ((inject_Z (Z.of_nat (length others)) + 1) * ((x - m) * (x - m))
   <= inject_Z (Z.of_nat (length others))
      * Qsum (map (fun y => (y - m) * (y - m)) (x :: others)))%Q.
Proof.
  intros Hmean. rewrite Qsum_cons in Hmean. cbn [map]. rewrite Qsum_cons.
  pose proof (Qsum_deviations m others) as Hdev.
  pose proof (cauchy_schwarz (map (fun y => (y - m)%Q) others)) as Hcs.
  rewrite length_map, map_map in Hcs. cbv beta in Hcs.
  set (k := inject_Z (Z.of_nat (length others))) in *.
  set (S' := Qsum (map (fun y => ((y - m) * (y - m))%Q) others)) in *.
  assert (Hneg : (Qsum (map (fun y => y - m) others) == - (x - m))%Q) by lra.
  rewrite Hneg in Hcs.
  assert (E : (- (x - m) * - (x - m) == (x - m) * (x - m))%Q) by ring.
  rewrite E in Hcs.
  set (d2 := ((x - m) * (x - m))%Q) in *.
  assert (E2 : ((k + 1) * d2 == k * d2 + d2)%Q) by ring.
  assert (E3 : (k * (d2 + S') == k * d2 + k * S')%Q) by ring.
  rewrite E2, E3. lra.
Qed.

Lemma Qis_zero_spec (q : Q) : Qis_zero q = true <-> (q == 0)%Q.
Proof.
  unfold Qis_zero, Qeq. simpl. rewrite Z.eqb_eq. lia.
Qed.

Lemma bounded_score_not_flagged (dev S d t : Q) :
  (1 <= d)%Q -> (0 <= t)%Q ->
  ((d + 1) * (dev * dev) <= d * S)%Q ->
  (d * d <= t * t * (d + 1))%Q ->
  exceeds (ZRatio (Qred dev) (Qred (S / d))) t = false.
Proof.
  intros Hd Ht Hbound Hthr.
  assert (Hd0 : ~ (d == 0)%Q) by lra.
  pose proof (Qmult_div_r S d Hd0) as Hvar.
  pose proof (Qsquare_nonneg dev) as Hsq.
  set (var := (S / d)%Q) in *.
  set (d2 := (dev * dev)%Q) in *.
  assert (HS : (0 <= S)%Q).
  { apply (Qmult_pos_nonneg d); [lra|].
    assert (E : ((d + 1) * d2 == d * d2 + d2)%Q) by ring.
    assert (Hdd : (0 <= d * d2)%Q) by (apply Qmult_le_0_compat; lra).
    lra. }
  assert (Hv : (0 <= var)%Q) by (apply (Qmult_pos_nonneg d); lra).
  unfold exceeds.
  destruct (Qis_zero (Qred var)) eqn:Hz.
  - apply Qis_zero_spec in Hz. rewrite Qred_correct in Hz.
    assert (Hd2 : (d2 == 0)%Q).
    { assert (E : ((d + 1) * d2 == d * d2 + d2)%Q) by ring.
      assert (Hdd : (0 <= d * d2)%Q) by (apply Qmult_le_0_compat; lra).
      assert (HS0 : (S == 0)%Q) by (rewrite <- Hvar, Hz; ring).
      assert (E0 : (d * S == 0)%Q) by (rewrite HS0; ring).
      lra. }
    assert (Hdev : (dev == 0)%Q).
    { unfold d2 in Hd2. apply Qmult_integral in Hd2. tauto. }
    assert (Hr : Qis_zero (Qred dev) = true)
      by (apply Qis_zero_spec; rewrite Qred_correct; exact Hdev).
    rewrite Hr. reflexivity.
  - assert (Hneg : Qltb t 0 = false) by (apply Qltb_false; exact Ht).
    rewrite Hneg. apply Qltb_false. rewrite !Qred_correct. fold d2.
    apply (Qmult_le_l _ _ (d + 1)); [lra|].
    assert (H1 : (d * S == d * d * var)%Q) by (rewrite <- Hvar; ring).
    assert (H2 : (d * d * var <= t * t * (d + 1) * var)%Q)
      by (apply Qmult_le_compat_r; assumption).
    assert (E : ((d + 1) * (t * t * var) == t * t * (d + 1) * var)%Q) by ring.
    lra.
Qed.

Lemma threshold_for_smaller_window (w n : nat) (t : Q) :
  (2 <= n <= w)%nat ->
  (inject_Z ((Z.of_nat w - 1) * (Z.of_nat w - 1)) <= t * t * inject_Z (Z.of_nat w))%Q ->
  (inject_Z (Z.of_nat n - 1) * inject_Z (Z.of_nat n - 1)
   <= t * t * (inject_Z (Z.of_nat n - 1) + 1))%Q.
Proof.
  intros Hn Hw.
  assert (Hz : (Z.of_nat n - 1) * (Z.of_nat n - 1) * Z.of_nat w
               <= (Z.of_nat w - 1) * (Z.of_nat w - 1) * Z.of_nat n).
  { assert (Hab : 2 <= Z.of_nat n <= Z.of_nat w) by lia.
    generalize dependent (Z.of_nat w). generalize (Z.of_nat n). intros a b _ Hab.
    assert (E : (b - 1) * (b - 1) * a - (a - 1) * (a - 1) * b = (b - a) * (a * b - 1))
      by ring.
    assert (Hprod : 0 <= (b - a) * (a * b - 1)) by (apply Z.mul_nonneg_nonneg; nia).
    lia. }
  rewrite Zle_Qle in Hz. rewrite !inject_Z_mult in Hz.
  rewrite inject_Z_mult in Hw.
  assert (Hwpos : (0 < inject_Z (Z.of_nat w))%Q) by (unfold Qlt; simpl; lia).
  assert (Hnpos : (0 <= inject_Z (Z.of_nat n))%Q) by (unfold Qle; simpl; lia).
  assert (En : (inject_Z (Z.of_nat n - 1) + 1 == inject_Z (Z.of_nat n))%Q).
  { unfold Z.sub. rewrite inject_Z_plus. simpl. unfold Qeq; simpl. lia. }
  rewrite En.
  set (D := inject_Z (Z.of_nat n - 1)) in *.
  set (V := inject_Z (Z.of_nat w - 1)) in *.
  set (Wq := inject_Z (Z.of_nat w)) in *.
  set (Nq := inject_Z (Z.of_nat n)) in *.
  apply (Qmult_le_l _ _ Wq Hwpos).
  assert (H1 : (V * V * Nq <= t * t * Wq * Nq)%Q)
    by (apply Qmult_le_compat_r; assumption).
  assert (E1 : (Wq * (D * D) == D * D * Wq)%Q) by ring.
  assert (E2 : (Wq * (t * t * Nq) == t * t * Wq * Nq)%Q) by ring.
  rewrite E1, E2. eapply Qle_trans; [exact Hz | exact H1].
Qed.

Lemma omap_id_length {A} (l : list (option A)) : (length (omap id l) <= length l)%nat.
Proof.
  induction l as [|[a|] l IH]; cbn in *; lia.
Qed.

Lemma omap_id_cons {A} (a : A) (l : list (option A)) :
  omap id (Some a :: l) = a :: omap id l.
Proof. reflexivity. Qed.

Lemma window_score_bounded (w : nat) (t : Q) (x : option Q) (seen : list (option Q)) :
  (0 <= t)%Q ->
  (inject_Z ((Z.of_nat w - 1) * (Z.of_nat w - 1)) <= t * t * inject_Z (Z.of_nat w))%Q ->
  exceeds (zscore_of x (firstn w (x :: seen))) t = false.
Proof.
  intros Ht Hw. destruct w as [|w']; [destruct x; reflexivity|].
  cbn [firstn]. destruct x as [v|]; [|reflexivity].
  unfold zscore_of. rewrite omap_id_cons.
  assert (Hlen : (length (omap id (firstn w' seen)) <= w')%nat).
  { etransitivity; [apply omap_id_length|]. rewrite length_firstn. lia. }
  destruct (omap id (firstn w' seen)) as [|o rest]; [reflexivity|].
  unfold window_var, window_mean.
  set (m := Qred (Qsum (v :: o :: rest) / inject_Z (Z.of_nat (length (v :: o :: rest))))).
  cbn [length Nat.ltb Nat.leb].
  set (n := S (S (length rest))).
  assert (Hn : (2 <= n <= S w')%nat) by (unfold n; simpl in Hlen; lia).
  assert (Ek : (inject_Z (Z.of_nat n - 1) == inject_Z (Z.of_nat (length (o :: rest))))%Q).
  { unfold n. cbn [length]. rewrite (Nat2Z.inj_succ (S (length rest))).
    unfold Z.succ. unfold Qeq; simpl. lia. }
  apply bounded_score_not_flagged.
  - rewrite Ek. cbn [length]. rewrite inject_Z_succ.
    pose proof (inject_Z_nat_nonneg (length rest)). lra.
  - exact Ht.
  - rewrite Ek. apply deviation_bound.
    unfold m. rewrite Qred_correct.
    assert (En : (inject_Z (Z.of_nat (length (o :: rest))) + 1
                  == inject_Z (Z.of_nat (length (v :: o :: rest))))%Q).
    { cbn [length]. rewrite (inject_Z_succ (S (length rest))). reflexivity. }
    rewrite En. apply Qmult_div_r.
    cbn [length]. rewrite !inject_Z_succ.
    pose proof (inject_Z_nat_nonneg (length rest)). lra.
  - apply (threshold_for_smaller_window (S w') n t Hn Hw).
Qed.

Lemma scores_not_flagged (w : nat) (t : Q) (col seen : list (option Q)) :
  (0 <= t)%Q ->
  (inject_Z ((Z.of_nat w - 1) * (Z.of_nat w - 1)) <= t * t * inject_Z (Z.of_nat w))%Q ->
  Forall (fun z => exceeds z t = false) (zip_with zscore_of col (windows w seen col)).
Proof.
  intros Ht Hw. revert seen.
  induction col as [|x rest IH]; intros seen; cbn [windows zip_with]; constructor.
  - apply window_score_bounded; assumption.
  - apply IH.
Qed.

Lemma scored_rows_flags (t : Q) (rows : list flight) (zs : list zscore) :
  Forall (fun z => exceeds z t = false) zs ->
  Forall (fun r => row_flag r = false)
         (zip_with (fun f z => Scored f z (exceeds z t)) rows zs).
Proof.
  intros Hzs. revert rows.
  induction Hzs as [|z zs Hz _ IH]; intros [|f rows]; simpl; constructor.
  - exact Hz.
  - apply IH.
Qed.

(** In exact arithmetic a threshold at or above [(window - 1) / sqrt window]
    flags nothing. The deviation of a price from the mean of a window that
    contains it is at most [(n - 1) / sqrt n] sample deviations for a window
    of [n] prices, so with a threshold [t >= 0] such that
    [(window - 1)^2 <= t^2 * window] no row of the result is flagged. This
    is a fact of the scores as rationals: a score that binary64 puts one
    unit in the last place above a threshold equal to the bound is flagged
    by pandas (window 4, threshold 1.5). *)
Theorem high_threshold_flags_nothing
    (lib : FrameLib) (flights : list flight) (window : Z) (threshold : Q) :
  (0 <= threshold)%Q ->
  (inject_Z ((window - 1) * (window - 1)) <= threshold * threshold * inject_Z window)%Q ->
  Forall (fun r => row_flag r = false)
         (detect_price_anomalies lib flights window threshold).
Proof.
  intros Ht Hw. unfold detect_price_anomalies.
  destruct flights as [|first rest]; [constructor|].
  destruct (first !! "price") as [given|]; [|constructor].
  destruct (score_rows lib (first :: rest) window threshold) as [out|e] eqn:Hs.
  - apply score_rows_shape in Hs as (rows & prices & _ & Hwin & _ & ->).
    apply scored_rows_flags, scores_not_flagged; [exact Ht|].
    rewrite Z2Nat.id by lia. exact Hw.
  - apply Forall_forall. intros r Hr.
    apply list_elem_of_fmap in Hr as (f & -> & _). reflexivity.
Qed.

(** The fixture of the repository's test, scored with threshold 3. *)
Lemma high_threshold_flags_nothing_witness :
  Forall (fun r => row_flag r = false)
         (detect_price_anomalies numeric_frame test_flights 7 3).
Proof.
  apply (high_threshold_flags_nothing numeric_frame test_flights 7 3).
  - unfold Qle; simpl; lia.
  - unfold Qle; simpl; lia.
Defined.

End DataProcessorProps.

(** ** process_flight_data *)

Module PipelineProps.
Import Py Dates DataCleaner DataProcessor DetectorRows Pipeline PyFacts.
Import DataCleanerSpec DataProcessorProps.

Section Process.

Variable dates : DateLib.
Variable frame : FrameLib.
Variable calculate_market_trends : list flight -> result pyval.

Let process_flight_data := process_flight_data dates frame calculate_market_trends.

(** The counts of [process_flight_data]: [raw_count] is the length of
    the input; [cleaned_count] is set exactly when cleaning was asked for on
    a non-empty input, it is then the length of the returned flights and
    lies between 0 and [raw_count]; without cleaning the returned flights
    are the input itself. *)
Theorem process_flight_data_counts (input : list flight)
    (clean calculate_trends detect_anomalies : bool) :
  let p := process_flight_data input clean calculate_trends detect_anomalies in
  raw_count p = Z.of_nat (length input)
  /\ match cleaned_count p with
     | Some c =>
         clean = true /\ input <> []
         /\ flights p = clean_flight_data dates input
         /\ c = Z.of_nat (length (flights p)) /\ 0 <= c <= raw_count p
     | None => (clean = false \/ input = []) /\ flights p = input
     end.
Proof.
  unfold process_flight_data, Pipeline.process_flight_data. cbv zeta.
  split; [reflexivity|]. cbn [cleaned_count flights raw_count].
  destruct clean; simpl.
  - destruct input as [|f rest]; simpl; [auto|].
    split; [reflexivity|]. split; [discriminate|]. split; [reflexivity|].
    split; [reflexivity|].
    change (match clean_record dates f with
            | Ok f' => f' :: clean_loop dates rest
            | Raise _ => clean_loop dates rest
            end) with (clean_loop dates (f :: rest)).
    rewrite clean_loop_length.
    pose proof (filter_length_le (fun g => is_ok (clean_record dates g)) (f :: rest)) as Hle.
    change (length (f :: rest)) with (S (length rest)) in Hle. lia.
  - auto.
Qed.

(** X9. The anomalies of [process_flight_data]: the key is set exactly
    when detection was asked for and some returned flight has a price key.
    Its value is then empty when the first returned flight has no price key,
    although a later one has, and holds every returned flight once
    otherwise; [anomalies_error] is never set. *)
Theorem process_flight_data_anomalies (input : list flight)
    (clean calculate_trends detect_anomalies : bool) :
  let p := process_flight_data input clean calculate_trends detect_anomalies in
  anomalies_error p = None
  /\ match anomalies p with
     | Some rows =>
         detect_anomalies = true /\ any_priced (flights p) = true
         /\ match flights p with
            | first :: _ =>
                if bool_decide (is_Some (first !! "price"))
                then map row_record rows ≡ₚ flights p
                else rows = []
            | [] => False
            end
     | None => detect_anomalies = false \/ any_priced (flights p) = false
     end.
Proof.
  unfold process_flight_data, Pipeline.process_flight_data. cbv zeta.
  split; [reflexivity|]. cbn [anomalies flights].
  set (fl := if _ : bool then clean_flight_data dates input else input).
  destruct fl as [|first rest]; [simpl; auto|].
  destruct detect_anomalies; [|simpl; auto].
  destruct (any_priced (first :: rest)) eqn:Hany; [|simpl; auto].
  simpl. split; [reflexivity|]. split; [reflexivity|].
  destruct (bool_decide (is_Some (first !! "price"))) eqn:Hp.
  - apply bool_decide_eq_true in Hp.
    apply (detect_price_anomalies_perm frame first rest 7 2 Hp).
  - apply bool_decide_eq_false in Hp.
    destruct (first !! "price") as [v|] eqn:Hv; [exfalso; apply Hp; eauto|].
    reflexivity.
Qed.

End Process.

End PipelineProps.

(** ** RateLimiter: counting *)

Module RateLimiterProps.
Import Py RateLimiter PyFacts RateLimiterSpec.
Import NumberFacts.

(** *** Counting inside one window *)

Lemma window_still_open (t : Q) (w : Z) : 0 <= w -> Qltb (t + inject_Z w) t = false.
Proof.
  intros Hw. apply Qltb_false.
  assert (H0 : (0 <= inject_Z w)%Q) by (unfold Qle; simpl; lia). lra.
Qed.

Lemma counted_from (self : limiter) (key : string) (t : Q) (n : nat) (c : Z) (st : store) :
  0 <= window self ->
  st !! key = Some (c, (t + inject_Z (window self))%Q) ->
  fst (counted self key t n st)
  = map (fun i => {| info_limit := limit self;
                     remaining := Z.max 0 (limit self - (c + Z.of_nat i));
                     reset := window self;
                     count := c + Z.of_nat i |})
        (seq 1 n).
Proof.
  intros Hw. revert c st. induction n as [|n IH]; intros c st Hst; [reflexivity|].
  cbn [counted]. unfold _in_memory_rate_limit.
  rewrite Hst, (window_still_open t (window self) Hw).
  match goal with
  | |- context [counted self key t n ?s] =>
      specialize (IH (c + 1) s (lookup_insert_eq _ _ _));
      destruct (counted self key t n s) as [rs st2]
  end.
  simpl in IH. subst rs. cbn [fst seq map]. f_equal.
  - rewrite (Qtrunc_inject _ (window self)) by ring.
    f_equal; f_equal; lia.
  - rewrite <- (seq_shift n 1), map_map. apply map_ext. intros i.
    f_equal; [f_equal|]; lia.
Qed.

(** X10. Inside one window the counter counts every call and never runs
    below zero. [n] calls of [_in_memory_rate_limit] for a key that is not
    stored yet, all at one instant and with a window that is not negative,
    give the [i]-th call the count [i], the remaining count
    [max(0, limit - i)] and the whole window as reset: the calls beyond the
    limit are answered like the others, with a remaining count of zero. *)
Theorem calls_in_one_window_are_counted
    (self : limiter) (key : string) (t : Q) (n : nat) (st : store) :
  0 <= window self ->
  st !! key = None ->
  fst (counted self key t n st)
  = map (fun i => {| info_limit := limit self;
                     remaining := Z.max 0 (limit self - Z.of_nat i);
                     reset := window self;
                     count := Z.of_nat i |})
        (seq 1 n).
Proof.
  intros Hw Hst. destruct n as [|n]; [reflexivity|].
  cbn [counted]. unfold _in_memory_rate_limit.
  rewrite Hst.
  match goal with
  | |- context [counted self key t n ?s] =>
      pose proof (counted_from self key t n 1 s Hw (lookup_insert_eq _ _ _)) as Hrest;
      destruct (counted self key t n s) as [rs st2]
  end.
  simpl in Hrest. subst rs. cbn [fst seq map]. f_equal.
  - rewrite (Qtrunc_inject _ (window self)) by ring. reflexivity.
  - rewrite <- (seq_shift n 1), !map_map. apply map_ext. intros i.
    f_equal; [f_equal|]; lia.
Qed.

(** Eight calls in a row for the key of a login, against the limit of five. *)
Lemma calls_in_one_window_are_counted_witness :
  fst (counted auth_rate_limiter login_key 1000 8 ∅)
  = map (fun i => {| info_limit := limit auth_rate_limiter;
                     remaining := Z.max 0 (limit auth_rate_limiter - Z.of_nat i);
                     reset := window auth_rate_limiter;
                     count := Z.of_nat i |})
        (seq 1 8).
Proof.
  apply (calls_in_one_window_are_counted auth_rate_limiter login_key 1000 8 ∅).
  - simpl. lia.
  - reflexivity.
Defined.

(** *** The end of a window, and the other keys *)

(** X11. After its window a key starts again. When the stored window of
    the key ended before [current_time], [_in_memory_rate_limit] counts the
    call as the first of a new window: count 1, a remaining count of
    [max(0, limit - 1)], a whole window as reset, and the stored entry is
    replaced by the new window. A call at the very end of the window
    ([current_time] equal to [reset_time]) still counts in the old one. *)
Theorem expired_window_starts_again
    (self : limiter) (key : string) (t : Q) (st : store) (cnt : Z) (reset_time : Q) :
  0 <= window self ->
  st !! key = Some (cnt, reset_time) ->
  (reset_time < t)%Q ->
  _in_memory_rate_limit self key t st
  = ({| info_limit := limit self;
        remaining := Z.max 0 (limit self - 1);
        reset := window self;
        count := 1 |},
     <[key := (1, (t + inject_Z (window self))%Q)]> st)
  /\ fst (_in_memory_rate_limit self key reset_time st)
     = {| info_limit := limit self;
          remaining := Z.max 0 (limit self - (cnt + 1));
          reset := 0;
          count := cnt + 1 |}.
Proof.
  intros Hw Hst Hlt. unfold _in_memory_rate_limit. rewrite Hst. split.
  - assert (Hb : Qltb reset_time t = true) by (apply Qltb_spec; exact Hlt).
    rewrite Hb. rewrite (Qtrunc_inject _ (window self)) by ring. reflexivity.
  - assert (Hb : Qltb reset_time reset_time = false) by (apply Qltb_false; lra).
    rewrite Hb. simpl. rewrite (Qtrunc_inject _ 0) by ring. reflexivity.
Qed.

(** A key whose window of a minute ended at 1060, asked again at 1061. *)
Lemma expired_window_starts_again_witness :
  _in_memory_rate_limit auth_rate_limiter login_key 1061 {[ login_key := (9, 1060%Q) ]}
  = ({| info_limit := 5; remaining := Z.max 0 (5 - 1); reset := 60; count := 1 |},
     <[login_key := (1, (1061 + inject_Z 60)%Q)]> {[ login_key := (9, 1060%Q) ]})
  /\ fst (_in_memory_rate_limit auth_rate_limiter login_key 1060
            {[ login_key := (9, 1060%Q) ]})
     = {| info_limit := 5; remaining := Z.max 0 (5 - (9 + 1)); reset := 0; count := 9 + 1 |}.
Proof.
  apply (expired_window_starts_again auth_rate_limiter login_key 1061
           {[ login_key := (9, 1060%Q) ]} 9 1060).
  - simpl. lia.
  - apply lookup_singleton_eq.
  - reflexivity.
Defined.

(** X12. A call touches the entry of its own key and no other: every
    other entry of the store is left as it was, and the store never loses
    an entry ([_in_memory_rate_limit] deletes nothing, so the store grows
    with every new key). *)
Theorem call_touches_only_its_key
    (self : limiter) (key : string) (t : Q) (st : store) :
  let st' := snd (_in_memory_rate_limit self key t st) in
  (forall other, other <> key -> st' !! other = st !! other)
  /\ (forall other, is_Some (st !! other) -> is_Some (st' !! other))
  /\ is_Some (st' !! key).
Proof.
  unfold _in_memory_rate_limit.
  destruct (st !! key) as [[cnt reset_time]|] eqn:Hst;
    [destruct (Qltb reset_time t)|]; cbn [snd];
    (split; [|split]);
    try (intros other Hother; rewrite lookup_insert_ne by congruence; reflexivity);
    try (rewrite lookup_insert_eq; eexists; reflexivity);
    intros other Hsome;
    (destruct (decide (other = key)) as [->|Hne];
     [rewrite lookup_insert_eq; eexists; reflexivity
     | rewrite lookup_insert_ne by congruence; exact Hsome]).
Qed.

End RateLimiterProps.

(** ** BaseApiClient: retries, backoff and the errors that escape *)

Module BaseApiClientProps.
Import Py BaseApiClient Journal PyFacts.

(** *** The rate-limit headers *)

Lemma lower_char_idem (c : ascii) : lower_char (lower_char c) = lower_char c.
Proof. destruct c as [[] [] [] [] [] [] [] []]; reflexivity. Qed.

Lemma lower_idem (s : string) : lower (lower s) = lower s.
Proof.
  unfold lower, str, chars. rewrite list_ascii_of_string_of_list_ascii, map_map.
  f_equal. apply map_ext. intros c. apply lower_char_idem.
Qed.

(** The dictionary of the headers has no key with an upper-case letter. *)
Lemma headers_dict_lower (headers : gmap string string) (name : string) :
  lower name <> name -> headers_dict headers !! name = None.
Proof.
  intros Hname. unfold headers_dict, kmap.
  apply not_elem_of_list_to_map_1. intros Hin.
  apply list_elem_of_fmap in Hin as ([k v] & -> & Hin).
  apply list_elem_of_fmap in Hin as ([k' v'] & [= -> ->] & _).
  apply Hname. simpl. apply lower_idem.
Qed.

(** So the rate-limit state is never updated from a response: the two names
    that [_update_rate_limit_headers] asks for are not in lower case. *)
Lemma _update_rate_limit_headers_ignored (c : client) (headers : gmap string string) :
  _update_rate_limit_headers c (headers_dict headers) = c.
Proof.
  unfold _update_rate_limit_headers. destruct (rate_limit c); [|reflexivity].
  rewrite !headers_dict_lower by (vm_compute; discriminate). reflexivity.
Qed.

(** *** A session whose every request ends the same way *)

Section Fixed.

Variable reply : string + response.
Variable model : option (pyval -> result pyval).
Variable method url : string.

Lemma attempt_fixed (c : client) (w : journal) :
  supported method = true -> rate_limit c = None ->
  attempt journal (send_fixed reply) clock_still sleep_recorded model method url c w
  = (attempt_end reply model c, set_last_request c 0,
     {| requests := (requests w ++ [(upper method, url)])%list; delays := delays w |}).
Proof.
  unfold supported. intros Hm Hrl.
  unfold attempt, _check_rate_limit. rewrite Hrl, Hm. simpl.
  unfold send_fixed, attempt_end. destruct reply as [description|r]; [reflexivity|].
  unfold _update_rate_limit_headers. simpl. rewrite Hrl. reflexivity.
Qed.

(** The loop against such a session: one request per pass, one recorded
    delay between two passes, and the last error kept at the [break]. *)
Lemma retry_loop_fixed (e : error) (fuel : nat) :
  supported method = true -> caught e = true ->
  forall (k : Z) (c : client) (w : journal),
  rate_limit c = None -> attempt_end reply model c = inr e ->
  max_retries c = k + Z.of_nat fuel ->
  retry_loop journal (send_fixed reply) clock_still sleep_recorded model fuel method url k c w
  = (Broke e, set_last_request c 0,
     {| requests := (requests w ++ repeat (upper method, url) (S fuel))%list;
        delays := (delays w
                   ++ map (fun i => backoff_delay c (k + Z.of_nat i) e) (seq 0 fuel))%list |}).
Proof.
  intros Hm Hcaught. induction fuel as [|fuel IH]; intros k c w Hrl Hend Hmax.
  - cbn [retry_loop]. rewrite (attempt_fixed c w Hm Hrl), Hend, Hcaught.
    assert (Hle : (max_retries (set_last_request c 0) <=? k) = true)
      by (apply Z.leb_le; simpl; lia).
    rewrite Hle. simpl. rewrite app_nil_r. reflexivity.
  - cbn [retry_loop]. rewrite (attempt_fixed c w Hm Hrl), Hend, Hcaught.
    assert (Hle : (max_retries (set_last_request c 0) <=? k) = false)
      by (apply Z.leb_gt; simpl; lia).
    rewrite Hle. unfold sleep_recorded at 1. cbv iota beta.
    rewrite (IH (k + 1) (set_last_request c 0));
      [|exact Hrl | exact Hend | simpl; lia].
    f_equal. cbn [requests delays]. f_equal.
    + rewrite <- app_assoc. reflexivity.
    + rewrite <- app_assoc. f_equal. cbn [seq map app]. f_equal.
      * rewrite Z.add_0_r. reflexivity.
      * rewrite <- (seq_shift fuel 0), map_map. apply map_ext. intros i.
        change (backoff_delay (set_last_request c 0)) with (backoff_delay c).
        f_equal. lia.
Qed.

(** The executor against such a session, when the pass fails with an error
    that the loop catches. *)
Lemma _make_request_fixed (e : error) (endpoint : string) (use_mock_fallback : bool)
    (c : client) :
  url = url_of c endpoint ->
  supported method = true -> rate_limit c = None -> 0 <= max_retries c ->
  attempt_end reply model c = inr e -> caught e = true ->
  _make_request journal (send_fixed reply) clock_still sleep_recorded mock_recorded model
    method endpoint use_mock_fallback c blank
  = (if use_mock_fallback then Returned (VDict {[ "is_mock" := VBool true ]}) else Raised e,
     set_last_request c 0,
     {| requests := repeat (upper method, url) (S (Z.to_nat (max_retries c)));
        delays := map (fun i => backoff_delay c (Z.of_nat i) e)
                      (seq 0 (Z.to_nat (max_retries c))) |}).
Proof.
  intros Hurl Hm Hrl Hmax Hend Hcaught. unfold _make_request.
  apply Z.leb_le in Hmax as Hleb. rewrite Hleb.
  fold (url_of c endpoint). rewrite <- Hurl.
  rewrite (retry_loop_fixed e (Z.to_nat (max_retries c)) Hm Hcaught 0 c blank Hrl Hend)
    by (rewrite Z2Nat.id; lia).
  unfold after_loop, mock_recorded. destruct use_mock_fallback; reflexivity.
Qed.

End Fixed.

(** X13. Retries and exponential backoff. Against a session whose every
    request fails to connect, with a working sleep, a client without its
    own rate limit and with [max_retries = n >= 0] sends exactly [n + 1]
    requests to the same URL and sleeps [retry_delay * 2^k] before the
    retry number [k + 1]; it then returns the mock payload when the fallback
    is enabled and raises the transport error of the last attempt when it
    is not. *)
Theorem connection_failures_are_retried_with_backoff
    (description method endpoint : string) (use_mock_fallback : bool) (c : client) :
  supported method = true -> rate_limit c = None -> 0 <= max_retries c ->
  _make_request journal (send_fixed (inl description)) clock_still sleep_recorded
    mock_recorded None method endpoint use_mock_fallback c blank
  = (if use_mock_fallback then Returned (VDict {[ "is_mock" := VBool true ]})
     else Raised (RequestError description),
     set_last_request c 0,
     {| requests := repeat (upper method, url_of c endpoint) (S (Z.to_nat (max_retries c)));
        delays := map (fun k => (retry_delay c * inject_Z (2 ^ Z.of_nat k))%Q)
                      (seq 0 (Z.to_nat (max_retries c))) |}).
Proof.
  intros Hm Hrl Hmax.
  apply (_make_request_fixed (inl description) None method (url_of c endpoint)
           (RequestError description) endpoint use_mock_fallback c);
    auto.
Qed.

Lemma connection_failures_are_retried_with_backoff_witness :
  _make_request journal (send_fixed (inl "connection refused")) clock_still sleep_recorded
    mock_recorded None "GET" "search" false default_client blank
  = (if false then Returned (VDict {[ "is_mock" := VBool true ]})
     else Raised (RequestError "connection refused"),
     set_last_request default_client 0,
     {| requests := repeat (upper "GET", url_of default_client "search")
                      (S (Z.to_nat (max_retries default_client)));
        delays := map (fun k => (retry_delay default_client * inject_Z (2 ^ Z.of_nat k))%Q)
                      (seq 0 (Z.to_nat (max_retries default_client))) |}).
Proof.
  apply (connection_failures_are_retried_with_backoff "connection refused" "GET" "search"
           false default_client).
  - reflexivity.
  - reflexivity.
  - simpl. lia.
Defined.

(** X14. A 429 answer overrides the backoff. Against a session that
    answers every request with status 429, an empty body and a
    [Retry-After] header that reads as a number other than zero, the client
    sleeps that number of seconds before each of its [n] retries instead of
    the exponential delay, and ends after [n + 1] requests with the mock
    payload or with [RateLimitExceededError]. *)
Theorem retry_after_overrides_the_backoff
    (r : response) (header : string) (retry_after : Z)
    (method endpoint : string) (use_mock_fallback : bool) (c : client) :
  resp_status r = 429 -> resp_has_content r = false ->
  resp_headers r !! "Retry-After" = Some header ->
  int_of_string header = Ok retry_after -> retry_after <> 0 ->
  supported method = true -> rate_limit c = None -> 0 <= max_retries c ->
  _make_request journal (send_fixed (inr r)) clock_still sleep_recorded
    mock_recorded None method endpoint use_mock_fallback c blank
  = (if use_mock_fallback then Returned (VDict {[ "is_mock" := VBool true ]})
     else Raised (RateLimitExceededError retry_after (Some 429) (VDict ∅)),
     set_last_request c 0,
     {| requests := repeat (upper method, url_of c endpoint) (S (Z.to_nat (max_retries c)));
        delays := repeat (inject_Z retry_after) (Z.to_nat (max_retries c)) |}).
Proof.
  intros Hstatus Hcontent Hheader Hint Hnz Hm Hrl Hmax.
  rewrite (_make_request_fixed (inr r) None method (url_of c endpoint)
             (RateLimitExceededError retry_after (Some 429) (VDict ∅))
             endpoint use_mock_fallback c); auto.
  - do 2 f_equal.
    assert (Hdelay : forall i, backoff_delay c (Z.of_nat i)
                                 (RateLimitExceededError retry_after (Some 429) (VDict ∅))
                               = inject_Z retry_after).
    { intros i. unfold backoff_delay.
      destruct (retry_after =? 0) eqn:Hz; [apply Z.eqb_eq in Hz; contradiction | reflexivity]. }
    generalize 0%nat. induction (Z.to_nat (max_retries c)) as [|n IH]; intros s;
      [reflexivity|].
    cbn [seq map repeat]. rewrite Hdelay, IH. reflexivity.
  - unfold attempt_end, handle_response.
    rewrite Hstatus, Hheader, Hint, Hcontent. reflexivity.
Qed.

Lemma retry_after_overrides_the_backoff_witness :
  _make_request journal (send_fixed (inr too_many_requests)) clock_still sleep_recorded
    mock_recorded None "GET" "search" false default_client blank
  = (if false then Returned (VDict {[ "is_mock" := VBool true ]})
     else Raised (RateLimitExceededError 7 (Some 429) (VDict ∅)),
     set_last_request default_client 0,
     {| requests := repeat (upper "GET", url_of default_client "search")
                      (S (Z.to_nat (max_retries default_client)));
        delays := repeat (inject_Z 7) (Z.to_nat (max_retries default_client)) |}).
Proof.
  apply (retry_after_overrides_the_backoff too_many_requests "7" 7 "GET" "search"
           false default_client).
  - reflexivity.
  - reflexivity.
  - reflexivity.
  - reflexivity.
  - discriminate.
  - reflexivity.
  - reflexivity.
  - simpl. lia.
Defined.

(** X15. An error answer whose body cannot be read ends the call at once.
    When the session answers with a status of 400 or more other than 429
    and a JSON body that is not a dictionary, or whose [error] member is not
    one (a plain string, say), reading the message raises an AttributeError
    that the retry loop does not catch: one request is sent, nothing is
    retried, and the mock fallback is not used even when it is enabled. *)
Theorem unreadable_error_body_ends_the_call
    (r : response) (body : pyval)
    (method endpoint : string) (use_mock_fallback : bool) (c : client) :
  400 <= resp_status r -> resp_status r <> 429 ->
  resp_json r = Ok body -> unreadable_error_body body = true ->
  supported method = true -> rate_limit c = None -> 0 <= max_retries c ->
  _make_request journal (send_fixed (inr r)) clock_still sleep_recorded
    mock_recorded None method endpoint use_mock_fallback c blank
  = (Raised (Uncaught AttributeError), set_last_request c 0,
     {| requests := [(upper method, url_of c endpoint)]; delays := [] |}).
Proof.
  intros Hstatus Hnot Hjson Hbody Hm Hrl Hmax. unfold _make_request.
  apply Z.leb_le in Hmax as Hleb. rewrite Hleb. fold (url_of c endpoint).
  assert (Hend : attempt_end (inr r) None c = inr (Uncaught AttributeError)).
  { unfold attempt_end, handle_response.
    apply Z.leb_le in Hstatus. rewrite Hstatus.
    apply Z.eqb_neq in Hnot. rewrite Hnot, Hjson.
    unfold error_message. unfold unreadable_error_body in Hbody.
    destruct body as [| | | | | |d]; try reflexivity.
    destruct (d !! "error") as [[]|]; simpl; try reflexivity; discriminate. }
  destruct (Z.to_nat (max_retries c)); cbn [retry_loop];
    rewrite (attempt_fixed (inr r) None method (url_of c endpoint) c blank Hm Hrl), Hend;
    reflexivity.
Qed.

Lemma unreadable_error_body_ends_the_call_witness :
  _make_request journal (send_fixed (inr not_found)) clock_still sleep_recorded
    mock_recorded None "GET" "search" true default_client blank
  = (Raised (Uncaught AttributeError), set_last_request default_client 0,
     {| requests := [(upper "GET", url_of default_client "search")]; delays := [] |}).
Proof.
  apply (unreadable_error_body_ends_the_call not_found
           (VDict {[ "error" := VStr "Not Found" ]}) "GET" "search" true default_client).
  - simpl. lia.
  - simpl. lia.
  - reflexivity.
  - reflexivity.
  - reflexivity.
  - reflexivity.
  - simpl. lia.
Defined.

(** *** A method the executor does not send *)

Section Executor.

Variable W : Type.
Variable send : string -> string -> W -> (string + response) * W.
Variable time : W -> Q.
Variable sleep : Q -> W -> result unit * W.
Variable _get_mock_data : string -> string -> W -> result pyval * W.
Variable model : option (pyval -> result pyval).

(** X16. A method other than GET, POST, PUT and DELETE (PATCH, say) raises
    a ValueError from inside the loop, which does not catch it: nothing is
    sent, nothing is retried and the mock fallback is not used; the world is
    left as it was. *)
Theorem unsupported_method_raises_at_once
    (method endpoint : string) (use_mock_fallback : bool) (c : client) (w : W) :
  supported method = false -> rate_limit c = None -> 0 <= max_retries c ->
  _make_request W send time sleep _get_mock_data model method endpoint use_mock_fallback c w
  = (Raised (Uncaught ValueError), set_last_request c (time w), w).
Proof.
  unfold supported. intros Hm Hrl Hmax. unfold _make_request.
  apply Z.leb_le in Hmax as Hleb. rewrite Hleb.
  destruct (Z.to_nat (max_retries c)); cbn [retry_loop];
    unfold attempt, _check_rate_limit; rewrite Hrl, Hm; reflexivity.
Qed.

(** X17. With the module as it is written no retry ever happens. When the
    first request ends with an error that the loop catches (a transport
    error, a 429 answer, an error answer that can be read) and one retry at
    least is allowed, the backoff evaluates the unbound name [asyncio]: a
    NameError leaves the executor after that one request, the error of the
    request is lost and the mock fallback is not used. *)
Theorem first_backoff_ends_the_call
    (reply : string + response) (e : error)
    (method endpoint : string) (use_mock_fallback : bool) (c : client) (w w1 : W) :
  supported method = true -> rate_limit c = None -> 1 <= max_retries c ->
  send (upper method) (url_of c endpoint) w = (reply, w1) ->
  attempt_end reply model c = inr e -> caught e = true ->
  _make_request W send time unbound_sleep _get_mock_data model method endpoint
    use_mock_fallback c w
  = (Raised (Uncaught NameError), set_last_request c (time w), w1).
Proof.
  unfold supported. intros Hm Hrl Hmax Hsend Hend Hcaught. unfold _make_request.
  assert (Hleb : (0 <=? max_retries c) = true) by (apply Z.leb_le; lia).
  rewrite Hleb. fold (url_of c endpoint).
  assert (Hattempt :
    attempt W send time unbound_sleep model method (url_of c endpoint) c w
    = (inr e, set_last_request c (time w), w1)).
  { unfold attempt, _check_rate_limit. rewrite Hrl, Hm. simpl. rewrite Hsend.
    unfold attempt_end in Hend. destruct reply as [description|r].
    - congruence.
    - unfold _update_rate_limit_headers. simpl. rewrite Hrl.
      change (handle_response model (set_last_request c (time w)) r)
        with (handle_response model c r).
      rewrite Hend. reflexivity. }
  assert (Hgt : (max_retries (set_last_request c (time w)) <=? 0) = false)
    by (apply Z.leb_gt; simpl; lia).
  destruct (Z.to_nat (max_retries c)); cbn [retry_loop];
    rewrite Hattempt, Hcaught, Hgt; reflexivity.
Qed.

End Executor.

Lemma first_backoff_ends_the_call_witness :
  _make_request journal (send_fixed (inl "connection refused")) clock_still unbound_sleep
    mock_recorded None "GET" "search" true default_client blank
  = (Raised (Uncaught NameError), set_last_request default_client (clock_still blank),
     {| requests := [("GET", "https://api.example.com/search")]; delays := [] |}).
Proof.
  apply (first_backoff_ends_the_call journal (send_fixed (inl "connection refused"))
           clock_still mock_recorded None (inl "connection refused")
           (RequestError "connection refused") "GET" "search" true default_client blank).
  - reflexivity.
  - reflexivity.
  - simpl. lia.
  - reflexivity.
  - reflexivity.
  - reflexivity.
Defined.

Lemma unsupported_method_raises_at_once_witness :
  _make_request journal (send_fixed (inl "connection refused")) clock_still sleep_recorded
    mock_recorded None "PATCH" "search" true default_client blank
  = (Raised (Uncaught ValueError), set_last_request default_client (clock_still blank), blank).
Proof.
  apply (unsupported_method_raises_at_once journal (send_fixed (inl "connection refused"))
           clock_still sleep_recorded mock_recorded None "PATCH" "search" true
           default_client blank).
  - reflexivity.
  - reflexivity.
  - simpl. lia.
Defined.

End BaseApiClientProps.

(** ** MockDataProvider: the shape of the generated data *)

Module MockDataProviderProps.
Import Py Random MockDataProvider GeneratedData PyFacts RandomFacts MockDataProviderSpec.
Import NumberFacts ListFacts.

(** *** Rounding from above *)

Lemma round_half_even_upper (y : Q) (n : Z) : (y <= inject_Z n)%Q -> round_half_even y <= n.
Proof.
  intros Hy. unfold round_half_even.
  pose proof (Qfloor_le y) as Hfloor.
  assert (Hle : Qfloor y <= n).
  { rewrite Zle_Qle. eapply Qle_trans; [exact Hfloor | exact Hy]. }
  destruct (Z.eq_dec (Qfloor y) n) as [Heq|Hne].
  - assert (Hfrac : (y - inject_Z (Qfloor y) < 1 # 2)%Q) by (rewrite Heq; lra).
    rewrite Qlt_alt in Hfrac. rewrite Hfrac. exact Hle.
  - destruct (Qcompare _ _); [destruct (Z.even _)| |]; lia.
Qed.

Lemma scale_positive (ndigits : Z) : 0 <= ndigits -> 0 < 10 ^ ndigits.
Proof. intros H. apply Z.pow_pos_nonneg; lia. Qed.

Lemma round_value (x : Q) (ndigits : Z) :
  0 <= ndigits ->
  (round x ndigits * inject_Z (10 ^ ndigits)
   == inject_Z (round_half_even (x * inject_Z (10 ^ ndigits))))%Q.
Proof.
  intros Hd. unfold round. rewrite Qred_correct.
  pose proof (scale_positive ndigits Hd) as Hs.
  set (s := 10 ^ ndigits) in *.
  set (k := round_half_even (x * inject_Z s)).
  unfold Qeq, Qmult, inject_Z. cbn [Qnum Qden].
  rewrite Pos.mul_1_r, Z.mul_1_r, Z2Pos.id by lia. reflexivity.
Qed.

Lemma scaled_le (x y : Q) (ndigits : Z) :
  0 <= ndigits ->
  (x * inject_Z (10 ^ ndigits) <= y * inject_Z (10 ^ ndigits))%Q -> (x <= y)%Q.
Proof.
  intros Hd H. pose proof (scale_positive ndigits Hd) as Hs.
  apply Qmult_le_r in H; [exact H|]. unfold Qlt; simpl. lia.
Qed.

Lemma le_scaled (x y : Q) (ndigits : Z) :
  0 <= ndigits -> (x <= y)%Q ->
  (x * inject_Z (10 ^ ndigits) <= y * inject_Z (10 ^ ndigits))%Q.
Proof.
  intros Hd H. pose proof (scale_positive ndigits Hd) as Hs.
  apply Qmult_le_compat_r; [exact H|]. unfold Qle; simpl. lia.
Qed.

(** Rounding does not go above an integer bound. *)
Lemma round_upper (n : Z) (x : Q) (ndigits : Z) :
  0 <= ndigits -> (x <= inject_Z n)%Q -> (round x ndigits <= inject_Z n)%Q.
Proof.
  intros Hd Hx. apply (scaled_le _ _ ndigits Hd).
  rewrite round_value by exact Hd. rewrite <- inject_Z_mult, <- Zle_Qle.
  apply round_half_even_upper. rewrite inject_Z_mult.
  apply le_scaled; assumption.
Qed.

(** Rounding is monotone against a value that is already rounded. *)
Lemma round_below_rounded (x y : Q) (ndigits : Z) :
  0 <= ndigits -> (y <= round x ndigits)%Q -> (round y ndigits <= round x ndigits)%Q.
Proof.
  intros Hd Hy. apply (scaled_le _ _ ndigits Hd).
  rewrite !round_value by exact Hd. rewrite <- Zle_Qle.
  apply round_half_even_upper. rewrite <- round_value by exact Hd.
  apply le_scaled; assumption.
Qed.

Lemma round_above_rounded (x y : Q) (ndigits : Z) :
  0 <= ndigits -> (round x ndigits <= y)%Q -> (round x ndigits <= round y ndigits)%Q.
Proof.
  intros Hd Hy. apply (scaled_le _ _ ndigits Hd).
  rewrite !round_value by exact Hd. rewrite <- Zle_Qle.
  eapply Z.le_trans; [|apply round_half_even_floor].
  rewrite <- (Qfloor_Z (round_half_even _)). apply Qfloor_resp_le.
  rewrite <- round_value by exact Hd. apply le_scaled; assumption.
Qed.

Lemma Qtrunc_upper (n : Z) (q : Q) : (0 <= q)%Q -> (q <= inject_Z n)%Q -> Qtrunc q <= n.
Proof.
  intros H0 Hq. rewrite (Qtrunc_floor q H0). rewrite Zle_Qle.
  eapply Qle_trans; [apply Qfloor_le | exact Hq].
Qed.

Lemma Qtrunc_nonneg (q : Q) : (0 <= q)%Q -> 0 <= Qtrunc q.
Proof.
  intros H0. apply (Qtrunc_lower 0 q); [lia | exact H0].
Qed.

(** *** Composing what a computation returns *)

Lemma returns_and {A} (m : gen A) (P Q : A -> Prop) :
  returns m P -> returns m Q -> returns m (fun a => P a /\ Q a).
Proof.
  intros HP HQ i. destruct (HP i) as (a & j & Hrun & Ha).
  destruct (HQ i) as (a' & j' & Hrun' & Ha').
  rewrite Hrun in Hrun'. inversion Hrun'; subst. eauto.
Qed.

Section Provider.

Variable entropy : nat -> Z.
Variable utcnow : Z.

(** *** The route *)

Lemma find_airport_some (code : option string) (a : airport) :
  find_airport AUSTRALIAN_AIRPORTS code = Some a -> In a AUSTRALIAN_AIRPORTS.
Proof.
  unfold find_airport. destruct code as [c|]; [|discriminate].
  destruct (String.eqb c ""); [discriminate|].
  intros H. apply find_some in H. tauto.
Qed.

Lemma pick_route_spec (origin destination : option string) :
  returns (pick_route entropy origin destination)
    (fun r => route_of origin destination (fst r) (snd r)).
Proof.
  unfold pick_route.
  eapply returns_bind
    with (P := fun o => In o AUSTRALIAN_AIRPORTS
                        /\ forall a, find_airport AUSTRALIAN_AIRPORTS origin = Some a -> o = a).
  { destruct (find_airport AUSTRALIAN_AIRPORTS origin) as [a|] eqn:Ho.
    - apply returns_ret. split; [exact (find_airport_some origin a Ho) | congruence].
    - eapply returns_weaken; [apply returns_choice; discriminate|].
      intros o Hin. split; [exact Hin | discriminate]. }
  intros o [Ho_in Ho_req].
  eapply returns_bind
    with (P := fun d => In d AUSTRALIAN_AIRPORTS
                        /\ (forall b, find_airport AUSTRALIAN_AIRPORTS destination = Some b ->
                                      d = b)
                        /\ (find_airport AUSTRALIAN_AIRPORTS destination = None ->
                            iata d <> iata o)).
  { destruct (find_airport AUSTRALIAN_AIRPORTS destination) as [b|] eqn:Hd.
    - apply returns_ret.
      split; [exact (find_airport_some destination b Hd)|]. split; congruence.
    - eapply returns_weaken; [apply returns_choice; apply other_airports_nonempty|].
      intros d Hin. apply filter_In in Hin as [Hin Hne].
      split; [exact Hin|]. split; [discriminate|].
      intros _ Heq. rewrite Heq, String.eqb_refl in Hne. discriminate. }
  intros d (Hd_in & Hd_req & Hd_ne).
  apply returns_ret. unfold route_of. simpl. auto.
Qed.

(** *** One flight *)

Lemma minutes_of_delta (hours minutes : Z) :
  Qtrunc (Qmake (hours * hour_us + minutes * minute_us) 1 / inject_Z second_us / 60)
  = hours * 60 + minutes.
Proof.
  apply (Qtrunc_inject _ (hours * 60 + minutes)).
  unfold Qeq, Qdiv, Qmult, Qinv, inject_Z, hour_us, minute_us, second_us.
  cbn [Qnum Qden]. lia.
Qed.

Lemma make_flight_details (origin_airport dest_airport : airport) (current_date : Z) :
  returns (make_flight entropy origin_airport dest_airport current_date)
    (fun fl => flight_detailed fl
               /\ origin fl = origin_airport /\ destination fl = dest_airport).
Proof.
  unfold make_flight.
  eapply returns_bind; [apply (returns_randint entropy 6 22); lia | intros hour Hhour].
  eapply returns_bind; [apply (returns_choice entropy [0; 15; 30; 45]); discriminate
                       | intros minute Hminute].
  eapply returns_bind; [apply (returns_randint entropy 1 6); lia | intros dh Hdh].
  eapply returns_bind; [apply (returns_randint entropy 0 59); lia | intros dm Hdm].
  eapply returns_bind; [apply (returns_choice entropy AIRLINES); discriminate
                       | intros chosen_airline Hairline].
  eapply returns_bind; [apply (returns_choice entropy AIRCRAFT_TYPES); discriminate
                       | intros chosen_aircraft Haircraft].
  pose proof (aircraft_ranges chosen_aircraft Haircraft) as (Hlo & Hrange & Hhi).
  eapply returns_bind; [apply returns_randint; exact Hrange | intros cap Hcap].
  cbv beta in *.
  assert (Hcap0 : 0 <= cap) by lia.
  eapply returns_bind.
  { apply returns_randint.
    rewrite (Qtrunc_half cap Hcap0), (Qtrunc_nine_tenths cap Hcap0).
    Z.to_euclidean_division_equations. lia. }
  intros booked Hbooked.
  eapply returns_bind; [apply (returns_uniform entropy 100 300); lra | intros base [_ Hbase]].
  eapply returns_bind; [apply (returns_uniform entropy 500 4000); lra | intros dist [_ Hdist]].
  eapply returns_bind; [apply (returns_uniform entropy (-50) 100); lra | intros noise [_ Hnoise]].
  eapply returns_bind; [apply (returns_randbelow entropy (2 ^ 128)) | intros uuid _].
  eapply returns_bind; [apply (returns_randint entropy 100 9999); lia | intros number _].
  eapply returns_bind.
  { apply (returns_divide (inject_Z booked) (inject_Z cap)).
    unfold Qis_zero; simpl. apply Z.eqb_neq. lia. }
  intros ratio _.
  eapply returns_bind; [apply returns_choices; [discriminate | reflexivity | reflexivity]
                       | intros flight_status Hstatus].
  eapply returns_bind; [apply returns_choices; [discriminate | reflexivity | reflexivity]
                       | intros flight_stops Hstops].
  apply returns_ret. cbv beta in *.
  split; [|split; reflexivity].
  unfold flight_detailed; cbn [fl_airline aircraft capacity departure_time arrival_time
                                duration price status stops currency data_source].
  rewrite (minutes_of_delta dh dm).
  assert (Hday : midnight (midnight current_date + hour * hour_us + minute * minute_us)
                 = midnight current_date).
  { unfold midnight at 1. rewrite (departure_on_same_day current_date hour minute Hhour Hminute).
    reflexivity. }
  rewrite Hday.
  assert (Hmin : 0 <= minute <= 45)
    by (simpl in Hminute; destruct Hminute as [<-|[<-|[<-|[<-|[]]]]]; lia).
  repeat split; try assumption; try tauto;
    try (unfold hour_us, minute_us, second_us; lia).
  apply (round_upper 800); [lia|]. unfold inject_Z. lra.
Qed.

(** *** The loops of [get_flights] *)

Section Loops.

Variable Q : mock_flight -> Prop.
Variable origin_airport dest_airport : airport.
Hypothesis make_flight_Q :
  forall current_date, returns (make_flight entropy origin_airport dest_airport current_date) Q.

Lemma day_flights_Forall (n : nat) (current_date limit : Z) (flights : list mock_flight) :
  Forall Q flights ->
  returns (day_flights entropy n origin_airport dest_airport current_date limit flights)
    (Forall Q).
Proof.
  revert flights. induction n as [|n IH]; intros flights Hall; simpl.
  - apply returns_ret. exact Hall.
  - destruct (limit <=? Z.of_nat (length flights)); [apply returns_ret; exact Hall|].
    eapply returns_bind; [apply make_flight_Q|].
    intros fl Hfl. apply IH. apply Forall_app. split; [exact Hall|].
    constructor; [exact Hfl | constructor].
Qed.

Lemma days_loop_Forall (fuel : nat) (current_date date_to limit : Z)
    (flights : list mock_flight) :
  Forall Q flights ->
  returns (days_loop entropy fuel origin_airport dest_airport current_date date_to limit flights)
    (Forall Q).
Proof.
  revert current_date flights.
  induction fuel as [|fuel IH]; intros current_date flights Hall; simpl;
    destruct ((current_date <=? date_to) && (Z.of_nat (length flights) <? limit));
    try (apply returns_ret; exact Hall).
  eapply returns_bind; [apply (returns_randint entropy 1 5); lia | intros n _].
  eapply returns_bind; [apply day_flights_Forall; exact Hall|].
  intros flights' Hall'. apply IH. exact Hall'.
Qed.

End Loops.

Lemma make_flight_returns (origin_airport dest_airport : airport) (current_date : Z) :
  returns (make_flight entropy origin_airport dest_airport current_date) (fun _ => True).
Proof.
  eapply returns_weaken; [apply make_flight_details | auto].
Qed.

(** The flights only grow, never beyond the limit, and a day that is
    entered below the limit adds one flight at least. *)
Lemma day_flights_length (n : nat) (origin_airport dest_airport : airport)
    (current_date limit : Z) (flights : list mock_flight) :
  returns (day_flights entropy n origin_airport dest_airport current_date limit flights)
    (fun res => (length flights <= length res)%nat
                /\ Z.of_nat (length res) <= Z.max limit (Z.of_nat (length flights))
                /\ (n <> 0%nat -> Z.of_nat (length flights) < limit ->
                    (length flights < length res)%nat)).
Proof.
  revert flights. induction n as [|n IH]; intros flights; simpl.
  - apply returns_ret. split; [lia|]. split; [lia | congruence].
  - destruct (limit <=? Z.of_nat (length flights)) eqn:Hl.
    + apply Z.leb_le in Hl. apply returns_ret. split; [lia|]. split; lia.
    + apply Z.leb_gt in Hl.
      eapply returns_bind; [apply make_flight_returns | intros fl _].
      eapply returns_weaken; [apply IH|].
      intros res. rewrite length_app. simpl. intros (Hge & Hle & _).
      split; [lia|]. split; lia.
Qed.

Lemma days_loop_length (fuel : nat) (origin_airport dest_airport : airport)
    (current_date date_to limit : Z) (flights : list mock_flight) :
  returns (days_loop entropy fuel origin_airport dest_airport current_date date_to limit flights)
    (fun res => (length flights <= length res)%nat
                /\ Z.of_nat (length res) <= Z.max limit (Z.of_nat (length flights))
                /\ (fuel <> 0%nat -> current_date <= date_to ->
                    Z.of_nat (length flights) < limit ->
                    (length flights < length res)%nat)).
Proof.
  revert current_date flights.
  induction fuel as [|fuel IH]; intros current_date flights; simpl;
    destruct ((current_date <=? date_to) && (Z.of_nat (length flights) <? limit)) eqn:Hcond.
  - apply returns_ret. split; [lia|]. split; [lia | congruence].
  - apply returns_ret. split; [lia|]. split; [lia | congruence].
  - eapply returns_bind; [apply (returns_randint entropy 1 5); lia | intros n Hn].
    eapply returns_bind; [apply day_flights_length | intros flights' (Hge & Hle & Hgrow)].
    eapply returns_weaken; [apply IH|].
    apply andb_true_iff in Hcond as [_ Hlt]. apply Z.ltb_lt in Hlt.
    cbv beta in *.
    assert (Hstrict : (length flights < length flights')%nat) by (apply Hgrow; lia).
    intros res (Hge' & Hle' & _). split; [lia|]. split; lia.
  - apply returns_ret. split; [lia|]. split; [lia|].
    intros _ Hdate Hlim.
    apply andb_false_iff in Hcond as [Hc|Hc];
      [apply Z.leb_gt in Hc | apply Z.ltb_ge in Hc]; lia.
Qed.

(** *** get_flights *)

Lemma get_flights_details (origin destination : option string)
    (date_from date_to : option Z) (limit : Z) :
  returns (get_flights entropy utcnow origin destination date_from date_to limit)
    (fun flights =>
       exists origin_airport dest_airport,
         route_of origin destination origin_airport dest_airport
         /\ Forall (fun fl => flight_detailed fl
                              /\ MockDataProvider.origin fl = origin_airport
                              /\ MockDataProvider.destination fl = dest_airport) flights).
Proof.
  unfold get_flights.
  eapply returns_bind; [apply pick_route_spec | intros [o d] Hroute].
  eapply returns_weaken.
  - apply (days_loop_Forall
             (fun fl => flight_detailed fl /\ MockDataProvider.origin fl = o
                        /\ MockDataProvider.destination fl = d) o d).
    + intros current_date. apply make_flight_details.
    + constructor.
  - intros flights Hall. exists o, d. split; [exact Hroute | exact Hall].
Qed.

(** X18. For naive datetimes and a date range that ends two days at least
    before the last datetime, [get_flights] returns, never with more flights
    than [limit] (none for a limit of zero or less), and with one flight at
    least when the limit is positive and the date range is not empty. *)
Theorem get_flights_respects_the_limit (origin destination : option string)
    (date_from date_to : option Z) (limit : Z) :
  range_end utcnow date_to + 2 * day_us <= datetime_max ->
  returns (get_flights entropy utcnow origin destination date_from date_to limit)
    (fun flights =>
       Z.of_nat (length flights) <= Z.max 0 limit
       /\ (1 <= limit -> range_start utcnow date_from <= range_end utcnow date_to ->
           (1 <= length flights)%nat)).
Proof.
  intros _. unfold get_flights.
  eapply returns_bind; [apply returns_pick_route | intros route _].
  eapply returns_weaken; [apply days_loop_length|].
  intros flights (_ & Hle & Hgrow). simpl in Hle, Hgrow. split; [lia|].
  intros Hlimit Hrange.
  assert (Hday : 0 < day_us) by (unfold day_us, hour_us, minute_us, second_us; lia).
  assert (Hdiv : 0 <= (range_end utcnow date_to - range_start utcnow date_from) / day_us)
    by (apply Z.div_pos; lia).
  apply Hgrow; lia.
Qed.

(** X19. All the flights of one call of [get_flights] share one route
    between two reference airports: the origin and the destination that were
    asked for when their codes name reference airports, a random reference
    airport otherwise (an unknown code is not an error), and a destination
    that had to be drawn never has the code of the origin. *)
Theorem get_flights_serves_one_route (origin destination : option string)
    (date_from date_to : option Z) (limit : Z) :
  returns (get_flights entropy utcnow origin destination date_from date_to limit)
    (fun flights =>
       exists origin_airport dest_airport,
         route_of origin destination origin_airport dest_airport
         /\ Forall (fun fl => MockDataProvider.origin fl = origin_airport
                              /\ MockDataProvider.destination fl = dest_airport) flights).
Proof.
  eapply returns_weaken; [apply get_flights_details|].
  intros flights (o & d & Hroute & Hall). exists o, d. split; [exact Hroute|].
  eapply Forall_impl; [exact Hall|]. intros fl (_ & Ho & Hd). auto.
Qed.

(** X20. Every flight that [get_flights] generates has an airline and an
    aircraft of the reference tables and a capacity inside the range of its
    aircraft; it departs between 06:00 and 22:45 of its day, arrives
    [duration] minutes later with a duration of 60 to 419 minutes, costs 800
    at most, has one of the three statuses and 0, 1 or 2 stops, and is
    labelled AUD and mock. *)
Theorem generated_flights_are_detailed (origin destination : option string)
    (date_from date_to : option Z) (limit : Z) :
  returns (get_flights entropy utcnow origin destination date_from date_to limit)
    (Forall flight_detailed).
Proof.
  eapply returns_weaken; [apply get_flights_details|].
  intros flights (o & d & _ & Hall).
  eapply Forall_impl; [exact Hall|]. intros fl (Hfl & _). exact Hfl.
Qed.

(** *** get_market_data *)

Lemma ratio_in_unit (b v : Z) :
  0 <= b <= v -> 0 < v ->
  (0 <= Qred (inject_Z b / inject_Z v) * 100)%Q
  /\ (Qred (inject_Z b / inject_Z v) * 100 <= inject_Z 100)%Q.
Proof.
  intros Hb Hv. rewrite Qred_correct.
  assert (Hvq : (0 < inject_Z v)%Q) by (unfold Qlt; simpl; lia).
  assert (Hlo : (0 <= inject_Z b / inject_Z v)%Q).
  { apply Qle_shift_div_l; [exact Hvq|]. rewrite Qmult_0_l. unfold Qle; simpl. lia. }
  assert (Hhi : (inject_Z b / inject_Z v <= 1)%Q).
  { apply Qle_shift_div_r; [exact Hvq|]. rewrite Qmult_1_l. rewrite <- Zle_Qle. lia. }
  set (r := (inject_Z b / inject_Z v)%Q) in *. clearbody r.
  change (inject_Z 100) with (100 # 1)%Q. split; lra.
Qed.

Lemma market_day_range (origin_airport dest_airport : airport) (day : Z) :
  returns (market_day entropy utcnow origin_airport dest_airport day)
    (fun p => point_in_range p
              /\ mp_date p = midnight utcnow - day * day_us
              /\ mp_origin p = iata origin_airport
              /\ mp_destination p = iata dest_airport).
Proof.
  unfold market_day.
  eapply returns_bind; [apply (returns_uniform entropy 50 200); lra | intros base [Hbase _]].
  eapply returns_bind; [apply (returns_uniform entropy (8 # 10) (12 # 10)); lra
                       | intros noise [Hnoise _]].
  eapply returns_bind; [apply (returns_uniform entropy (1 # 10) (4 # 10)); lra
                       | intros conversion [Hconv_lo Hconv_hi]].
  eapply returns_bind; [apply (returns_uniform entropy 150 500); lra
                       | intros raw_price [Hraw_lo Hraw_hi]].
  set (weekend := 5 <=? weekday (midnight utcnow - day * day_us)).
  set (boost := if weekend then (3 # 2)%Q else 1%Q).
  set (factor := if _ : bool then (13 # 10)%Q else 1%Q).
  assert (Hboost : (1 <= boost)%Q) by (unfold boost; destruct weekend; lra).
  assert (Hfactor : (1 <= factor)%Q) by (unfold factor; destruct (_ || _); lra).
  assert (Hvol1 : 40 <= Qtrunc (base * boost * noise)).
  { apply Qtrunc_lower; [lia|]. unfold inject_Z.
    assert (Hbb : (50 <= base * boost)%Q) by nra.
    nra. }
  set (volume0 := Qtrunc (base * boost * noise)) in *.
  assert (Hv0 : (40 <= inject_Z volume0)%Q)
    by (change 40%Q with (inject_Z 40); rewrite <- Zle_Qle; exact Hvol1).
  assert (Hvol : volume0 <= Qtrunc (inject_Z volume0 * factor)).
  { apply Qtrunc_lower; [lia|]. apply inject_Z_lower; [lia | exact Hfactor | lia]. }
  set (volume := Qtrunc (inject_Z volume0 * factor)) in *.
  assert (Hpos : (0 <? volume) = true) by (apply Z.ltb_lt; lia).
  rewrite Hpos.
  assert (Hbook : 0 <= Qtrunc (inject_Z volume0 * conversion) <= volume0).
  { split.
    - apply Qtrunc_nonneg. nra.
    - apply Qtrunc_upper; nra. }
  set (bookings := Qtrunc (inject_Z volume0 * conversion)) in *.
  set (avg := round (raw_price * (if weekend then 12 # 10 else 1)) 2).
  assert (Havg : (150 <= avg)%Q /\ (avg <= 600)%Q).
  { unfold avg. split.
    - apply (round_lower 150); [lia|]. unfold inject_Z. destruct weekend; lra.
    - apply (round_upper 600); [lia|]. unfold inject_Z. destruct weekend; lra. }
  eapply returns_bind
    with (P := fun rate => (0 <= rate)%Q /\ (rate <= 100)%Q).
  { eapply returns_bind.
    - apply (returns_divide (inject_Z bookings) (inject_Z volume)).
      unfold Qis_zero; simpl. apply Z.eqb_neq. lia.
    - intros r Hr. cbv beta in Hr. subst r. apply returns_ret.
      destruct (ratio_in_unit bookings volume) as [Hlo Hhi]; [lia | lia |].
      split.
      + apply (round_lower 0); [lia | exact Hlo].
      + apply (round_upper 100); [lia | exact Hhi]. }
  intros rate Hrate.
  eapply returns_bind; [apply (returns_uniform entropy (7 # 10) (95 # 100)); lra
                       | intros low [Hlow_lo Hlow_hi]].
  eapply returns_bind; [apply (returns_uniform entropy (105 # 100) (13 # 10)); lra
                       | intros high [Hhigh_lo Hhigh_hi]].
  eapply returns_bind; [apply (returns_uniform entropy 60 95); lra
                       | intros load [Hload_lo Hload_hi]].
  apply returns_ret. split; [|auto].
  unfold point_in_range.
  cbn [booking_count search_volume conversion_rate average_price min_price max_price
       mp_load_factor mp_data_source].
  fold avg. destruct Havg as [Havg_lo Havg_hi]. destruct Hrate as [Hrate_lo Hrate_hi].
  repeat split; try assumption; try lia.
  - apply round_below_rounded; [lia|]. fold avg. nra.
  - apply round_above_rounded; [lia|]. fold avg. nra.
  - apply (round_lower 60); [lia|]. unfold inject_Z. lra.
  - apply (round_upper 95); [lia|]. unfold inject_Z. lra.
Qed.

Lemma market_days_range (origin_airport dest_airport : airport) (days : list Z) :
  returns (market_days entropy utcnow origin_airport dest_airport days)
    (fun points =>
       Forall (fun p => point_in_range p
                        /\ mp_origin p = iata origin_airport
                        /\ mp_destination p = iata dest_airport) points
       /\ map mp_date points = map (fun day => midnight utcnow - day * day_us) days).
Proof.
  induction days as [|day rest IH]; simpl.
  - apply returns_ret. split; [constructor | reflexivity].
  - eapply returns_bind; [apply market_day_range | intros p (Hp & Hdate & Ho & Hd)].
    eapply returns_bind; [apply IH | intros ps (Hps & Hdates)].
    apply returns_ret. split; [constructor; auto|].
    simpl. rewrite Hdate, Hdates. reflexivity.
Qed.

(** The points of a list whose dates go down come out of the sort in
    reverse order. *)
Lemma insert_point_last (p : market_point) (l : list market_point) :
  Forall (fun x => mp_date x < mp_date p) l -> insert_point p l = (l ++ [p])%list.
Proof.
  induction 1 as [|x rest Hx _ IH]; simpl; [reflexivity|].
  apply Z.ltb_lt in Hx. rewrite Hx, IH. reflexivity.
Qed.

Lemma sort_by_date_decreasing (l : list market_point) :
  StronglySorted (fun p q => mp_date q < mp_date p) l -> sort_by_date l = rev l.
Proof.
  induction 1 as [|p rest _ IH Hp]; [reflexivity|].
  change (sort_by_date (p :: rest)) with (insert_point p (sort_by_date rest)).
  rewrite IH. cbn [rev].
  apply insert_point_last. apply Forall_rev. exact Hp.
Qed.

Lemma dates_go_down (m : Z) (n a : nat) (l : list market_point) :
  map mp_date l = map (fun day => m - day * day_us) (map Z.of_nat (seq a n)) ->
  StronglySorted (fun p q => mp_date q < mp_date p) l.
Proof.
  assert (Hday : 0 < day_us) by (unfold day_us, hour_us, minute_us, second_us; lia).
  revert a l. induction n as [|n IH]; intros a [|p rest] H; simpl in H;
    try discriminate; constructor.
  - injection H as Hp Hrest. apply (IH (S a)). exact Hrest.
  - injection H as Hp Hrest.
    assert (Hall : Forall (fun d => d < mp_date p) (map mp_date rest)).
    { rewrite Hrest, Hp. apply Forall_forall. intros d Hd.
      apply list_elem_of_fmap in Hd as (z & -> & Hz).
      apply list_elem_of_fmap in Hz as (i & -> & Hi).
      apply list_elem_of_In, in_seq in Hi. nia. }
    apply Forall_forall. intros q Hq. rewrite Forall_forall in Hall.
    apply Hall. apply list_elem_of_fmap. eauto.
Qed.

Lemma get_market_data_shape (origin destination : option string) (days : Z) :
  returns (get_market_data entropy utcnow origin destination days)
    (fun points =>
       map mp_date points = days_back utcnow days
       /\ Forall point_in_range points
       /\ exists origin_airport dest_airport,
            route_of origin destination origin_airport dest_airport
            /\ Forall (fun p => mp_origin p = iata origin_airport
                                /\ mp_destination p = iata dest_airport) points).
Proof.
  unfold get_market_data.
  eapply returns_bind; [apply pick_route_spec | intros [o d] Hroute].
  eapply returns_bind; [apply market_days_range | intros points (Hall & Hdates)].
  apply returns_ret. simpl in Hall.
  assert (Hsort : sort_by_date points = rev points).
  { apply sort_by_date_decreasing. apply (dates_go_down (midnight utcnow) (Z.to_nat days) 0).
    exact Hdates. }
  rewrite Hsort. split; [|split].
  - rewrite map_rev, Hdates. unfold days_back. rewrite map_rev. reflexivity.
  - apply Forall_rev. eapply Forall_impl; [exact Hall|]. intros p (Hp & _). exact Hp.
  - exists o, d. split; [exact Hroute|].
    apply Forall_rev. eapply Forall_impl; [exact Hall|]. intros p (_ & Hp). exact Hp.
Qed.

(** X21. For a count of days that is at most the ordinal of today (so that
    every day of the series is a date), [get_market_data] returns one point
    per day for the [days] days that end today, oldest first, none for a
    count of zero or less; all the points carry the codes of one route, the
    one that was asked for when its codes name reference airports. *)
Theorem market_data_covers_the_days (origin destination : option string) (days : Z) :
  days <= ordinal utcnow ->
  returns (get_market_data entropy utcnow origin destination days)
    (fun points =>
       map mp_date points = days_back utcnow days
       /\ length points = Z.to_nat days
       /\ exists origin_airport dest_airport,
            route_of origin destination origin_airport dest_airport
            /\ Forall (fun p => mp_origin p = iata origin_airport
                                /\ mp_destination p = iata dest_airport) points).
Proof.
  intros _. eapply returns_weaken; [apply get_market_data_shape|].
  intros points (Hdates & _ & Hroute). split; [exact Hdates|]. split; [|exact Hroute].
  rewrite <- (length_map mp_date), Hdates. unfold days_back, range.
  rewrite length_map, length_rev, length_map, length_seq. reflexivity.
Qed.

(** X22. Every point of [get_market_data] is in range: the bookings lie
    between zero and the searches, the conversion rate between 0 and 100,
    the average price between 150 and 600 with the minimum price at or below
    it and the maximum price at or above it, and the load factor between 60
    and 95. *)
Theorem market_points_are_in_range (origin destination : option string) (days : Z) :
  returns (get_market_data entropy utcnow origin destination days)
    (Forall point_in_range).
Proof.
  eapply returns_weaken; [apply get_market_data_shape|].
  intros points (_ & Hall & _). exact Hall.
Qed.

(** *** get_airport_analytics *)

Lemma returns_randbelow_range (n : Z) :
  0 < n -> returns (randbelow entropy n) (fun k => 0 <= k < n).
Proof.
  intros Hn i. eexists _, _. split; [reflexivity|]. apply Z.mod_pos_bound. exact Hn.
Qed.

(** [random.sample] returns [k] elements that, with the elements it left
    in the pool, are a permutation of the population. *)
Lemma sample_from_perm {A} (k : nat) (pool : list A) :
  (k <= length pool)%nat ->
  returns (sample_from entropy pool k)
    (fun l => length l = k /\ exists rest, (l ++ rest)%list ≡ₚ pool).
Proof.
  revert pool. induction k as [|k IH]; intros pool Hk; simpl.
  - apply returns_ret. split; [reflexivity|]. exists pool. reflexivity.
  - destruct pool as [|x rest]; [simpl in Hk; lia|].
    set (pool := x :: rest) in *.
    eapply returns_bind;
      [apply (returns_randbelow_range (Z.of_nat (length pool))); subst pool; simpl length; lia
      | intros j Hj].
    cbv beta in Hj. assert (Hlt : (Z.to_nat j < length pool)%nat) by lia.
    eapply returns_bind.
    + apply IH. rewrite length_firstn, length_insert. lia.
    + intros l (Hlen & left_over & Hperm). apply returns_ret. split; [simpl; lia|].
      exists left_over. rewrite <- app_comm_cons, Hperm. apply (pick_perm pool x). exact Hlt.
Qed.

Lemma extend_series_length (n : nat) (volatility prev : Q) :
  (0 <= volatility)%Q ->
  returns (extend_series entropy n volatility prev) (fun l => length l = n).
Proof.
  intros Hv. revert prev. induction n as [|n IH]; intros prev; simpl.
  - apply returns_ret. reflexivity.
  - eapply returns_bind; [apply (returns_uniform entropy (- volatility) volatility); lra
                         | intros u _].
    eapply returns_bind; [apply IH | intros rest Hrest]. apply returns_ret.
    simpl. rewrite Hrest. reflexivity.
Qed.

Lemma generate_time_series_length (days : Z) (base_value volatility : Q) :
  (0 <= volatility)%Q ->
  returns (generate_time_series entropy days base_value volatility)
    (fun l => length l = Z.to_nat (Z.max 1 days)).
Proof.
  intros Hv. unfold generate_time_series.
  eapply returns_bind; [apply (returns_uniform entropy (9 # 10) (11 # 10)); lra | intros u _].
  eapply returns_bind; [apply extend_series_length; exact Hv | intros rest Hrest].
  apply returns_ret. simpl. rewrite Hrest. lia.
Qed.

Lemma destination_breakdown_stats (dests : list airport) :
  returns (destination_breakdown entropy dests)
    (fun b => map dest_airport b = dests
              /\ Forall (fun d => 50 <= flight_count d <= 200
                                  /\ (150 <= dest_average_price d)%Q
                                  /\ (dest_average_price d <= 500)%Q
                                  /\ (60 <= dest_load_factor d)%Q
                                  /\ (dest_load_factor d <= 95)%Q) b).
Proof.
  induction dests as [|dest rest IH]; simpl.
  - apply returns_ret. split; [reflexivity | constructor].
  - eapply returns_bind; [apply (returns_randint entropy 50 200); lia | intros flights Hf].
    eapply returns_bind; [apply (returns_uniform entropy 150 500); lra | intros fare [Hp1 Hp2]].
    eapply returns_bind; [apply (returns_uniform entropy 60 95); lra | intros load [Hl1 Hl2]].
    eapply returns_bind; [apply IH | intros others [Hmap Hall]]. apply returns_ret.
    split; [simpl; rewrite Hmap; reflexivity|].
    constructor; [|exact Hall]. simpl.
    split; [exact Hf|].
    split; [apply (round_lower 150); [lia | exact Hp1]|].
    split; [apply (round_upper 500); [lia | exact Hp2]|].
    split; [apply (round_lower 60); [lia | exact Hl1] | apply (round_upper 95); [lia | exact Hl2]].
Qed.

Lemma reference_codes_distinct : List.NoDup (map iata AUSTRALIAN_AIRPORTS).
Proof.
  apply (NoDup_ListNoDup (map iata AUSTRALIAN_AIRPORTS)).
  apply (bool_decide_unpack _). vm_compute. reflexivity.
Qed.

Lemma reference_airports_distinct : List.NoDup AUSTRALIAN_AIRPORTS.
Proof. eapply NoDup_map_inv. apply reference_codes_distinct. Qed.

(** Nine reference airports at least have a code other than a given one. *)
Lemma other_airports_length (code : string) :
  (9 <= length (List.filter (fun a => negb (String.eqb (iata a) code)) AUSTRALIAN_AIRPORTS))%nat.
Proof.
  pose proof (filter_length (fun a => String.eqb (iata a) code) AUSTRALIAN_AIRPORTS) as Hsum.
  pose proof (filter_key_at_most_one iata code AUSTRALIAN_AIRPORTS reference_codes_distinct)
    as Hone.
  change (length AUSTRALIAN_AIRPORTS) with 10%nat in Hsum. lia.
Qed.

(** What the analytics of a reference airport hold. *)
Lemma get_airport_analytics_shape (airport_code : string) (days : Z) :
  known_airport airport_code = true ->
  returns (get_airport_analytics entropy utcnow airport_code days)
    (fun a => analytics_summary airport_code a
              /\ (length (top_destinations a) = 5%nat
                  /\ List.NoDup (map dest_airport (top_destinations a))
                  /\ Forall (destination_in_range airport_code) (top_destinations a))
              /\ (ts_dates a = map (fun i => midnight utcnow - i * day_us) (range days)
                  /\ Forall (fun s => length s = Z.to_nat (Z.max 1 days)) (series_of a))).
Proof.
  intros Hknown. destruct (find_known airport_code Hknown) as (found & Hfind & Hiata).
  unfold get_airport_analytics. rewrite Hfind.
  pose proof (other_airports_length airport_code) as Hothers.
  set (others := List.filter _ AUSTRALIAN_AIRPORTS) in *.
  assert (Hmin : Z.min 5 (Z.of_nat (length others)) = 5) by lia.
  rewrite Hmin.
  eapply returns_bind.
  { unfold sample.
    destruct ((5 <? 0) || (Z.of_nat (length others) <? 5)) eqn:Hk.
    - apply orb_true_iff in Hk as [Hk|Hk]; apply Z.ltb_lt in Hk; lia.
    - apply (sample_from_perm (Z.to_nat 5) others). lia. }
  intros dests (Hlen & left_over & Hperm).
  eapply returns_bind; [apply (returns_randint entropy 1000 5000); lia | intros ft Hft].
  eapply returns_bind; [apply (returns_randint entropy 100000 500000); lia | intros pt Hpt].
  eapply returns_bind; [apply (returns_uniform entropy 70 90); lra | intros load [Hl1 Hl2]].
  eapply returns_bind; [apply (returns_uniform entropy 75 95); lra | intros on_time [Ho1 Ho2]].
  eapply returns_bind; [apply destination_breakdown_stats | intros breakdown [Hmap Hstats]].
  eapply returns_bind; [apply generate_time_series_length; lra | intros s1 Hs1].
  eapply returns_bind; [apply generate_time_series_length; lra | intros s2 Hs2].
  eapply returns_bind; [apply generate_time_series_length; lra | intros s3 Hs3].
  eapply returns_bind; [apply generate_time_series_length; lra | intros s4 Hs4].
  apply returns_ret.
  assert (Hnd : List.NoDup (dests ++ left_over)).
  { eapply Permutation_NoDup; [symmetry; exact Hperm|].
    apply List.NoDup_filter. apply reference_airports_distinct. }
  assert (Hin : forall a, In a dests -> In a AUSTRALIAN_AIRPORTS /\ iata a <> airport_code).
  { intros a Ha.
    assert (Ho : In a others).
    { eapply Permutation_in; [exact Hperm|]. apply in_or_app. left. exact Ha. }
    apply filter_In in Ho as [Hin Hne]. split; [exact Hin|].
    apply negb_true_iff, String.eqb_neq in Hne. exact Hne. }
  split; [|split].
  - unfold analytics_summary. simpl.
    split; [apply find_some in Hfind; tauto|].
    split; [exact Hiata|].
    split; [exact Hft|]. split; [exact Hpt|].
    split; [apply (round_lower 70); [lia | exact Hl1]|].
    split; [apply (round_upper 90); [lia | exact Hl2]|].
    split; [apply (round_lower 75); [lia | exact Ho1]|].
    split; [apply (round_upper 95); [lia | exact Ho2] | reflexivity].
  - simpl. split; [rewrite <- (length_map dest_airport), Hmap; exact Hlen|].
    split; [rewrite Hmap; apply List.NoDup_app_remove_r in Hnd; exact Hnd|].
    apply Forall_forall. intros d Hd. unfold destination_in_range.
    assert (Ha : In (dest_airport d) dests).
    { rewrite <- Hmap. apply in_map. apply list_elem_of_In. exact Hd. }
    destruct (Hin _ Ha) as [Hin1 Hin2].
    rewrite Forall_forall in Hstats. specialize (Hstats d Hd).
    tauto.
  - simpl. split; [reflexivity|]. unfold series_of. simpl.
    repeat constructor; assumption.
Qed.

(** X23. For a count of days that is at most the ordinal of today,
    [get_airport_analytics] for a reference airport returns that airport
    with totals in the ranges they are drawn from (1000 to 5000 flights,
    100000 to 500000 passengers, a load factor of 70 to 90 and an on-time
    performance of 75 to 95) and five top destinations: five different
    reference airports, none of them the airport itself, each with 50 to 200
    flights, a price of 150 to 500 and a load factor of 60 to 95. For any
    other code it raises a ValueError before any draw. *)
Theorem analytics_name_five_other_airports (airport_code : string) (days : Z) (i : nat) :
  days <= ordinal utcnow ->
  match get_airport_analytics entropy utcnow airport_code days i with
  | (Ok a, _) =>
      known_airport airport_code = true
      /\ analytics_summary airport_code a
      /\ length (top_destinations a) = 5%nat
      /\ List.NoDup (map dest_airport (top_destinations a))
      /\ Forall (destination_in_range airport_code) (top_destinations a)
  | (Raise e, j) => known_airport airport_code = false /\ e = ValueError /\ j = i
  end.
Proof.
  intros _. destruct (known_airport airport_code) eqn:Hknown.
  - destruct (get_airport_analytics_shape airport_code days Hknown i)
      as (a & j & Hrun & Hsum & Htop & _).
    rewrite Hrun. tauto.
  - unfold get_airport_analytics. rewrite (find_unknown airport_code Hknown).
    split; [reflexivity|]. split; reflexivity.
Qed.

(** X24. The series of the analytics. The dates are the [days] days that
    end today, newest first (the market data is sorted oldest first), none
    for a count of zero or less; each of the four series holds
    [max(1, days)] values, so the series are as long as the dates exactly
    when [days] is one at least: for [days <= 0] every series still holds
    its first value and there is no date to go with it. *)
Theorem analytics_series_outlast_the_dates (airport_code : string) (days : Z) (i : nat) :
  match get_airport_analytics entropy utcnow airport_code days i with
  | (Ok a, _) =>
      ts_dates a = rev (days_back utcnow days)
      /\ length (ts_dates a) = Z.to_nat days
      /\ Forall (fun s => length s = Z.to_nat (Z.max 1 days)) (series_of a)
      /\ (Forall (fun s => length s = length (ts_dates a)) (series_of a) <-> 1 <= days)
  | (Raise e, _) => known_airport airport_code = false
  end.
Proof.
  destruct (known_airport airport_code) eqn:Hknown.
  - destruct (get_airport_analytics_shape airport_code days Hknown i)
      as (a & j & Hrun & _ & _ & Hdates & Hseries).
    rewrite Hrun.
    assert (Hlen : length (ts_dates a) = Z.to_nat days).
    { rewrite Hdates. unfold range. rewrite !length_map, length_seq. reflexivity. }
    split; [|split; [exact Hlen|split; [exact Hseries|]]].
    + rewrite Hdates. unfold days_back. rewrite <- map_rev, rev_involutive. reflexivity.
    + rewrite Hlen. split.
      * intros Hall. inversion Hall as [|s l Hs _]; subst.
        inversion Hseries as [|s' l' Hs' _]; subst. lia.
      * intros Hdays. eapply Forall_impl; [exact Hseries|].
        intros s Hs. simpl in Hs. rewrite Hs. lia.
  - unfold get_airport_analytics. rewrite (find_unknown airport_code Hknown). reflexivity.
Qed.

(** *** How close a rounded number is *)

Lemma round_half_even_close (y : Q) :
  (inject_Z (round_half_even y) - y <= 1 # 2)%Q
  /\ (y - inject_Z (round_half_even y) <= 1 # 2)%Q.
Proof.
  unfold round_half_even.
  pose proof (Qfloor_le y) as Hlo. pose proof (Qlt_floor y) as Hhi.
  rewrite inject_Z_plus in Hhi. change (inject_Z 1) with 1%Q in Hhi.
  destruct (Qcompare (y - inject_Z (Qfloor y)) (1 # 2)) eqn:Hc.
  - apply Qeq_alt in Hc.
    destruct (Z.even (Qfloor y));
      [|rewrite inject_Z_plus; change (inject_Z 1) with 1%Q]; split; lra.
  - apply Qlt_alt in Hc. split; lra.
  - apply Qgt_alt in Hc. rewrite inject_Z_plus. change (inject_Z 1) with 1%Q. split; lra.
Qed.

(** A number rounded to two decimals is a whole number of hundredths, half
    a hundredth at most from the number. *)
Lemma round_two_decimals (x : Q) :
  (exists k : Z, (round x 2 * 100 == inject_Z k)%Q)
  /\ (Qabs (round x 2 - x) <= 1 # 200)%Q.
Proof.
  pose proof (round_value x 2 ltac:(lia)) as Hv.
  change (inject_Z (10 ^ 2)) with 100%Q in Hv.
  split; [eexists; exact Hv|].
  destruct (round_half_even_close (x * 100)) as [H1 H2].
  rewrite <- Hv in H1, H2.
  apply Qabs_Qle_condition. split; lra.
Qed.

End Provider.

(** A range of ten days in January 2024. *)
Lemma get_flights_respects_the_limit_witness :
  exists flights j,
    get_flights sample_entropy sample_now (Some "SYD") (Some "MEL")
      (Some sample_now) (Some (sample_now + 10 * day_us)) 5 0%nat
    = (Ok flights, j)
    /\ Z.of_nat (length flights) <= Z.max 0 5
    /\ (1 <= 5 ->
        range_start sample_now (Some sample_now)
        <= range_end sample_now (Some (sample_now + 10 * day_us)) ->
        (1 <= length flights)%nat).
Proof.
  apply (get_flights_respects_the_limit sample_entropy sample_now (Some "SYD") (Some "MEL")
           (Some sample_now) (Some (sample_now + 10 * day_us)) 5).
  vm_compute. discriminate.
Defined.

(** A week of market data. *)
Lemma market_data_covers_the_days_witness :
  exists points j,
    get_market_data sample_entropy sample_now (Some "SYD") (Some "MEL") 7 0%nat
    = (Ok points, j)
    /\ map mp_date points = days_back sample_now 7
    /\ length points = Z.to_nat 7
    /\ exists origin_airport dest_airport,
         route_of (Some "SYD") (Some "MEL") origin_airport dest_airport
         /\ Forall (fun p => mp_origin p = iata origin_airport
                             /\ mp_destination p = iata dest_airport) points.
Proof.
  apply (market_data_covers_the_days sample_entropy sample_now (Some "SYD") (Some "MEL") 7).
  vm_compute. discriminate.
Defined.

(** A week of analytics for Sydney. *)
Lemma analytics_name_five_other_airports_witness :
  match get_airport_analytics sample_entropy sample_now "SYD" 7 0%nat with
  | (Ok a, _) =>
      known_airport "SYD" = true
      /\ analytics_summary "SYD" a
      /\ length (top_destinations a) = 5%nat
      /\ List.NoDup (map dest_airport (top_destinations a))
      /\ Forall (destination_in_range "SYD") (top_destinations a)
  | (Raise e, j) => known_airport "SYD" = false /\ e = ValueError /\ j = 0%nat
  end.
Proof.
  apply (analytics_name_five_other_airports sample_entropy sample_now "SYD" 7 0%nat).
  vm_compute. discriminate.
Defined.

End MockDataProviderProps.

(** ** The claim about the conversion rate *)

Module MarketClaims.
Import Py Random MockDataProvider GeneratedData.
Import PyFacts RandomFacts MockDataProviderSpec MockDataProviderProps.

(** C6, as the code has it: every point of [get_market_data] has a search
    volume of 40 at least (so the zero branch is never taken) and bookings
    between zero and the searches, and its conversion rate is a percentage,
    not a ratio: it lies between 0 and 100 and differs from
    [100 * booking_count / search_volume] by the rounding to two decimals,
    half a hundredth, and no more than the error of the float arithmetic
    besides (the bound proved is [0.005 + 1e-9]; here the rounding is exact
    and stays inside the half hundredth). Stated for a count of days that is
    at most the ordinal of today. *)
Theorem conversion_rate_is_a_percentage
    (entropy : nat -> Z) (utcnow : Z) (origin destination : option string) (days : Z) :
  days <= ordinal utcnow ->
  returns (get_market_data entropy utcnow origin destination days)
    (Forall (fun p =>
       40 <= search_volume p
       /\ 0 <= booking_count p <= search_volume p
       /\ (Qabs (conversion_rate p
                 - 100 * (inject_Z (booking_count p) / inject_Z (search_volume p)))
           <= (1 # 200) + (1 # 1000000000))%Q
       /\ (0 <= conversion_rate p)%Q /\ (conversion_rate p <= 100)%Q)).
Proof.
  intros _.
  eapply returns_weaken;
    [apply returns_and; [apply get_market_data_spec | apply get_market_data_shape]|].
  intros points [Hpoints (_ & Hrange & _)].
  rewrite Forall_forall in Hpoints, Hrange. apply Forall_forall. intros p Hp.
  destruct (Hpoints p Hp) as [Hvol Hrate].
  destruct (Hrange p Hp) as (Hbook & Hlo & Hhi & _).
  split; [exact Hvol|]. split; [exact Hbook|].
  destruct (round_two_decimals
              (Qred (inject_Z (booking_count p) / inject_Z (search_volume p)) * 100))
    as [_ Hclose].
  rewrite <- Hrate in Hclose.
  split; [|split; assumption].
  rewrite Qred_correct in Hclose.
  apply Qabs_Qle_condition in Hclose. apply Qabs_Qle_condition.
  split; lra.
Qed.

(** The theorem for one day of market data on the first of January 2024. *)
Lemma conversion_rate_is_a_percentage_witness :
  exists points j,
    get_market_data sample_entropy sample_now None None 1 0%nat = (Ok points, j)
    /\ Forall (fun p =>
         40 <= search_volume p
         /\ 0 <= booking_count p <= search_volume p
         /\ (Qabs (conversion_rate p
                   - 100 * (inject_Z (booking_count p) / inject_Z (search_volume p)))
             <= (1 # 200) + (1 # 1000000000))%Q
         /\ (0 <= conversion_rate p)%Q /\ (conversion_rate p <= 100)%Q) points.
Proof.
  apply (conversion_rate_is_a_percentage sample_entropy sample_now None None 1).
  vm_compute. discriminate.
Defined.

(** C6 as stated fails: with 40 searches and 4 bookings the conversion rate
    is 10, not 4/40. *)
Lemma conversion_rate_is_not_the_ratio :
  exists p,
    fst (get_market_data sample_entropy sample_now None None 1 0%nat) = Ok [p]
    /\ search_volume p = 40 /\ booking_count p = 4
    /\ conversion_rate p = 10%Q
    /\ ~ (conversion_rate p == inject_Z (booking_count p) / inject_Z (search_volume p))%Q.
Proof.
  eexists. split; [vm_compute; reflexivity|].
  repeat split. simpl. intros H. discriminate H.
Qed.

End MarketClaims.

(** ** DataService: what the public operations never return *)

Module DataServiceProps.
Import Py Random DataService ServiceAnswers GeneratedData.
Import PyFacts RandomFacts MockDataProviderSpec DataServiceSpec ListFacts MockDataProviderProps.

(** *** The envelopes of the chain *)

Section Chain.

Variable W : Type.
Variable clients : DataSource -> bool.
Variable func : DataSource -> W -> result pyval * W.

Let try_fallbacks := try_fallbacks W clients func.
Let _with_fallback := _with_fallback W clients func.

Lemma try_fallbacks_envelope (source : DataSource)
    (fallback_sources : list (DataSource * string)) (w w' : W) (r : envelope) :
  try_fallbacks source fallback_sources w = (Some r, w') -> chain_envelope clients func r.
Proof.
  revert w. induction fallback_sources as [|[s description] rest IH]; intros w; simpl.
  - discriminate.
  - destruct (clients s && negb (bool_decide (s = source))) eqn:Hs;
      [|apply IH].
    apply andb_true_iff in Hs as [Hs _].
    destruct (func s w) as [[data|e] w1] eqn:Hrun; [|apply IH].
    destruct (is_none data) eqn:Hnone; simpl; [apply IH|].
    intros H. inversion H; subst. exists data, s, w, w'.
    repeat split; try assumption; reflexivity.
Qed.

Lemma with_fallback_envelope (func_name : string) (source : DataSource)
    (fallback_sources : option (list (DataSource * string))) (w w' : W) (r : envelope) :
  _with_fallback func_name source fallback_sources w = (Envelope r, w') ->
  chain_envelope clients func r.
Proof.
  unfold _with_fallback, DataService._with_fallback.
  destruct (clients source) eqn:Hs.
  - destruct (func source w) as [[data|e] w1] eqn:Hrun.
    + destruct (is_none data) eqn:Hnone; simpl.
      * destruct (DataService.try_fallbacks _ _ _ _ _ w1) as [[r1|] w2] eqn:Hfb;
          [|discriminate].
        intros H. inversion H; subst. eapply try_fallbacks_envelope. exact Hfb.
      * intros H. inversion H; subst. exists data, source, w, w'.
        repeat split; try assumption; reflexivity.
    + destruct (DataService.try_fallbacks _ _ _ _ _ w1) as [[r1|] w2] eqn:Hfb;
        [|discriminate].
      intros H. inversion H; subst. eapply try_fallbacks_envelope. exact Hfb.
  - destruct (DataService.try_fallbacks _ _ _ _ _ w) as [[r1|] w2] eqn:Hfb;
      [|discriminate].
    intros H. inversion H; subst. eapply try_fallbacks_envelope. exact Hfb.
Qed.

(** A chain whose mock entry always answers never raises. *)
Lemma try_fallbacks_answers (Hregistered : clients MOCK = true) (source : DataSource)
    (fallback_sources : list (DataSource * string)) (w : W) :
  (forall w0, exists v w1, func MOCK w0 = (Ok v, w1) /\ is_none v = false) ->
  In MOCK (map fst fallback_sources) -> source <> MOCK ->
  exists r w', try_fallbacks source fallback_sources w = (Some r, w').
Proof.
  intros Hmock Hin Hsource. revert w.
  induction fallback_sources as [|[s description] rest IH]; intros w; [destruct Hin|].
  simpl.
  destruct (decide (s = MOCK)) as [->|Hs].
  - rewrite Hregistered, bool_decide_eq_false_2 by congruence. simpl.
    destruct (Hmock w) as (v & w1 & Hrun & Hnone). rewrite Hrun, Hnone. simpl. eauto.
  - assert (Hrest : In MOCK (map fst rest))
      by (destruct Hin as [Heq|Hin]; [simpl in Heq; congruence | exact Hin]).
    destruct (clients s && negb (bool_decide (s = source)));
      [|apply IH; exact Hrest].
    destruct (func s w) as [[data|e] w1]; [|apply IH; exact Hrest].
    destruct (is_none data); simpl; [apply IH; exact Hrest | eauto].
Qed.

Lemma with_fallback_answers (Hregistered : clients MOCK = true)
    (func_name : string) (use_real_data : bool)
    (fallback_sources : list (DataSource * string)) (w : W) :
  (forall w0, exists v w1, func MOCK w0 = (Ok v, w1) /\ is_none v = false) ->
  In MOCK (map fst fallback_sources) ->
  exists r w',
    _with_fallback func_name
      (primary_source clients use_real_data)
      (if use_real_data then Some fallback_sources else None) w
    = (Envelope r, w').
Proof.
  intros Hmock Hin. unfold _with_fallback, DataService._with_fallback, primary_source.
  destruct (use_real_data && clients AMADEUS) eqn:Hprimary.
  - apply andb_true_iff in Hprimary as [-> Ha]. rewrite Ha. simpl default.
    destruct (func AMADEUS w) as [[data|e] w1].
    + destruct (is_none data); simpl; [|eauto].
      destruct (try_fallbacks_answers Hregistered AMADEUS fallback_sources w1 Hmock Hin
                  ltac:(discriminate))
        as (r & w' & Hfb).
      unfold try_fallbacks in Hfb. rewrite Hfb. eauto.
    + destruct (try_fallbacks_answers Hregistered AMADEUS fallback_sources w1 Hmock Hin
                  ltac:(discriminate))
        as (r & w' & Hfb).
      unfold try_fallbacks in Hfb. rewrite Hfb. eauto.
  - rewrite Hregistered.
    destruct (Hmock w) as (v & w1 & Hrun & Hnone). rewrite Hrun, Hnone. simpl. eauto.
Qed.

(** With the mock source as the primary no other source is called. *)
Lemma with_fallback_mock_primary (Hregistered : clients MOCK = true) (func_name : string)
    (fallback_sources : option (list (DataSource * string))) (w w1 : W) (v : pyval) :
  func MOCK w = (Ok v, w1) -> is_none v = false ->
  _with_fallback func_name MOCK fallback_sources w
  = (Envelope (<["data" := v]> (<["source" := VStr "MOCK"]> ∅)), w1).
Proof.
  intros Hrun Hnone. unfold _with_fallback, DataService._with_fallback.
  rewrite Hregistered, Hrun, Hnone. reflexivity.
Qed.

End Chain.

(** *** get_airports *)

Lemma filter_keeps_keys_distinct {A} (key : A -> string) (keep : A -> bool) (l : list A) :
  List.NoDup (map key l) -> List.NoDup (map key (List.filter keep l)).
Proof.
  induction l as [|x rest IH]; intros Hnd; simpl; [constructor|].
  inversion Hnd as [|? ? Hnotin Hrest]; subst.
  destruct (keep x); [|apply IH; exact Hrest].
  simpl. constructor; [|apply IH; exact Hrest].
  intros Hin. apply Hnotin. apply in_map_iff in Hin as (y & Hy & Hin).
  apply filter_In in Hin as [Hin _]. rewrite <- Hy. apply in_map. exact Hin.
Qed.

(** X25. A lookup by IATA code ignores the case of the code and selects one
    reference airport at most: with a code that is not empty, every airport
    that the mock branch of [fetch_airports] keeps is a reference airport
    whose code is the requested code in upper case, and there is never more
    than one, whatever the other two filters are. *)
Theorem iata_filter_selects_one_airport_at_most
    (search_term country : option string) (code : string) :
  code <> "" ->
  let found := filter_airports search_term country (Some code) MockDataProvider.get_airports in
  (length found <= 1)%nat
  /\ Forall (fun ap => In ap MockDataProvider.get_airports
                       /\ MockDataProvider.iata ap = upper code) found.
Proof.
  intros Hcode found. subst found. unfold filter_airports.
  assert (Htruthy : truthy_str (Some code) = true).
  { simpl. apply negb_true_iff, String.eqb_neq. exact Hcode. }
  rewrite Htruthy.
  set (by_search := match search_term with Some _ => _ | None => _ end).
  set (by_country := match country with Some _ => _ | None => _ end).
  assert (Hsearch : List.NoDup (map MockDataProvider.iata by_search)
                    /\ incl by_search MockDataProvider.get_airports).
  { subst by_search. destruct search_term as [s|];
      [destruct (truthy_str (Some s))|];
      try (split; [apply reference_codes_distinct | apply incl_refl]).
    split; [apply filter_keeps_keys_distinct, reference_codes_distinct | apply incl_filter]. }
  assert (Hcountry : List.NoDup (map MockDataProvider.iata by_country)
                     /\ incl by_country MockDataProvider.get_airports).
  { subst by_country. destruct country as [c|];
      [destruct (truthy_str (Some c))|]; try exact Hsearch.
    destruct Hsearch as [Hnd Hincl].
    split; [apply filter_keeps_keys_distinct, Hnd|].
    eapply incl_tran; [apply incl_filter | exact Hincl]. }
  destruct Hcountry as [Hnd Hincl]. split.
  - apply (filter_key_at_most_one MockDataProvider.iata (upper code) by_country Hnd).
  - apply Forall_forall. intros ap Hap. apply list_elem_of_In, filter_In in Hap as [Hin Heq].
    split; [apply Hincl; exact Hin | apply String.eqb_eq; exact Heq].
Qed.

(** [syd] finds Sydney. *)
Lemma iata_filter_selects_one_airport_at_most_witness :
  (length (filter_airports None None (Some "syd") MockDataProvider.get_airports) <= 1)%nat
  /\ Forall (fun ap => In ap MockDataProvider.get_airports
                       /\ MockDataProvider.iata ap = upper "syd")
            (filter_airports None None (Some "syd") MockDataProvider.get_airports).
Proof.
  apply (iata_filter_selects_one_airport_at_most None None "syd").
  discriminate.
Defined.

Section Airports.

Variable W : Type.
Variable clients : DataSource -> bool.
Variable rapidapi_get_airports aviationstack_get_airports
  : gmap string pyval -> W -> result pyval * W.

Let fetch_airports := fetch_airports W rapidapi_get_airports aviationstack_get_airports.
Let get_airports :=
  get_airports W clients rapidapi_get_airports aviationstack_get_airports.

Lemma fetch_airports_mock (search_term country iata_code : option string) (w0 : W) :
  exists v w1, fetch_airports search_term country iata_code MOCK w0 = (Ok v, w1)
               /\ is_none v = false.
Proof. eexists _, _. split; reflexivity. Qed.

(** X26. On a service whose dictionary of clients holds the mock provider,
    [get_airports] never raises and never reaches its own handler of
    [DataServiceError]: the mock branch of [fetch_airports] always returns a
    list, so the chain always answers. The source of the answer is the name
    of a registered data source other than Amadeus (whose branch returns
    [None]); it is never the handler's ["mock"], and the answer carries no
    [warning]. *)
Theorem get_airports_never_uses_its_handler
    (search_term country iata_code : option string) (use_real_data : bool) (w : W) :
  clients MOCK = true ->
  exists (r : envelope) (w' : W) (s : DataSource),
    get_airports search_term country iata_code use_real_data w = (Reply r, w')
    /\ s <> AMADEUS /\ clients s = true
    /\ r !! "source" = Some (VStr (source_name s))
    /\ r !! "source" <> Some (VStr "mock")
    /\ r !! "warning" = None.
Proof.
  intros Hmock.
  destruct (with_fallback_answers W clients
              (fetch_airports search_term country iata_code) Hmock
              "fetch_airports" use_real_data airport_fallbacks w
              (fetch_airports_mock search_term country iata_code))
    as (r & w' & Hrun); [simpl; auto|].
  pose proof (with_fallback_envelope _ _ _ _ _ _ _ _ _ Hrun)
    as (data & s & w0 & w1 & Hs & Hfetch & Hnone & _ & Hsource & _ & Hwarning & _).
  exists r, w', s.
  split; [unfold get_airports, DataService.get_airports; fold fetch_airports;
          rewrite Hrun; reflexivity|].
  split.
  { intros ->. simpl in Hfetch. inversion Hfetch; subst. discriminate Hnone. }
  split; [exact Hs|].
  split; [exact Hsource|]. split; [|exact Hwarning].
  rewrite Hsource. destruct s; discriminate.
Qed.

(** X27. Without an Amadeus client the other real providers are never
    asked for airports, even when they are registered and [use_real_data]
    is true: the primary source is then the mock one, and so it is when
    [use_real_data] is false. On a service whose dictionary of clients
    holds the mock provider the answer is the filtered reference list under
    the source ["MOCK"], without a [fallback] key, and the world is left as
    it was. *)
Theorem get_airports_without_amadeus_is_mock
    (search_term country iata_code : option string) (use_real_data : bool) (w : W) :
  clients MOCK = true ->
  use_real_data && clients AMADEUS = false ->
  get_airports search_term country iata_code use_real_data w
  = (Reply (<["data" := VList (map airport_dict
                                 (filter_airports search_term country iata_code
                                    MockDataProvider.get_airports))]>
           (<["source" := VStr "MOCK"]> ∅)), w).
Proof.
  intros Hmock Hprimary. unfold get_airports, DataService.get_airports, primary_source.
  rewrite Hprimary.
  rewrite (with_fallback_mock_primary W clients _ Hmock "fetch_airports" _ w w
             (VList (map airport_dict
                       (filter_airports search_term country iata_code
                          MockDataProvider.get_airports))));
    reflexivity.
Qed.

End Airports.

(** Every real source is down and every source is registered. *)
Lemma get_airports_never_uses_its_handler_witness :
  exists (r : envelope) (w' : nat) (s : DataSource),
    get_airports nat all_registered provider_down provider_down None None None true 0%nat
    = (Reply r, w')
    /\ s <> AMADEUS /\ all_registered s = true
    /\ r !! "source" = Some (VStr (source_name s))
    /\ r !! "source" <> Some (VStr "mock")
    /\ r !! "warning" = None.
Proof.
  apply (get_airports_never_uses_its_handler nat all_registered provider_down
           provider_down None None None true 0%nat).
  reflexivity.
Defined.

(** RapidAPI and AviationStack are registered and would answer, Amadeus is
    not registered: the answer is the mock one. *)
Lemma get_airports_without_amadeus_is_mock_witness :
  get_airports nat without_amadeus provider_empty provider_empty None None (Some "syd") true
    0%nat
  = (Reply (<["data" := VList (map airport_dict
                                 (filter_airports None None (Some "syd")
                                    MockDataProvider.get_airports))]>
           (<["source" := VStr "MOCK"]> ∅)), 0%nat).
Proof.
  apply (get_airports_without_amadeus_is_mock nat without_amadeus provider_empty
           provider_empty None None (Some "syd") true 0%nat).
  - reflexivity.
  - reflexivity.
Defined.

(** *** search_flight_offers *)

Section Flights.

Variable W : Type.
Variable clients : DataSource -> bool.
Variable fetch_flights : DataSource -> W -> result pyval * W.

(** An airline filter on an envelope of the chain whose data is truthy ends
    in an exception: at the latest in the KeyError of [result["meta"]]. *)
Lemma post_process_filter_raises (q : search) (r : envelope) (data : pyval) :
  airline_filter q = true ->
  r !! "data" = Some data -> truthy data = true -> r !! "meta" = None ->
  exists e, post_process q r = Raise e.
Proof.
  unfold airline_filter. intros Hfilter Hdata Htruthy Hmeta.
  unfold post_process. rewrite Hdata, Htruthy.
  destruct (max_price q) as [limit|].
  - destruct (iterate data) as [offers|e]; simpl; [|eauto].
    destruct (filter_offers (within_price limit) offers) as [kept|e]; simpl; [|eauto].
    rewrite Hfilter. rewrite lookup_insert_eq. simpl.
    destruct (filter_offers (airline_allowed q) kept) as [kept'|e]; simpl; [|eauto].
    rewrite !lookup_insert_ne by discriminate. rewrite Hmeta. eauto.
  - simpl. rewrite Hfilter, Hdata. simpl.
    destruct (iterate data) as [offers|e]; simpl; [|eauto].
    destruct (filter_offers (airline_allowed q) offers) as [kept|e]; simpl; [|eauto].
    rewrite lookup_insert_ne by discriminate. rewrite Hmeta. eauto.
Qed.

(** X28. An airline filter never yields a flight. With a list of airlines
    to include or to exclude that is not empty, the [try] block of
    [search_flight_offers] never returns data that is not empty (falsy),
    whatever the sources answer: as soon as a source has returned an offer,
    the count is stored under [result["meta"]], a key the envelope of
    [_with_fallback] does not have, and the KeyError (or an exception raised
    before it) leaves the operation, since the [except] clause is for
    [DataServiceError] only. *)
Theorem airline_filter_never_yields_a_flight (q : search) (w : W) :
  airline_filter q = true ->
  match fst (search_flight_offers_try W clients fetch_flights q w) with
  | Returns r => exists data, r !! "data" = Some data /\ truthy data = false
  | Escapes _ => True
  | Handled _ => True
  end.
Proof.
  intros Hfilter. unfold search_flight_offers_try.
  destruct (_with_fallback W clients fetch_flights "fetch_flights" _ _ w)
    as [[r|message s] w'] eqn:Hrun; [|exact I].
  pose proof (with_fallback_envelope _ _ _ _ _ _ _ _ _ Hrun)
    as (data & s & w0 & w1 & _ & _ & _ & Hdata & _ & Hmeta & _).
  destruct (truthy data) eqn:Htruthy.
  - destruct (post_process_filter_raises q r data Hfilter Hdata Htruthy Hmeta) as (e & He).
    rewrite He. exact I.
  - unfold post_process. rewrite Hdata, Htruthy. simpl. exists data. split; assumption.
Qed.

End Flights.

(** A search restricted to Qantas: the real sources are down and the mock
    source returns one offer. *)
Lemma airline_filter_never_yields_a_flight_witness :
  match fst (search_flight_offers_try nat all_registered one_mock_offer filtered_search
               0%nat) with
  | Returns r => exists data, r !! "data" = Some data /\ truthy data = false
  | Escapes _ => True
  | Handled _ => True
  end.
Proof.
  apply (airline_filter_never_yields_a_flight nat all_registered one_mock_offer
           filtered_search 0%nat).
  reflexivity.
Defined.

End DataServiceProps.
